(** * Incial front end: calendar aggregation and meeting tracker

    A shallow embedding of the logic of
    [client/pages/UniversalCalendarPage.tsx] and
    [client/pages/MeetingTrackerPage.tsx]: the item normalizer of the
    calendar, its month grid, its monthly statistics, its quick-create
    drafts, its drag-and-drop reschedule, its month navigation and its
    toggles, the fetch, save, delete and status handlers of both pages and
    the list sections of the meeting tracker.

    The pages are written in TypeScript over the JavaScript built-ins
    [Date], [String], [Number] and [Array]. Part I models the built-ins
    the pages call, following ECMA-262; Part II embeds the pages; Part III
    fixes the vocabulary of the properties and some sample data; Part IV
    states and proves the properties of the normalizer, the grid, the
    statistics, the drafts, the drop and the sections; Part V those of
    the navigation, the handlers and their compositions. *)

From Stdlib Require Import ZArith List String Ascii Bool Lia.
From Stdlib Require Import Permutation Sorted DecimalString DecimalZ.
Import ListNotations.

#[local] Open Scope string_scope.
#[local] Open Scope list_scope.
#[local] Open Scope Z_scope.

(** Concatenation of strings, as in a template literal. *)
Infix "+++" := String.append (right associativity, at level 60).

(* ================================================================== *)
(** * Part I: the JavaScript built-ins used by the pages *)
(* ================================================================== *)

(** ** Numbers

    Every number the pages compute with is an integer or [NaN]: time
    values in milliseconds, calendar fields, array lengths. A time value
    is at most 8.64e15 in magnitude, below 2^53, so the integers involved
    are exact as IEEE doubles and [Z] arithmetic agrees with the
    JavaScript one. [None] is [NaN]. *)

Definition Num := option Z.
Definition NaN : Num := None.

Definition num_add (a b : Num) : Num :=
  match a, b with
  | Some x, Some y => Some (x + y)
  | _, _ => NaN
  end.

Definition num_sub (a b : Num) : Num :=
  match a, b with
  | Some x, Some y => Some (x - y)
  | _, _ => NaN
  end.

(** [a > 0], as the sort comparators are consulted: a [NaN] comparison
    result is treated as [+0] by [SortCompare]. *)
Definition num_pos (a : Num) : bool :=
  match a with
  | Some x => 0 <? x
  | None => false
  end.

(** ** Strings *)

Module JSString.

(** [String(n)] and the template-literal conversion [`${n}`] of a
    number: the decimal digits, a leading minus sign for a negative
    integer, ["NaN"] for [NaN]. *)
Definition ofZ (z : Z) : string := NilZero.string_of_int (Z.to_int z).

Definition ofNum (n : Num) : string :=
  match n with
  | Some z => ofZ z
  | None => "NaN"
  end.

Fixpoint repeat (c : ascii) (n : nat) : string :=
  match n with
  | O => ""
  | S k => String c (repeat c k)
  end.

(** [s.padStart(n, c)] for a one-character filler [c]. *)
Definition padStart (n : nat) (c : ascii) (s : string) : string :=
  repeat c (n - String.length s) +++ s.

(** [s.startsWith(p)] *)
Fixpoint startsWith (p s : string) : bool :=
  match p, s with
  | EmptyString, _ => true
  | String a p', String b s' => Ascii.eqb a b && startsWith p' s'
  | String _ _, EmptyString => false
  end.

(** [s.includes(p)]: [p] occurs at some position of [s]. *)
Fixpoint includes (p s : string) : bool :=
  startsWith p s ||
  match s with
  | EmptyString => false
  | String _ s' => includes p s'
  end.

(** [s.toLowerCase()]. Strings are modelled as byte strings; the
    letters [A]-[Z] are mapped to [a]-[z] and every other byte is kept,
    which is the JavaScript function on ASCII text. *)
Definition lowerChar (c : ascii) : ascii :=
  let n := N_of_ascii c in
  if ((65 <=? n) && (n <=? 90))%N then ascii_of_N (n + 32) else c.

Fixpoint toLowerCase (s : string) : string :=
  match s with
  | EmptyString => EmptyString
  | String c s' => String (lowerChar c) (toLowerCase s')
  end.

(** [s.split(c)] for a one-character separator [c]: the pieces between
    the occurrences of [c]; [cur] is the piece read so far. *)
Fixpoint splitAux (c : ascii) (s : string) (cur : string) : list string :=
  match s with
  | EmptyString => [cur]
  | String a s' =>
      if Ascii.eqb a c then cur :: splitAux c s' ""
      else splitAux c s' (cur +++ String a "")
  end.

Definition split (c : ascii) (s : string) : list string := splitAux c s "".

(** [Number(s)] on the strings the pages convert: the empty string is
    0, a run of decimal digits with an optional sign is its value.
    Literals with a fraction, an exponent, a radix prefix or
    surrounding white space do not occur in the date keys this program
    splits and are not integers in general; they are mapped to [NaN]. *)
Definition toNumber (s : string) : Num :=
  match s with
  | EmptyString => Some 0
  | String a s' =>
      if Ascii.eqb a "-" then
        option_map (fun u => - Z.of_uint u) (NilZero.uint_of_string s')
      else if Ascii.eqb a "+" then
        option_map Z.of_uint (NilZero.uint_of_string s')
      else option_map Z.of_uint (NilZero.uint_of_string s)
  end.

End JSString.

(** The local helper [pad] of [handleDrop], and the inline
    [String(n).padStart(2, '0')] of the other functions. *)
Definition pad (n : Num) : string :=
  JSString.padStart 2 "0" (JSString.ofNum n).

(** ** Dates (ECMA-262, section "Date Objects") *)

Module JSDate.

Definition msPerDay : Z := 86400000.
Definition msPerHour : Z := 3600000.
Definition msPerMinute : Z := 60000.
Definition msPerSecond : Z := 1000.

Definition Day (t : Z) : Z := t / msPerDay.
Definition TimeWithinDay (t : Z) : Z := t mod msPerDay.

Definition isLeap (y : Z) : bool :=
  (y mod 4 =? 0) && (negb (y mod 100 =? 0) || (y mod 400 =? 0)).

Definition DaysInYear (y : Z) : Z := if isLeap y then 366 else 365.

Definition DayFromYear (y : Z) : Z :=
  365 * (y - 1970) + (y - 1969) / 4 - (y - 1901) / 100 + (y - 1601) / 400.

(** The year of a day number: the largest [y] with
    [DayFromYear y <= d]. It is computed from the mean length of a
    Gregorian year, which is off by at most one year. *)
Definition YearFromDay (d : Z) : Z :=
  let y0 := 1970 + (d * 400) / 146097 in
  if d <? DayFromYear y0 then y0 - 1
  else if DayFromYear (y0 + 1) <=? d then y0 + 1
  else y0.

Definition YearFromTime (t : Z) : Z := YearFromDay (Day t).

Definition InLeapYear (t : Z) : Z :=
  if isLeap (YearFromTime t) then 1 else 0.

Definition DayWithinYear (t : Z) : Z :=
  Day t - DayFromYear (YearFromTime t).

(** Number of days of the year before month [m] (0 = January). *)
Definition daysBeforeMonth (leap m : Z) : Z :=
  match m with
  | 0 => 0
  | 1 => 31
  | 2 => 59 + leap
  | 3 => 90 + leap
  | 4 => 120 + leap
  | 5 => 151 + leap
  | 6 => 181 + leap
  | 7 => 212 + leap
  | 8 => 243 + leap
  | 9 => 273 + leap
  | 10 => 304 + leap
  | 11 => 334 + leap
  | _ => 365 + leap
  end.

Definition MonthFromTime (t : Z) : Z :=
  let d := DayWithinYear t in
  let l := InLeapYear t in
  if d <? 31 then 0
  else if d <? 59 + l then 1
  else if d <? 90 + l then 2
  else if d <? 120 + l then 3
  else if d <? 151 + l then 4
  else if d <? 181 + l then 5
  else if d <? 212 + l then 6
  else if d <? 243 + l then 7
  else if d <? 273 + l then 8
  else if d <? 304 + l then 9
  else if d <? 334 + l then 10
  else 11.

Definition DateFromTime (t : Z) : Z :=
  DayWithinYear t - daysBeforeMonth (InLeapYear t) (MonthFromTime t) + 1.

Definition WeekDay (t : Z) : Z := (Day t + 4) mod 7.
Definition HourFromTime (t : Z) : Z := (t / msPerHour) mod 24.
Definition MinFromTime (t : Z) : Z := (t / msPerMinute) mod 60.
Definition SecFromTime (t : Z) : Z := (t / msPerSecond) mod 60.
Definition msFromTime (t : Z) : Z := t mod msPerSecond.

Definition MakeTime (hour min sec ms : Z) : Z :=
  hour * msPerHour + min * msPerMinute + sec * msPerSecond + ms.

(** [MakeDay]: a month outside 0..11 carries into the year, a date
    outside the month carries into the neighbouring months. *)
Definition MakeDay (year month date : Z) : Z :=
  let ym := year + month / 12 in
  let mn := month mod 12 in
  DayFromYear ym + daysBeforeMonth (if isLeap ym then 1 else 0) mn + date - 1.

Definition MakeDate (day time : Z) : Z := day * msPerDay + time.

Definition TimeClip (t : Z) : Num :=
  if 8640000000000000 <? Z.abs t then NaN else Some t.

(** A [Date] object holds a time value: milliseconds since the epoch in
    UTC, or [NaN] for an invalid date. *)
Definition t := Num.

(** *** Parsing: the date-time string format

    [YYYY], [YYYY-MM] or [YYYY-MM-DD] (or an expanded year of a sign
    and six digits), optionally followed by [THH:mm], [THH:mm:ss] or
    [THH:mm:ss.sss], optionally followed by [Z] or a [+HH:mm] / [-HH:mm]
    offset. What an engine does with a string outside this format is
    implementation-defined; such a string is an invalid date here. *)

Definition digitVal (c : ascii) : option Z :=
  let n := Z.of_N (N_of_ascii c) in
  if (48 <=? n) && (n <=? 57) then Some (n - 48) else None.

Fixpoint readDigits (k : nat) (s : string) (acc : Z) : option (Z * string) :=
  match k with
  | O => Some (acc, s)
  | S k' =>
      match s with
      | String c s' =>
          match digitVal c with
          | Some d => readDigits k' s' (10 * acc + d)
          | None => None
          end
      | EmptyString => None
      end
  end.

Notation "'let?' x ':=' e 'in' k" :=
  (match e with Some x => k | None => None end)
  (at level 10, x pattern, e at level 100, k at level 200).

Definition readYear (s : string) : option (Z * string) :=
  match s with
  | String "+" s' => readDigits 6 s' 0
  | String "-" s' =>
      let? (y, r) := readDigits 6 s' 0 in
      if y =? 0 then None else Some (- y, r)
  | _ => readDigits 4 s 0
  end.

(** The UTC offset, in milliseconds: [Some None] when it is absent. *)
Definition readOffset (s : string) : option (option Z) :=
  match s with
  | EmptyString => Some None
  | String "Z" EmptyString => Some (Some 0)
  | String c s' =>
      let? sign :=
        (if Ascii.eqb c "+" then Some 1
         else if Ascii.eqb c "-" then Some (-1) else None) in
      let? (h, r1) := readDigits 2 s' 0 in
      match r1 with
      | String ":" r2 =>
          let? (m, r3) := readDigits 2 r2 0 in
          match r3 with
          | EmptyString =>
              if (h <? 24) && (m <? 60)
              then Some (Some (sign * (h * msPerHour + m * msPerMinute)))
              else None
          | _ => None
          end
      | _ => None
      end
  end.

(** The time of day after the [T], in milliseconds, and the offset. *)
Definition readTime (s : string) : option (Z * option Z) :=
  let? (h, r1) := readDigits 2 s 0 in
  match r1 with
  | String ":" r2 =>
      let? (m, r3) := readDigits 2 r2 0 in
      let? (sec, ms, r6) :=
        match r3 with
        | String ":" r4 =>
            let? (sec, r5) := readDigits 2 r4 0 in
            match r5 with
            | String "." r6 =>
                let? (ms, r7) := readDigits 3 r6 0 in Some (sec, ms, r7)
            | _ => Some (sec, 0, r5)
            end
        | _ => Some (0, 0, r3)
        end in
      let? off := readOffset r6 in
      if (m <? 60) && (sec <? 60) &&
         ((h <? 24) || ((h =? 24) && (m =? 0) && (sec =? 0) && (ms =? 0)))
      then Some (MakeTime h m sec ms, off)
      else None
  | _ => None
  end.

(** The date part: year, month (1..12), day (1..31), and what follows. *)
Definition readDate (s : string) : option (Z * Z * Z * string) :=
  let? (y, r1) := readYear s in
  match r1 with
  | String "-" r2 =>
      let? (m, r3) := readDigits 2 r2 0 in
      match r3 with
      | String "-" r4 =>
          let? (d, r5) := readDigits 2 r4 0 in Some (y, m, d, r5)
      | _ => Some (y, m, 1, r3)
      end
  | _ => Some (y, 1, 1, r1)
  end.

Section LocalZone.

(** The offset of the local time zone from UTC, in milliseconds. The
    zone is taken to have one offset for all instants (as
    Asia/Kolkata, the zone the pages format times in, has). *)
Variable LocalTZA : Z.

Definition LocalTime (t : Z) : Z := t + LocalTZA.
Definition UTC (t : Z) : Z := t - LocalTZA.

(** [Date.parse(s)], the time value of [new Date(s)]: a date-only
    form is a UTC time, a date-time form without offset a local
    time. *)
Definition parse (s : string) : t :=
  let? (y, m, d, r) := readDate s in
  if (1 <=? m) && (m <=? 12) && (1 <=? d) && (d <=? 31) then
    let day := MakeDay y (m - 1) d in
    match r with
    | EmptyString => TimeClip (MakeDate day 0)
    | String "T" r' =>
        let? (time, off) := readTime r' in
        match off with
        | Some o => TimeClip (MakeDate day time - o)
        | None => TimeClip (UTC (MakeDate day time))
        end
    | _ => None
    end
  else None.

(** [new Date(year, month, date, hours, minutes, seconds, ms)]: the
    fields are local time; a year from 0 to 99 means 1900 + year. An
    argument the caller leaves out is passed as its default here
    ([1] for the date, [0] for the time fields). *)
Definition ofFields (year month date hours minutes seconds ms : Num) : t :=
  match year, month, date, hours, minutes, seconds, ms with
  | Some y, Some mo, Some d, Some h, Some mi, Some s, Some milli =>
      let yr := if (0 <=? y) && (y <=? 99) then 1900 + y else y in
      TimeClip (UTC (MakeDate (MakeDay yr mo d) (MakeTime h mi s milli)))
  | _, _, _, _, _, _, _ => NaN
  end.

Definition getTime (d : t) : Num := d.

Definition localField (f : Z -> Z) (d : t) : Num :=
  option_map (fun tv => f (LocalTime tv)) d.

Definition getFullYear : t -> Num := localField YearFromTime.
Definition getMonth : t -> Num := localField MonthFromTime.
Definition getDate : t -> Num := localField DateFromTime.
Definition getDay : t -> Num := localField WeekDay.
Definition getHours : t -> Num := localField HourFromTime.
Definition getMinutes : t -> Num := localField MinFromTime.

(** [d.setHours(hour, min, sec, ms)]: the new time value of [d]. *)
Definition setHours (d : t) (hour min sec ms : Num) : t :=
  match d, hour, min, sec, ms with
  | Some tv, Some h, Some mi, Some s, Some milli =>
      TimeClip
        (UTC (MakeDate (Day (LocalTime tv)) (MakeTime h mi s milli)))
  | _, _, _, _, _ => NaN
  end.

End LocalZone.

(** [d.toISOString()] of a valid date: the UTC fields, with a
    four-digit year from 0 to 9999 and a signed six-digit one
    otherwise. *)
Definition padZ (n : nat) (z : Z) : string :=
  JSString.padStart n "0" (JSString.ofZ z).

Definition isoYear (y : Z) : string :=
  if (0 <=? y) && (y <=? 9999) then padZ 4 y
  else if y <? 0 then "-" +++ padZ 6 (- y)
  else "+" +++ padZ 6 y.

Definition toISOString (tv : Z) : string :=
  isoYear (YearFromTime tv) +++ "-" +++ padZ 2 (MonthFromTime tv + 1)
    +++ "-" +++ padZ 2 (DateFromTime tv)
    +++ "T" +++ padZ 2 (HourFromTime tv)
    +++ ":" +++ padZ 2 (MinFromTime tv)
    +++ ":" +++ padZ 2 (SecFromTime tv)
    +++ "." +++ padZ 3 (msFromTime tv) +++ "Z".

End JSDate.

(** ** Arrays *)

Module JSArray.

Section Sort.
Context {A : Type}.

(** [arr.sort(cmp)] is stable, and for a comparator that is a
    consistent order its result is the one stable sorted arrangement,
    whatever algorithm the engine runs; it is modelled by a stable
    insertion sort. An element moves behind another only when the
    comparator is positive. *)
Variable cmp : A -> A -> Num.

Fixpoint insert (x : A) (l : list A) : list A :=
  match l with
  | [] => [x]
  | y :: l' =>
      if num_pos (cmp x y) then y :: insert x l' else x :: y :: l'
  end.

Definition sort (l : list A) : list A := fold_right insert [] l.
End Sort.

(** [arr.includes(s)] on an array of strings. *)
Definition includes (arr : list string) (s : string) : bool :=
  existsb (String.eqb s) arr.

(** [arr.slice(0, n)] *)
Definition slice0 {A} (n : nat) (arr : list A) : list A := firstn n arr.

(** [arr.push(x)] *)
Definition push {A} (arr : list A) (x : A) : list A := arr ++ [x].

(** [arr.forEach(f)] where [f] updates an accumulator [acc]. *)
Definition forEach {A B} (arr : list A) (f : B -> A -> B) (acc : B) : B :=
  fold_left f arr acc.

(** [const [a, b, c] = arr]: a missing element is [undefined], which
    the arithmetic and the [Date] constructor turn into [NaN]. *)
Definition at_ (arr : list Num) (i : nat) : Num := nth i arr NaN.

End JSArray.

(** A value tested by [if (v)] or [v || w]: [undefined], [0] and the empty
    string are falsy. *)
Definition truthyId (id : option Z) : bool :=
  match id with
  | Some n => negb (n =? 0)
  | None => false
  end.

Definition orElse (v : option string) (dflt : string) : string :=
  match v with
  | Some s => if String.eqb s "" then dflt else s
  | None => dflt
  end.

(** [`${id}`] of a record id that may be missing. *)
Definition idToString (id : option Z) : string :=
  match id with
  | Some n => JSString.ofZ n
  | None => "undefined"
  end.

Definition optZ_eqb (a b : option Z) : bool :=
  match a, b with
  | Some x, Some y => x =? y
  | None, None => true
  | _, _ => false
  end.

(* ================================================================== *)
(** * Part II: the pages *)
(* ================================================================== *)

(** ** Data model *)

Module Task.
(** Modelled from the spec: the declaration of [Task] in
    [client/types] is not among the sources. The fields are those of
    section 3 of the specification (id, title, status, priority, due
    date, optional company reference, audit fields) and [assignedTo],
    which the calendar sets. A draft that was not saved yet has no
    [id]. *)
Record t := mk {
  id : option Z;
  title : string;
  status : string;
  priority : string;
  assignedTo : string;
  dueDate : string;
  companyId : option Z;
  lastUpdatedBy : option string;
  lastUpdatedAt : option string
}.
End Task.

Module Meeting.
(** Modelled from the spec: the declaration of [Meeting] in
    [client/types] is not among the sources. The fields are those of
    section 3 of the specification (id, title, status, date-time,
    optional meeting link, audit fields). *)
Record t := mk {
  id : option Z;
  title : string;
  status : string;
  dateTime : string;
  meetingLink : option string;
  lastUpdatedBy : option string;
  lastUpdatedAt : option string
}.
End Meeting.

(** [Partial<Task>] and [Partial<Meeting>]: every field may be absent. *)
Module TaskPatch.
Record t := mk {
  id : option Z;
  title : option string;
  status : option string;
  priority : option string;
  assignedTo : option string;
  dueDate : option string;
  companyId : option Z;
  lastUpdatedBy : option string;
  lastUpdatedAt : option string
}.

Definition empty : t := mk None None None None None None None None None.

(** [{ ...data, lastUpdatedBy: by, lastUpdatedAt: at }] *)
Definition withAudit (data : t) (by_ : option string) (at_ : option string) : t :=
  mk (id data) (title data) (status data) (priority data) (assignedTo data)
     (dueDate data) (companyId data) by_ at_.
End TaskPatch.

Module MeetingPatch.
Record t := mk {
  id : option Z;
  title : option string;
  status : option string;
  dateTime : option string;
  meetingLink : option string;
  lastUpdatedBy : option string;
  lastUpdatedAt : option string
}.

Definition empty : t := mk None None None None None None None.

Definition withAudit (data : t) (by_ : option string) (at_ : option string) : t :=
  mk (id data) (title data) (status data) (dateTime data) (meetingLink data)
     by_ at_.

Definition over {A} (new : option A) (old : A) : A :=
  match new with Some v => v | None => old end.

Definition overOpt {A} (new old : option A) : option A :=
  match new with Some v => Some v | None => old end.

(** [{ ...m, ...p }] *)
Definition apply (m : Meeting.t) (p : t) : Meeting.t :=
  Meeting.mk (overOpt (id p) (Meeting.id m))
             (over (title p) (Meeting.title m))
             (over (status p) (Meeting.status m))
             (over (dateTime p) (Meeting.dateTime m))
             (overOpt (meetingLink p) (Meeting.meetingLink m))
             (overOpt (lastUpdatedBy p) (Meeting.lastUpdatedBy m))
             (overOpt (lastUpdatedAt p) (Meeting.lastUpdatedAt m)).
End MeetingPatch.

Record CrmEntry := { crm_id : Z; crm_company : string }.

Record User := { user_name : string }.

(** ** Effects of an event handler

    A handler changes the state of its page, calls the API, shows toasts
    and starts refetches. The calls it makes are recorded in order; what
    the server answers is given by the environment. A handler calls
    [fetchData()] without awaiting it: the effect [FetchData] records that
    the refetch was started, and [fetchData] itself is a handler of its
    own. *)

Inductive ApiCall :=
| TasksGetAll
| MeetingsGetAll
| CrmGetAll
| TasksCreate (data : TaskPatch.t)
| TasksUpdate (id : option Z) (data : TaskPatch.t)
| MeetingsCreate (data : MeetingPatch.t)
| MeetingsUpdate (id : option Z) (data : MeetingPatch.t)
| MeetingsDelete (id : Z).

Inductive Effect :=
| Api (c : ApiCall)
| ShowToast (message kind : string)
| ConsoleError (message : string)
| FetchData
| PreventDefault.

(** The collaborators of a handler: the session's user, the clock, the
    local time zone and the server. [accepts c] tells whether the promise
    of the call [c] is fulfilled (rather than rejected). *)
Record Env := {
  user : option User;
  now : Z;
  tza : Z;
  accepts : ApiCall -> bool;
  tasksData : list Task.t;
  meetingsData : list Meeting.t;
  crmList : list CrmEntry;
  created : MeetingPatch.t -> Meeting.t
}.

(** [user?.name] *)
Definition userName (env : Env) : option string :=
  option_map user_name (user env).

(** [new Date().toISOString()] *)
Definition nowISO (env : Env) : string := JSDate.toISOString (now env).

Module Handler.

Inductive result (A : Type) :=
| Done (a : A)
| Raised.
Arguments Done {A} a.
Arguments Raised {A}.

(** A handler over a page state [S]: from the pending state and the
    effects so far to a result, the new pending state and the effects. *)
Definition M (S A : Type) : Type :=
  S -> list Effect -> result A * S * list Effect.

Section Ops.
Context {S : Type}.

Definition ret {A} (a : A) : M S A := fun s tr => (Done a, s, tr).

Definition bind {A B} (m : M S A) (k : A -> M S B) : M S B :=
  fun s tr =>
    match m s tr with
    | (Done a, s', tr') => k a s' tr'
    | (Raised, s', tr') => (Raised, s', tr')
    end.

Definition emit (e : Effect) : M S unit :=
  fun s tr => (Done tt, s, tr ++ [e]).

(** A state setter, [setX(v)] or [setX(prev => ...)]. *)
Definition set (f : S -> S) : M S unit :=
  fun s tr => (Done tt, f s, tr).

Definition raise {A} : M S A := fun s tr => (Raised, s, tr).

(** [await api.call(...)]: the call is issued; a rejected promise
    raises. *)
Definition await (env : Env) (c : ApiCall) : M S unit :=
  bind (emit (Api c))
       (fun _ => if accepts env c then ret tt else raise).

(** [try { body } catch (e) { handler } finally { fin }] *)
Definition tryCatchFinally (body handler fin : M S unit) : M S unit :=
  fun s tr =>
    match body s tr with
    | (Done _, s1, tr1) => fin s1 tr1
    | (Raised, s1, tr1) =>
        match handler s1 tr1 with
        | (Done _, s2, tr2) => fin s2 tr2
        | (Raised, s2, tr2) =>
            match fin s2 tr2 with
            | (_, s3, tr3) => (Raised, s3, tr3)
            end
        end
    end.

Definition tryCatch (body handler : M S unit) : M S unit :=
  tryCatchFinally body handler (ret tt).

(** Running a handler on the state of the page, with no effect yet. *)
Definition run {A} (m : M S A) (s : S) : result A * S * list Effect :=
  m s [].

Definition stateOf {A} (r : result A * S * list Effect) : S := snd (fst r).
Definition effectsOf {A} (r : result A * S * list Effect) : list Effect :=
  snd r.
End Ops.

Module Notations.
Notation "m ;; k" := (bind m (fun _ => k))
  (at level 61, right associativity).
End Notations.

End Handler.
Import Handler.Notations.

(** The API calls among the effects of a run, in order. *)
Fixpoint apiCalls (tr : list Effect) : list ApiCall :=
  match tr with
  | [] => []
  | Api c :: tr' => c :: apiCalls tr'
  | _ :: tr' => apiCalls tr'
  end.

Definition isFetch (e : Effect) : bool :=
  match e with FetchData => true | _ => false end.

Definition isToast (kind : string) (e : Effect) : bool :=
  match e with ShowToast _ k => String.eqb k kind | _ => false end.

(** Whether a run started a refetch, and whether it showed a toast of
    a kind. *)
Definition refetches (tr : list Effect) : bool := existsb isFetch tr.
Definition toasts (kind : string) (tr : list Effect) : bool :=
  existsb (isToast kind) tr.

(** ** The calendar page ([UniversalCalendarPage.tsx]) *)

Module Calendar.

Inductive ItemType := task | meeting.

Definition ItemType_eqb (a b : ItemType) : bool :=
  match a, b with
  | task, task | meeting, meeting => true
  | _, _ => false
  end.

(** [data: Task | Meeting] *)
Inductive ItemData :=
| OfTask (t : Task.t)
| OfMeeting (m : Meeting.t).

Record CalendarItem := mkItem {
  id : string;
  dateStr : string;
  sortTime : Num;
  title : string;
  type : ItemType;
  data : ItemData;
  status : string;
  priority : option string
}.

(** [item.data.id] *)
Definition dataId (d : ItemData) : option Z :=
  match d with
  | OfTask t => Task.id t
  | OfMeeting m => Meeting.id m
  end.

(** [(item.data as Meeting).dateTime]: a task has no such field. *)
Definition dataDateTime (d : ItemData) : option string :=
  match d with
  | OfTask _ => None
  | OfMeeting m => Some (Meeting.dateTime m)
  end.

Record Popover := { pop_x : Z; pop_y : Z; pop_item : CalendarItem }.

Record State := mkState {
  items : list CalendarItem;
  isLoading : bool;
  currentDate : JSDate.t;
  companyMap : Z -> option string;
  showTasks : bool;
  showMeetings : bool;
  selectedDateStr : option string;
  popover : option Popover;
  draggedItem : option CalendarItem;
  editingTask : option Task.t;
  isTaskModalOpen : bool;
  editingMeeting : option Meeting.t;
  isMeetingModalOpen : bool
}.

Definition setItems (f : list CalendarItem -> list CalendarItem) (s : State) :=
  mkState (f (items s)) (isLoading s) (currentDate s) (companyMap s)
    (showTasks s) (showMeetings s) (selectedDateStr s) (popover s)
    (draggedItem s) (editingTask s) (isTaskModalOpen s) (editingMeeting s)
    (isMeetingModalOpen s).

Definition setIsLoading (v : bool) (s : State) :=
  mkState (items s) v (currentDate s) (companyMap s)
    (showTasks s) (showMeetings s) (selectedDateStr s) (popover s)
    (draggedItem s) (editingTask s) (isTaskModalOpen s) (editingMeeting s)
    (isMeetingModalOpen s).

Definition setCompanyMap (v : Z -> option string) (s : State) :=
  mkState (items s) (isLoading s) (currentDate s) v
    (showTasks s) (showMeetings s) (selectedDateStr s) (popover s)
    (draggedItem s) (editingTask s) (isTaskModalOpen s) (editingMeeting s)
    (isMeetingModalOpen s).

Definition setPopover (v : option Popover) (s : State) :=
  mkState (items s) (isLoading s) (currentDate s) (companyMap s)
    (showTasks s) (showMeetings s) (selectedDateStr s) v
    (draggedItem s) (editingTask s) (isTaskModalOpen s) (editingMeeting s)
    (isMeetingModalOpen s).

Definition setDraggedItem (v : option CalendarItem) (s : State) :=
  mkState (items s) (isLoading s) (currentDate s) (companyMap s)
    (showTasks s) (showMeetings s) (selectedDateStr s) (popover s)
    v (editingTask s) (isTaskModalOpen s) (editingMeeting s)
    (isMeetingModalOpen s).

Definition setEditingTask (v : option Task.t) (s : State) :=
  mkState (items s) (isLoading s) (currentDate s) (companyMap s)
    (showTasks s) (showMeetings s) (selectedDateStr s) (popover s)
    (draggedItem s) v (isTaskModalOpen s) (editingMeeting s)
    (isMeetingModalOpen s).

Definition setIsTaskModalOpen (v : bool) (s : State) :=
  mkState (items s) (isLoading s) (currentDate s) (companyMap s)
    (showTasks s) (showMeetings s) (selectedDateStr s) (popover s)
    (draggedItem s) (editingTask s) v (editingMeeting s)
    (isMeetingModalOpen s).

Definition setEditingMeeting (v : option Meeting.t) (s : State) :=
  mkState (items s) (isLoading s) (currentDate s) (companyMap s)
    (showTasks s) (showMeetings s) (selectedDateStr s) (popover s)
    (draggedItem s) (editingTask s) (isTaskModalOpen s) v
    (isMeetingModalOpen s).

Definition setIsMeetingModalOpen (v : bool) (s : State) :=
  mkState (items s) (isLoading s) (currentDate s) (companyMap s)
    (showTasks s) (showMeetings s) (selectedDateStr s) (popover s)
    (draggedItem s) (editingTask s) (isTaskModalOpen s) (editingMeeting s)
    v.

(** *** [fetchData]: the item normalizer *)

(** [`${d.getFullYear()}-${String(d.getMonth() + 1).padStart(2, '0')}`] *)
Definition monthKey (tz : Z) (d : JSDate.t) : string :=
  JSString.ofNum (JSDate.getFullYear tz d) +++ "-"
    +++ pad (num_add (JSDate.getMonth tz d) (Some 1)).

(** [`${d.getFullYear()}-${String(d.getMonth() + 1).padStart(2, '0')}-${String(d.getDate()).padStart(2, '0')}`] *)
Definition dateKey (tz : Z) (d : JSDate.t) : string :=
  monthKey tz d +++ "-" +++ pad (JSDate.getDate tz d).

Definition taskItem (t : Task.t) : CalendarItem :=
  {| id := "task-" +++ idToString (Task.id t);
     dateStr := Task.dueDate t;
     sortTime := Some 0;
     title := Task.title t;
     type := task;
     data := OfTask t;
     status := Task.status t;
     priority := Some (Task.priority t) |}.

Definition meetingItem (tz : Z) (m : Meeting.t) : CalendarItem :=
  let mDate := JSDate.parse tz (Meeting.dateTime m) in
  let localDateStr := dateKey tz mDate in
  {| id := "meeting-" +++ idToString (Meeting.id m);
     dateStr := localDateStr;
     sortTime := JSDate.getTime mDate;
     title := Meeting.title m;
     type := meeting;
     data := OfMeeting m;
     status := Meeting.status m;
     priority := None |}.

(** The body of the two [forEach] loops: [allItems] starts empty and is
    pushed to. *)
Definition processTask (allItems : list CalendarItem) (t : Task.t) :=
  if negb (String.eqb (Task.status t) "Completed")
     && negb (String.eqb (Task.status t) "Done")
  then JSArray.push allItems (taskItem t)
  else allItems.

Definition processMeeting (tz : Z) (allItems : list CalendarItem)
    (m : Meeting.t) :=
  JSArray.push allItems (meetingItem tz m).

Definition buildItems (tz : Z) (tasksData : list Task.t)
    (meetingsData : list Meeting.t) : list CalendarItem :=
  let allItems := [] in
  let allItems := JSArray.forEach tasksData processTask allItems in
  JSArray.forEach meetingsData (processMeeting tz) allItems.

(** [crmData.crmList.forEach(c => map[c.id] = c.company)] *)
Definition buildCompanyMap (crm : list CrmEntry) : Z -> option string :=
  JSArray.forEach crm
    (fun map c k => if k =? crm_id c then Some (crm_company c) else map k)
    (fun _ => None).

(** [Promise.all] of the three reads: all three are issued, and the
    whole is rejected when one of them is. *)
Definition readAll (env : Env) : Handler.M State unit :=
  Handler.emit (Api TasksGetAll) ;;
  Handler.emit (Api MeetingsGetAll) ;;
  Handler.emit (Api CrmGetAll) ;;
  if accepts env TasksGetAll && accepts env MeetingsGetAll
     && accepts env CrmGetAll
  then Handler.ret tt else Handler.raise.

Definition fetchData (env : Env) : Handler.M State unit :=
  Handler.set (setIsLoading true) ;;
  Handler.tryCatchFinally
    (readAll env ;;
     Handler.set (setCompanyMap (buildCompanyMap (crmList env))) ;;
     Handler.set
       (setItems (fun _ =>
          buildItems (tza env) (tasksData env) (meetingsData env))))
    (Handler.emit (ConsoleError "Failed to fetch calendar data") ;;
     Handler.emit (ShowToast "Failed to sync calendar" "error"))
    (Handler.set (setIsLoading false)).

(** *** [monthlyStats] *)

Record Stats := { total : nat; tasks : nat; meetings : nat }.

Definition monthlyStats (tz : Z) (items : list CalendarItem)
    (currentDate : JSDate.t) : Stats :=
  let currentMonthStr := monthKey tz currentDate in
  let monthItems :=
    filter (fun i => JSString.startsWith currentMonthStr (dateStr i)) items in
  {| total := List.length monthItems;
     tasks := List.length
                (filter (fun i => ItemType_eqb (type i) task) monthItems);
     meetings := List.length
                (filter (fun i => ItemType_eqb (type i) meeting) monthItems) |}.

(** *** Opening the forms *)

Definition handleTaskClick (t : Task.t) : Handler.M State unit :=
  Handler.set (setEditingTask (Some t)) ;;
  Handler.set (setIsTaskModalOpen true) ;;
  Handler.set (setPopover None).

Definition handleMeetingClick (m : Meeting.t) : Handler.M State unit :=
  Handler.set (setEditingMeeting (Some m)) ;;
  Handler.set (setIsMeetingModalOpen true) ;;
  Handler.set (setPopover None).

(** The draft of [handleCreateTaskForDate]. *)
Definition taskDraft (env : Env) (dateStr : string) : Task.t :=
  {| Task.id := None;
     Task.title := "";
     Task.status := "Not Started";
     Task.priority := "Medium";
     Task.assignedTo := orElse (userName env) "Unassigned";
     Task.dueDate := dateStr;
     Task.companyId := None;
     Task.lastUpdatedBy := None;
     Task.lastUpdatedAt := None |}.

Definition handleCreateTaskForDate (env : Env) (dateStr : string)
    : Handler.M State unit :=
  Handler.set (setEditingTask (Some (taskDraft env dateStr))) ;;
  Handler.set (setIsTaskModalOpen true).

(** [const [y, m, d] = dateStr.split('-').map(Number)] *)
Definition splitDate (dateStr : string) : Num * Num * Num :=
  let parts := map JSString.toNumber (JSString.split "-" dateStr) in
  (JSArray.at_ parts 0, JSArray.at_ parts 1, JSArray.at_ parts 2).

(** The draft of [handleCreateMeetingForDate]. *)
Definition meetingDraft (env : Env) (dateStr : string) : Meeting.t :=
  let tz := tza env in
  let '(y, m, d) := splitDate dateStr in
  let date :=
    JSDate.ofFields tz y (num_sub m (Some 1)) d
      (Some 0) (Some 0) (Some 0) (Some 0) in
  let now_ : JSDate.t := Some (now env) in
  let date :=
    JSDate.setHours tz date (num_add (JSDate.getHours tz now_) (Some 1))
      (Some 0) (Some 0) (Some 0) in
  let formatted :=
    dateKey tz date +++ "T" +++ pad (JSDate.getHours tz date) +++ ":00" in
  {| Meeting.id := None;
     Meeting.title := "";
     Meeting.status := "Scheduled";
     Meeting.dateTime := formatted;
     Meeting.meetingLink := None;
     Meeting.lastUpdatedBy := None;
     Meeting.lastUpdatedAt := None |}.

Definition handleCreateMeetingForDate (env : Env) (dateStr : string)
    : Handler.M State unit :=
  Handler.set (setEditingMeeting (Some (meetingDraft env dateStr))) ;;
  Handler.set (setIsMeetingModalOpen true).

(** *** Saving a form *)

(** [{ lastUpdatedBy: user?.name || 'Unknown', lastUpdatedAt: new Date().toISOString() }]
    spread over the form data. *)
Definition auditedTask (env : Env) (data : TaskPatch.t) : TaskPatch.t :=
  TaskPatch.withAudit data (Some (orElse (userName env) "Unknown"))
    (Some (nowISO env)).

Definition auditedMeeting (env : Env) (data : MeetingPatch.t)
    : MeetingPatch.t :=
  MeetingPatch.withAudit data (Some (orElse (userName env) "Unknown"))
    (Some (nowISO env)).

(** [editingTask && editingTask.id]: the id to update, when the test
    succeeds. *)
Definition editedId {A} (getId : A -> option Z) (editing : option A)
    : option (option Z) :=
  match editing with
  | Some e => if truthyId (getId e) then Some (getId e) else None
  | None => None
  end.

Definition handleTaskSave (env : Env) (st : State) (data : TaskPatch.t)
    : Handler.M State unit :=
  let finalData := auditedTask env data in
  Handler.tryCatch
    ((match editedId Task.id (editingTask st) with
      | Some id_ =>
          Handler.await env (TasksUpdate id_ finalData) ;;
          Handler.emit (ShowToast "Task updated" "success")
      | None =>
          Handler.await env (TasksCreate finalData) ;;
          Handler.emit (ShowToast "Task created" "success")
      end) ;;
     Handler.emit FetchData)
    (Handler.emit (ShowToast "Operation failed" "error")).

Definition handleMeetingSave (env : Env) (st : State)
    (data : MeetingPatch.t) : Handler.M State unit :=
  let finalData := auditedMeeting env data in
  Handler.tryCatch
    ((match editedId Meeting.id (editingMeeting st) with
      | Some id_ =>
          Handler.await env (MeetingsUpdate id_ finalData) ;;
          Handler.emit (ShowToast "Meeting updated" "success")
      | None =>
          Handler.await env (MeetingsCreate finalData) ;;
          Handler.emit (ShowToast "Meeting scheduled" "success")
      end) ;;
     Handler.emit FetchData)
    (Handler.emit (ShowToast "Operation failed" "error")).

(** *** Drag and drop *)

Definition handleDragStart (item : CalendarItem) : Handler.M State unit :=
  Handler.set (setDraggedItem (Some item)).

(** [{ ...draggedItem, dateStr }] *)
Definition withDateStr (item : CalendarItem) (dateStr_ : string)
    : CalendarItem :=
  mkItem (id item) dateStr_ (sortTime item) (title item) (type item)
    (data item) (status item) (priority item).

(** [new Date(v)] of a string that may be [undefined]. *)
Definition dateOf (tz : Z) (v : option string) : JSDate.t :=
  match v with
  | Some s => JSDate.parse tz s
  | None => NaN
  end.

(** The [isoStr] that [handleDrop] sends for a meeting dropped on the
    day [dateStr]. *)
Definition droppedDateTime (tz : Z) (d : ItemData) (dateStr_ : string)
    : string :=
  let oldDate := dateOf tz (dataDateTime d) in
  let '(y, m, d) := splitDate dateStr_ in
  let newDate :=
    JSDate.ofFields tz y (num_sub m (Some 1)) d
      (JSDate.getHours tz oldDate) (JSDate.getMinutes tz oldDate)
      (Some 0) (Some 0) in
  JSString.ofNum (JSDate.getFullYear tz newDate)
    +++ "-" +++ pad (num_add (JSDate.getMonth tz newDate) (Some 1))
    +++ "-" +++ pad (JSDate.getDate tz newDate)
    +++ "T" +++ pad (JSDate.getHours tz newDate)
    +++ ":" +++ pad (JSDate.getMinutes tz newDate) +++ ":00".

Definition taskMove (env : Env) (dateStr_ : string) : TaskPatch.t :=
  {| TaskPatch.id := None;
     TaskPatch.title := None;
     TaskPatch.status := None;
     TaskPatch.priority := None;
     TaskPatch.assignedTo := None;
     TaskPatch.dueDate := Some dateStr_;
     TaskPatch.companyId := None;
     TaskPatch.lastUpdatedBy := userName env;
     TaskPatch.lastUpdatedAt := Some (nowISO env) |}.

Definition meetingMove (env : Env) (isoStr : string) : MeetingPatch.t :=
  {| MeetingPatch.id := None;
     MeetingPatch.title := None;
     MeetingPatch.status := None;
     MeetingPatch.dateTime := Some isoStr;
     MeetingPatch.meetingLink := None;
     MeetingPatch.lastUpdatedBy := userName env;
     MeetingPatch.lastUpdatedAt := Some (nowISO env) |}.

Definition handleDrop (env : Env) (st : State) (dateStr_ : string)
    : Handler.M State unit :=
  Handler.emit PreventDefault ;;
  match draggedItem st with
  | None => Handler.ret tt
  | Some dragged =>
      if String.eqb (dateStr dragged) dateStr_ then Handler.ret tt
      else
        let newItem := withDateStr dragged dateStr_ in
        Handler.set
          (setItems
             (map (fun i =>
                if String.eqb (id i) (id newItem) then newItem else i))) ;;
        Handler.tryCatchFinally
          (match type newItem with
           | task =>
               Handler.await env
                 (TasksUpdate (dataId (data newItem))
                    (taskMove env dateStr_)) ;;
               Handler.emit
                 (ShowToast ("Task moved to " +++ dateStr_) "success")
           | meeting =>
               let isoStr :=
                 droppedDateTime (tza env) (data newItem) dateStr_ in
               Handler.await env
                 (MeetingsUpdate (dataId (data newItem))
                    (meetingMove env isoStr)) ;;
               Handler.emit
                 (ShowToast ("Meeting rescheduled to " +++ dateStr_)
                    "success")
           end)
          (Handler.emit (ConsoleError "Drop update failed") ;;
           Handler.emit (ShowToast "Failed to move item" "error") ;;
           Handler.emit FetchData)
          (Handler.set (setDraggedItem None))
  end.

(** *** The month grid *)

(** [new Date(date.getFullYear(), date.getMonth() + 1, 0).getDate()] *)
Definition daysInMonth (tz : Z) (date : JSDate.t) : Num :=
  JSDate.getDate tz
    (JSDate.ofFields tz (JSDate.getFullYear tz date)
       (num_add (JSDate.getMonth tz date) (Some 1)) (Some 0)
       (Some 0) (Some 0) (Some 0) (Some 0)).

(** [new Date(date.getFullYear(), date.getMonth(), 1).getDay()] *)
Definition firstDayOfMonth (tz : Z) (date : JSDate.t) : Num :=
  JSDate.getDay tz
    (JSDate.ofFields tz (JSDate.getFullYear tz date)
       (JSDate.getMonth tz date) (Some 1)
       (Some 0) (Some 0) (Some 0) (Some 0)).

(** The values [lo, lo + 1, ...] of a loop variable that runs while it
    is below [hi]; there is none when [hi] is [NaN]. *)
Definition loopRange (lo : Z) (hi : Num) : list Z :=
  match hi with
  | Some h => map (fun i => lo + Z.of_nat i) (seq 0 (Z.to_nat (h - lo)))
  | None => []
  end.

(** What a cell of the grid shows: a blank cell before the first day,
    or a day with its date key, its highlights, the items rendered and
    the count of the ["+N more"] line, if there is one. *)
Inductive Cell :=
| Blank (i : Z)
| DayCell (day : Z) (key : string) (isToday isSelected : bool)
    (shown : list CalendarItem) (more : option Z).

Definition matchesType (st : State) (item : CalendarItem) : bool :=
  (ItemType_eqb (type item) task && showTasks st)
  || (ItemType_eqb (type item) meeting && showMeetings st).

(** [(a, b) => a.sortTime - b.sortTime] *)
Definition bySortTime (a b : CalendarItem) : Num :=
  num_sub (sortTime a) (sortTime b).

(** The [dateStr] of the cell of [day]. *)
Definition cellKey (tz : Z) (currentDate_ : JSDate.t) (day : Z) : string :=
  monthKey tz currentDate_ +++ "-" +++ pad (Some day).

(** The sorted [dayItems] of a cell. *)
Definition dayItems (st : State) (key : string) : list CalendarItem :=
  JSArray.sort bySortTime
    (filter (fun item => String.eqb (dateStr item) key && matchesType st item)
       (items st)).

Definition dayCell (env : Env) (st : State) (day : Z) : Cell :=
  let key := cellKey (tza env) (currentDate st) day in
  let todayStr := dateKey (tza env) (Some (now env)) in
  let its := dayItems st key in
  DayCell day key (String.eqb todayStr key)
    (match selectedDateStr st with
     | Some s => String.eqb s key
     | None => false
     end)
    (JSArray.slice0 4 its)
    (if (4 <? List.length its)%nat
     then Some (Z.of_nat (List.length its) - 4) else None).

Definition renderCells (env : Env) (st : State) : list Cell :=
  let totalDays := daysInMonth (tza env) (currentDate st) in
  let startDay := firstDayOfMonth (tza env) (currentDate st) in
  map Blank (loopRange 0 startDay)
    ++ map (dayCell env st) (loopRange 1 (num_add totalDays (Some 1))).

Definition getAgendaItems (st : State) : list CalendarItem :=
  match selectedDateStr st with
  | None => []
  | Some s =>
      JSArray.sort bySortTime
        (filter (fun i => String.eqb (dateStr i) s) (items st))
  end.

(** *** Month navigation and the filter toggles *)

Definition setCurrentDate (v : JSDate.t) (s : State) :=
  mkState (items s) (isLoading s) v (companyMap s)
    (showTasks s) (showMeetings s) (selectedDateStr s) (popover s)
    (draggedItem s) (editingTask s) (isTaskModalOpen s) (editingMeeting s)
    (isMeetingModalOpen s).

Definition setShowTasks (v : bool) (s : State) :=
  mkState (items s) (isLoading s) (currentDate s) (companyMap s)
    v (showMeetings s) (selectedDateStr s) (popover s)
    (draggedItem s) (editingTask s) (isTaskModalOpen s) (editingMeeting s)
    (isMeetingModalOpen s).

Definition setShowMeetings (v : bool) (s : State) :=
  mkState (items s) (isLoading s) (currentDate s) (companyMap s)
    (showTasks s) v (selectedDateStr s) (popover s)
    (draggedItem s) (editingTask s) (isTaskModalOpen s) (editingMeeting s)
    (isMeetingModalOpen s).

Definition setSelectedDateStr (v : option string) (s : State) :=
  mkState (items s) (isLoading s) (currentDate s) (companyMap s)
    (showTasks s) (showMeetings s) v (popover s)
    (draggedItem s) (editingTask s) (isTaskModalOpen s) (editingMeeting s)
    (isMeetingModalOpen s).

(** [setCurrentDate(new Date(currentDate.getFullYear(), currentDate.getMonth() - 1, 1))] *)
Definition handlePrevMonth (env : Env) (st : State) : Handler.M State unit :=
  Handler.set
    (setCurrentDate
       (JSDate.ofFields (tza env) (JSDate.getFullYear (tza env) (currentDate st))
          (num_sub (JSDate.getMonth (tza env) (currentDate st)) (Some 1))
          (Some 1) (Some 0) (Some 0) (Some 0) (Some 0))).

(** [setCurrentDate(new Date(currentDate.getFullYear(), currentDate.getMonth() + 1, 1))] *)
Definition handleNextMonth (env : Env) (st : State) : Handler.M State unit :=
  Handler.set
    (setCurrentDate
       (JSDate.ofFields (tza env) (JSDate.getFullYear (tza env) (currentDate st))
          (num_add (JSDate.getMonth (tza env) (currentDate st)) (Some 1))
          (Some 1) (Some 0) (Some 0) (Some 0) (Some 0))).

(** [setCurrentDate(new Date())] *)
Definition jumpToToday (env : Env) : Handler.M State unit :=
  Handler.set (setCurrentDate (Some (now env))).

(** The filter buttons: [setShowMeetings(!showMeetings)] and
    [setShowTasks(!showTasks)]. *)
Definition toggleMeetings (st : State) : Handler.M State unit :=
  Handler.set (setShowMeetings (negb (showMeetings st))).

Definition toggleTasks (st : State) : Handler.M State unit :=
  Handler.set (setShowTasks (negb (showTasks st))).

(** Clicking a day cell: [setSelectedDateStr(dateStr)]. *)
Definition selectDay (key : string) : Handler.M State unit :=
  Handler.set (setSelectedDateStr (Some key)).

End Calendar.

(** ** The meeting tracker page ([MeetingTrackerPage.tsx]) *)

Module Tracker.

Inductive ViewMode := list_ | calendar.

Record State := mkState {
  meetings : list Meeting.t;
  isLoading : bool;
  viewMode : ViewMode;
  isModalOpen : bool;
  editingMeeting : option Meeting.t;
  deleteId : option Z;
  activeFilter : string;
  search : string;
  isHistoryExpanded : bool
}.

Definition setMeetings (f : list Meeting.t -> list Meeting.t) (s : State) :=
  mkState (f (meetings s)) (isLoading s) (viewMode s) (isModalOpen s)
    (editingMeeting s) (deleteId s) (activeFilter s) (search s)
    (isHistoryExpanded s).

Definition setIsLoading (v : bool) (s : State) :=
  mkState (meetings s) v (viewMode s) (isModalOpen s)
    (editingMeeting s) (deleteId s) (activeFilter s) (search s)
    (isHistoryExpanded s).

Definition setIsModalOpen (v : bool) (s : State) :=
  mkState (meetings s) (isLoading s) (viewMode s) v
    (editingMeeting s) (deleteId s) (activeFilter s) (search s)
    (isHistoryExpanded s).

Definition setEditingMeeting (v : option Meeting.t) (s : State) :=
  mkState (meetings s) (isLoading s) (viewMode s) (isModalOpen s)
    v (deleteId s) (activeFilter s) (search s) (isHistoryExpanded s).

Definition setDeleteId (v : option Z) (s : State) :=
  mkState (meetings s) (isLoading s) (viewMode s) (isModalOpen s)
    (editingMeeting s) v (activeFilter s) (search s) (isHistoryExpanded s).

Definition fetchData (env : Env) : Handler.M State unit :=
  Handler.set (setIsLoading true) ;;
  Handler.tryCatchFinally
    (Handler.await env MeetingsGetAll ;;
     Handler.set (setMeetings (fun _ => meetingsData env)))
    (Handler.emit (ConsoleError "error"))
    (Handler.set (setIsLoading false)).

(** *** The two sections of the list view *)

Definition matchesSearch (search_ : string) (m : Meeting.t) : bool :=
  JSString.includes (JSString.toLowerCase search_)
    (JSString.toLowerCase (Meeting.title m)).

Definition matchesStatus (activeFilter_ : string) (m : Meeting.t) : bool :=
  String.eqb activeFilter_ "All" || String.eqb (Meeting.status m) activeFilter_.

Definition baseFiltered (ms : list Meeting.t) (search_ activeFilter_ : string)
    : list Meeting.t :=
  filter (fun m => matchesSearch search_ m && matchesStatus activeFilter_ m) ms.

(** [['Completed', 'Cancelled'].includes(m.status)] *)
Definition isClosed (m : Meeting.t) : bool :=
  JSArray.includes ["Completed"; "Cancelled"] (Meeting.status m).

(** [new Date(m.dateTime).getTime()] *)
Definition timeOf (tz : Z) (m : Meeting.t) : Num :=
  JSDate.getTime (JSDate.parse tz (Meeting.dateTime m)).

(** Soonest first. *)
Definition ascending (tz : Z) (a b : Meeting.t) : Num :=
  num_sub (timeOf tz a) (timeOf tz b).

(** Most recent first. *)
Definition descending (tz : Z) (a b : Meeting.t) : Num :=
  num_sub (timeOf tz b) (timeOf tz a).

Definition activeMeetings (tz : Z) (ms : list Meeting.t)
    (search_ activeFilter_ : string) : list Meeting.t :=
  let active :=
    filter (fun m => negb (isClosed m)) (baseFiltered ms search_ activeFilter_) in
  JSArray.sort (ascending tz) active.

Definition historyMeetings (tz : Z) (ms : list Meeting.t)
    (search_ activeFilter_ : string) : list Meeting.t :=
  let history := filter isClosed (baseFiltered ms search_ activeFilter_) in
  JSArray.sort (descending tz) history.

(** *** Handlers *)

Definition handleCreate : Handler.M State unit :=
  Handler.set (setEditingMeeting None) ;;
  Handler.set (setIsModalOpen true).

Definition handleEdit (m : Meeting.t) : Handler.M State unit :=
  Handler.set (setEditingMeeting (Some m)) ;;
  Handler.set (setIsModalOpen true).

Definition audited (env : Env) (data : MeetingPatch.t) : MeetingPatch.t :=
  MeetingPatch.withAudit data (Some (orElse (userName env) "Unknown"))
    (Some (nowISO env)).

(** [meetings.map(m => m.id === x.id ? x : m)] *)
Definition replaceById (x : Meeting.t) (ms : list Meeting.t) :=
  map (fun m => if optZ_eqb (Meeting.id m) (Meeting.id x) then x else m) ms.

Definition handleSave (env : Env) (st : State) (data : MeetingPatch.t)
    : Handler.M State unit :=
  let finalData := audited env data in
  Handler.tryCatch
    (match editingMeeting st with
     | Some editing =>
         let updated := MeetingPatch.apply editing finalData in
         Handler.set (setMeetings (fun _ => replaceById updated (meetings st))) ;;
         Handler.await env (MeetingsUpdate (Meeting.id updated) finalData)
     | None =>
         Handler.await env (MeetingsCreate finalData) ;;
         let newMeeting := created env finalData in
         Handler.set (setMeetings (fun _ => newMeeting :: meetings st))
     end)
    (Handler.emit FetchData).

Definition handleDelete (env : Env) (st : State) : Handler.M State unit :=
  match deleteId st with
  | None => Handler.ret tt
  | Some id_ =>
      if id_ =? 0 then Handler.ret tt
      else
        Handler.set
          (setMeetings (fun _ =>
             filter (fun m => negb (optZ_eqb (Meeting.id m) (Some id_)))
               (meetings st))) ;;
        Handler.set (setDeleteId None) ;;
        Handler.tryCatch
          (Handler.await env (MeetingsDelete id_))
          (Handler.emit FetchData)
  end.

(** The partial update [handleStatusChange] sends. *)
Definition statusPatch (env : Env) (newStatus : string) : MeetingPatch.t :=
  {| MeetingPatch.id := None;
     MeetingPatch.title := None;
     MeetingPatch.status := Some newStatus;
     MeetingPatch.dateTime := None;
     MeetingPatch.meetingLink := None;
     MeetingPatch.lastUpdatedBy := Some (orElse (userName env) "Unknown");
     MeetingPatch.lastUpdatedAt := Some (nowISO env) |}.

Definition handleStatusChange (env : Env) (m : Meeting.t)
    (newStatus : string) : Handler.M State unit :=
  let updated := MeetingPatch.apply m (statusPatch env newStatus) in
  Handler.set
    (setMeetings
       (map (fun x =>
          if optZ_eqb (Meeting.id x) (Meeting.id m) then updated else x))) ;;
  Handler.tryCatch
    (Handler.await env
       (MeetingsUpdate (Meeting.id m) (statusPatch env newStatus)))
    (Handler.emit FetchData).

End Tracker.

(* ================================================================== *)
(** * Part III: vocabulary of the properties *)
(* ================================================================== *)

(** ** Calendar days and their keys *)

Definition leapDay (y : Z) : Z := if JSDate.isLeap y then 1 else 0.

(** The length of month [m] (0 = January) of the year [y]. *)
Definition daysOfMonth (y m : Z) : Z :=
  match m with
  | 1 => 28 + leapDay y
  | 3 | 5 | 8 | 10 => 30
  | _ => 31
  end.

(** [y]-[mo]-[d] is a day of the Gregorian calendar, [mo] from 1 to 12. *)
Definition validDay (y mo d : Z) : Prop :=
  1 <= mo <= 12 /\ 1 <= d <= daysOfMonth y (mo - 1).

(** The civil date [y]-[mo]-[d] is the date of the day number [n] (days
    since 1970-01-01). *)
Definition civilDateOf (n y mo d : Z) : Prop :=
  validDay y mo d /\ JSDate.MakeDay y (mo - 1) d = n.

(** The years whose days the calendar can show and reschedule onto: from
    100 (a year below 100 is read as 19xx by the [Date] constructor) to
    the last full year of the range of time values. *)
Definition keyYear (y : Z) : Prop := 100 <= y <= 275759.

(** A time zone offset of at most a day. *)
Definition zoneOffset (tz : Z) : Prop := - JSDate.msPerDay <= tz <= JSDate.msPerDay.

Definition digit (k : Z) : ascii := ascii_of_N (48 + Z.to_N k).

(** A number from 0 to 99 written with two digits. *)
Definition twoDigits (n : Z) : string :=
  String (digit (n / 10)) (String (digit (n mod 10)) "").

(** The key of a day: the year in decimal, the month and the day of the
    month with two digits each. *)
Definition monthPrefix (y mo : Z) : string :=
  JSString.ofZ y +++ "-" +++ twoDigits mo.

Definition dayKey (y mo d : Z) : string :=
  monthPrefix y mo +++ "-" +++ twoDigits d.

(** ** Characters of a string *)

Definition isDigit (c : ascii) : bool :=
  let n := N_of_ascii c in ((48 <=? n) && (n <=? 57))%N.

Definition notDash (c : ascii) : bool := negb (Ascii.eqb c "-").

Fixpoint allChars (p : ascii -> bool) (s : string) : bool :=
  match s with
  | EmptyString => true
  | String c s' => p c && allChars p s'
  end.

(** [p] occurs in [s]. *)
Definition occursIn (p s : string) : Prop :=
  exists pre post, s = pre +++ p +++ post.

(** A property checked for every integer from 0 below [n]. *)
Fixpoint checkUpTo (n : nat) (p : Z -> bool) : bool :=
  match n with
  | O => true
  | S k => p (Z.of_nat k) && checkUpTo k p
  end.

(** ** Sorted lists *)

(** [a] comes no later than [b] by the numeric key [key]. *)
Definition keyLe {A} (key : A -> Num) (a b : A) : Prop :=
  match key a, key b with
  | Some x, Some y => x <= y
  | _, _ => False
  end.

Definition numericKeys {A} (key : A -> Num) (l : list A) : Prop :=
  forall a, In a l -> key a <> NaN.

(** The comparator [cmp] decides the order [R] on the elements of [l]:
    a positive result means the second comes first. *)
Definition decides {A} (cmp : A -> A -> Num) (R : A -> A -> Prop)
    (l : list A) : Prop :=
  forall a b, In a l -> In b l ->
    if num_pos (cmp a b) then R b a else R a b.

(** ** The calendar *)

(** A task that is shown: its status is neither "Completed" nor "Done". *)
Definition openTask (t : Task.t) : bool :=
  negb (String.eqb (Task.status t) "Completed")
  && negb (String.eqb (Task.status t) "Done").

(** The type of an item passes the show-tasks / show-meetings toggles. *)
Definition passesToggles (showTasks showMeetings : bool)
    (ty : Calendar.ItemType) : bool :=
  match ty with
  | Calendar.task => showTasks
  | Calendar.meeting => showMeetings
  end.


Definition isTaskItem (i : Calendar.CalendarItem) : bool :=
  Calendar.ItemType_eqb (Calendar.type i) Calendar.task.

Definition isMeetingItem (i : Calendar.CalendarItem) : bool :=
  Calendar.ItemType_eqb (Calendar.type i) Calendar.meeting.

(** ** Mutations *)


(** The create, update, status-change and drag mutations of the two
    pages. *)
Inductive Mutation :=
| CalendarTaskSave (st : Calendar.State) (data : TaskPatch.t)
| CalendarMeetingSave (st : Calendar.State) (data : MeetingPatch.t)
| CalendarDrop (st : Calendar.State) (dateStr : string)
| TrackerSave (st : Tracker.State) (data : MeetingPatch.t)
| TrackerStatusChange (st : Tracker.State) (m : Meeting.t) (newStatus : string).

(** The effects of running the handler of a mutation. *)
Definition mutationEffects (env : Env) (mu : Mutation) : list Effect :=
  match mu with
  | CalendarTaskSave st data =>
      Handler.effectsOf (Handler.run (Calendar.handleTaskSave env st data) st)
  | CalendarMeetingSave st data =>
      Handler.effectsOf (Handler.run (Calendar.handleMeetingSave env st data) st)
  | CalendarDrop st dateStr =>
      Handler.effectsOf (Handler.run (Calendar.handleDrop env st dateStr) st)
  | TrackerSave st data =>
      Handler.effectsOf (Handler.run (Tracker.handleSave env st data) st)
  | TrackerStatusChange st m newStatus =>
      Handler.effectsOf
        (Handler.run (Tracker.handleStatusChange env m newStatus) st)
  end.

(** The API write of a run was rejected. *)
Definition writeRejected (env : Env) (tr : list Effect) : Prop :=
  exists c, In c (apiCalls tr) /\ accepts env c = false.

(** ** Quick-create *)


(** ** Sample data *)

Module Sample.

(** Asia/Kolkata: UTC+05:30. *)
Definition ist : Z := 19800000.

(** 2024-06-01, 09:00 and 09:30 local time in [ist]. *)
Definition at0900 : Z := 1717212600000.

Definition sync : Meeting.t :=
  {| Meeting.id := Some 7;
     Meeting.title := "Weekly Sync";
     Meeting.status := "Scheduled";
     Meeting.dateTime := "2024-05-10T14:30:00";
     Meeting.meetingLink := None;
     Meeting.lastUpdatedBy := None;
     Meeting.lastUpdatedAt := None |}.

Definition review : Meeting.t :=
  {| Meeting.id := Some 8;
     Meeting.title := "Design review";
     Meeting.status := "Completed";
     Meeting.dateTime := "2024-05-10T09:00:00";
     Meeting.meetingLink := None;
     Meeting.lastUpdatedBy := None;
     Meeting.lastUpdatedAt := None |}.

Definition report : Task.t :=
  {| Task.id := Some 3;
     Task.title := "Quarterly report";
     Task.status := "Not Started";
     Task.priority := "High";
     Task.assignedTo := "Asha";
     Task.dueDate := "2024-05-10";
     Task.companyId := None;
     Task.lastUpdatedBy := None;
     Task.lastUpdatedAt := None |}.

(** A session of the user Asha at the time [clock], with a server that
    fulfils every call ([ok = true]) or rejects every call. *)
Definition env (clock : Z) (ok : bool) : Env :=
  {| user := Some {| user_name := "Asha" |};
     now := clock;
     tza := ist;
     accepts := fun _ => ok;
     tasksData := [report];
     meetingsData := [sync; review];
     crmList := [];
     created := fun p => MeetingPatch.apply sync p |}.

(** The calendar after a fetch, showing June 2024, nothing being edited
    or dragged. *)
Definition calendar : Calendar.State :=
  {| Calendar.items := Calendar.buildItems ist [report] [sync; review];
     Calendar.isLoading := false;
     Calendar.currentDate := Some at0900;
     Calendar.companyMap := fun _ => None;
     Calendar.showTasks := true;
     Calendar.showMeetings := true;
     Calendar.selectedDateStr := None;
     Calendar.popover := None;
     Calendar.draggedItem := None;
     Calendar.editingTask := None;
     Calendar.isTaskModalOpen := false;
     Calendar.editingMeeting := None;
     Calendar.isMeetingModalOpen := false |}.

(** The same calendar showing May 2024. *)
Definition may : Calendar.State :=
  {| Calendar.items := Calendar.buildItems ist [report] [sync; review];
     Calendar.isLoading := false;
     Calendar.currentDate := Some 1715331600000;
     Calendar.companyMap := fun _ => None;
     Calendar.showTasks := true;
     Calendar.showMeetings := true;
     Calendar.selectedDateStr := None;
     Calendar.popover := None;
     Calendar.draggedItem := None;
     Calendar.editingTask := None;
     Calendar.isTaskModalOpen := false;
     Calendar.editingMeeting := None;
     Calendar.isMeetingModalOpen := false |}.

(** The same calendar while the meeting [sync] is being dragged. *)
Definition dragging : Calendar.State :=
  Calendar.setDraggedItem (Some (Calendar.meetingItem ist sync)) calendar.

(** The meeting tracker after a fetch, with the form closed. *)
Definition tracker : Tracker.State :=
  {| Tracker.meetings := [sync; review];
     Tracker.isLoading := false;
     Tracker.viewMode := Tracker.list_;
     Tracker.isModalOpen := false;
     Tracker.editingMeeting := None;
     Tracker.deleteId := None;
     Tracker.activeFilter := "All";
     Tracker.search := "";
     Tracker.isHistoryExpanded := false |}.

End Sample.

(** ** Months *)

(** The month after and the month before the month [mo] (1..12) of the
    year [y]. *)
Definition nextMonth (ym : Z * Z) : Z * Z :=
  let (y, mo) := ym in if mo =? 12 then (y + 1, 1) else (y, mo + 1).

Definition prevMonth (ym : Z * Z) : Z * Z :=
  let (y, mo) := ym in if mo =? 1 then (y - 1, 12) else (y, mo - 1).

(** The date [d] is in the month [mo] (1..12) of the year [y], in local
    time; and it is the first day of that month, at 00:00. *)
Definition showsMonth (tz : Z) (d : JSDate.t) (y mo : Z) : Prop :=
  JSDate.getFullYear tz d = Some y /\ JSDate.getMonth tz d = Some (mo - 1).

Definition firstOfMonthAt (tz : Z) (d : JSDate.t) (y mo : Z) : Prop :=
  showsMonth tz d y mo /\ JSDate.getDate tz d = Some 1
  /\ JSDate.getHours tz d = Some 0 /\ JSDate.getMinutes tz d = Some 0.

(** The days 1, 2, ..., [n]. *)
Definition daysUpTo (n : Z) : list Z := map Z.of_nat (seq 1 (Z.to_nat n)).

(** ** Digits *)

(** A number below 1000, and below 10000, written with three and four
    digits. *)
Definition threeDigits (n : Z) : string :=
  String (digit (n / 100)) (twoDigits (n mod 100)).

Definition fourDigits (n : Z) : string :=
  String (digit (n / 1000)) (threeDigits (n mod 1000)).

(** ** Audit fields of a write *)

(** The [lastUpdatedAt] and the [lastUpdatedBy] a call carries. *)
Definition stampOf (c : ApiCall) : option string :=
  match c with
  | TasksCreate d | TasksUpdate _ d => TaskPatch.lastUpdatedAt d
  | MeetingsCreate d | MeetingsUpdate _ d => MeetingPatch.lastUpdatedAt d
  | _ => None
  end.

Definition editorOf (c : ApiCall) : option string :=
  match c with
  | TasksCreate d | TasksUpdate _ d => TaskPatch.lastUpdatedBy d
  | MeetingsCreate d | MeetingsUpdate _ d => MeetingPatch.lastUpdatedBy d
  | _ => None
  end.

(** ** Further vocabulary *)

(** Equality of two numbers, [NaN] being equal to itself here. *)
Definition num_eqb (a b : Num) : bool :=
  match a, b with
  | Some x, Some y => x =? y
  | None, None => true
  | _, _ => false
  end.

(** Whether a cell of the grid is highlighted as today. *)
Definition cellIsToday (c : Calendar.Cell) : bool :=
  match c with
  | Calendar.Blank _ => false
  | Calendar.DayCell _ _ isToday _ _ _ => isToday
  end.

(* ================================================================== *)
(** * Part IV: properties *)
(* ================================================================== *)

(** ** The Gregorian calendar of [Date] *)

Module GregorianFacts.
Import JSDate.

Lemma isLeap_spec y :
  isLeap y = true <-> y mod 4 = 0 /\ (y mod 100 <> 0 \/ y mod 400 = 0).
Proof.
  unfold isLeap.
  rewrite andb_true_iff, orb_true_iff, negb_true_iff, !Z.eqb_eq, Z.eqb_neq.
  tauto.
Qed.

Lemma DayFromYear_succ y : DayFromYear (y + 1) = DayFromYear y + DaysInYear y.
Proof.
  unfold DayFromYear, DaysInYear.
  destruct (isLeap y) eqn:E.
  - apply isLeap_spec in E. Z.div_mod_to_equations; lia.
  - assert (H : ~ (y mod 4 = 0 /\ (y mod 100 <> 0 \/ y mod 400 = 0)))
      by (rewrite <- isLeap_spec; congruence).
    Z.div_mod_to_equations; lia.
Qed.

Lemma DayFromYear_mono a b : a <= b -> DayFromYear a <= DayFromYear b.
Proof. unfold DayFromYear. intros. Z.div_mod_to_equations; lia. Qed.

(** [YearFromDay] is the year the day falls in. *)
Lemma YearFromDay_spec d :
  DayFromYear (YearFromDay d) <= d < DayFromYear (YearFromDay d + 1).
Proof.
  unfold YearFromDay.
  set (y0 := 1970 + d * 400 / 146097).
  assert (B : DayFromYear (y0 - 1) <= d < DayFromYear (y0 + 2)).
  { unfold DayFromYear, y0. Z.div_mod_to_equations; lia. }
  destruct (Z.ltb_spec d (DayFromYear y0)).
  - replace (y0 - 1 + 1) with y0 by lia. lia.
  - destruct (Z.leb_spec (DayFromYear (y0 + 1)) d).
    + replace (y0 + 1 + 1) with (y0 + 2) by lia. lia.
    + lia.
Qed.

Lemma YearFromDay_unique y d :
  DayFromYear y <= d < DayFromYear (y + 1) -> YearFromDay d = y.
Proof.
  intros H. pose proof (YearFromDay_spec d) as S.
  destruct (Z.lt_trichotomy (YearFromDay d) y) as [L | [E | G]];
    [ | exact E | ].
  - pose proof (DayFromYear_mono (YearFromDay d + 1) y). lia.
  - pose proof (DayFromYear_mono (y + 1) (YearFromDay d)). lia.
Qed.

Lemma month_cases m :
  0 <= m <= 11 ->
  m = 0 \/ m = 1 \/ m = 2 \/ m = 3 \/ m = 4 \/ m = 5 \/ m = 6 \/ m = 7
  \/ m = 8 \/ m = 9 \/ m = 10 \/ m = 11.
Proof. lia. Qed.

(** Case analysis on a month number known to be in range. *)
Ltac each_month m H :=
  destruct (month_cases m H)
    as [?|[?|[?|[?|[?|[?|[?|[?|[?|[?|[?|?]]]]]]]]]]];
  subst m; cbn [daysOfMonth daysBeforeMonth] in *.

Lemma MakeDay_in_range y m dt :
  0 <= m <= 11 ->
  MakeDay y m dt = DayFromYear y + daysBeforeMonth (leapDay y) m + dt - 1.
Proof.
  intros H. unfold MakeDay, leapDay.
  rewrite (Z.div_small m 12), (Z.mod_small m 12) by lia.
  now rewrite Z.add_0_r.
Qed.

Lemma day_within_year y m dt :
  0 <= m <= 11 -> 1 <= dt <= daysOfMonth y m ->
  0 <= daysBeforeMonth (leapDay y) m + dt - 1 < DaysInYear y.
Proof.
  intros Hm Hd. each_month m Hm; unfold leapDay, DaysInYear in *;
    destruct (isLeap y); lia.
Qed.

(** From a civil date to a day number and back. *)
Lemma date_fields y m dt t :
  0 <= m <= 11 -> 1 <= dt <= daysOfMonth y m -> Day t = MakeDay y m dt ->
  YearFromTime t = y /\ MonthFromTime t = m /\ DateFromTime t = dt.
Proof.
  intros Hm Hd HD.
  rewrite MakeDay_in_range in HD by assumption.
  pose proof (day_within_year y m dt Hm Hd) as B.
  assert (Y : YearFromTime t = y).
  { unfold YearFromTime. apply YearFromDay_unique.
    rewrite DayFromYear_succ. lia. }
  split; [exact Y|].
  unfold DateFromTime, MonthFromTime, DayWithinYear, InLeapYear.
  rewrite Y, HD.
  each_month m Hm; unfold leapDay, DaysInYear in *; destruct (isLeap y);
    repeat match goal with
           | |- context [?a <? ?b] => destruct (Z.ltb_spec a b); try lia
           end;
    cbn [daysBeforeMonth]; (split; lia).
Qed.

(** From a time value to its civil date: the fields are a day of the
    calendar, and that day is the day of the time value. *)
Lemma fields_civil t :
  civilDateOf (Day t) (YearFromTime t) (MonthFromTime t + 1) (DateFromTime t).
Proof.
  pose proof (YearFromDay_spec (Day t)) as S.
  rewrite DayFromYear_succ in S. fold (YearFromTime t) in S.
  unfold civilDateOf, validDay.
  replace (MonthFromTime t + 1 - 1) with (MonthFromTime t) by lia.
  assert (M : 0 <= MonthFromTime t <= 11).
  { unfold MonthFromTime.
    repeat match goal with
           | |- context [?a <? ?b] => destruct (Z.ltb_spec a b)
           end; lia. }
  rewrite MakeDay_in_range by exact M.
  unfold DateFromTime, MonthFromTime, DayWithinYear, InLeapYear, leapDay,
    DaysInYear in *.
  destruct (isLeap (YearFromTime t)) eqn:E;
    repeat match goal with
           | |- context [?a <? ?b] => destruct (Z.ltb_spec a b)
           end;
    cbn [daysOfMonth daysBeforeMonth]; unfold leapDay; rewrite ?E; lia.
Qed.

(** The time of day does not change the day, and is read back. *)
Lemma time_fields day h mi :
  0 <= h < 24 -> 0 <= mi < 60 ->
  Day (MakeDate day (MakeTime h mi 0 0)) = day
  /\ HourFromTime (MakeDate day (MakeTime h mi 0 0)) = h
  /\ MinFromTime (MakeDate day (MakeTime h mi 0 0)) = mi.
Proof.
  intros Hh Hm.
  unfold MakeDate, MakeTime, Day, HourFromTime, MinFromTime, msPerDay,
    msPerHour, msPerMinute, msPerSecond.
  repeat split; Z.div_mod_to_equations; lia.
Qed.

Lemma hour_minute_range t :
  0 <= HourFromTime t < 24 /\ 0 <= MinFromTime t < 60.
Proof.
  unfold HourFromTime, MinFromTime. split; apply Z.mod_pos_bound; lia.
Qed.

(** The days of the years of [keyYear] are within the range of time
    values, whatever the time of day and the zone. *)
Lemma key_year_in_range y m dt time tz :
  keyYear y -> 0 <= m <= 11 -> 1 <= dt <= daysOfMonth y m ->
  0 <= time < msPerDay -> zoneOffset tz ->
  TimeClip (MakeDate (MakeDay y m dt) time - tz)
  = Some (MakeDate (MakeDay y m dt) time - tz).
Proof.
  intros [Hy1 Hy2] Hm Hd Ht Hz.
  pose proof (day_within_year y m dt Hm Hd) as B.
  rewrite MakeDay_in_range by assumption.
  pose proof (DayFromYear_mono 100 y Hy1) as L.
  pose proof (DayFromYear_mono (y + 1) 275760 ltac:(lia)) as U.
  rewrite DayFromYear_succ in U.
  change (DayFromYear 100) with (-683003) in L.
  change (DayFromYear 275760) with 99999744 in U.
  unfold TimeClip, MakeDate, zoneOffset, msPerDay in *.
  destruct (Z.ltb_spec 8640000000000000
              (Z.abs ((DayFromYear y + daysBeforeMonth (leapDay y) m + dt - 1)
                      * 86400000 + time - tz))); [lia|reflexivity].
Qed.

(** A day number has one civil date. *)
Lemma civilDateOf_unique n y mo d y' mo' d' :
  civilDateOf n y mo d -> civilDateOf n y' mo' d' ->
  y = y' /\ mo = mo' /\ d = d'.
Proof.
  intros [[Hm Hd] E] [[Hm' Hd'] E'].
  assert (D : Day (n * msPerDay) = n)
    by (unfold Day, msPerDay; apply Z.div_mul; lia).
  destruct (date_fields y (mo - 1) d (n * msPerDay) ltac:(lia) Hd
              ltac:(congruence)) as (Y & M & Dt).
  destruct (date_fields y' (mo' - 1) d' (n * msPerDay) ltac:(lia) Hd'
              ltac:(congruence)) as (Y' & M' & Dt').
  lia.
Qed.

End GregorianFacts.

(** ** Numbers as strings *)

Module StringFacts.

Lemma append_empty s : s +++ "" = s.
Proof. induction s; simpl; congruence. Qed.

Lemma append_assoc a b c : (a +++ b) +++ c = a +++ b +++ c.
Proof. induction a; simpl; congruence. Qed.

Lemma allChars_weaken (p q : ascii -> bool) s :
  (forall c, p c = true -> q c = true) ->
  allChars p s = true -> allChars q s = true.
Proof.
  intros H. induction s; simpl; [reflexivity|].
  rewrite !andb_true_iff. intros [? ?]. auto.
Qed.

Lemma digit_notDash c : isDigit c = true -> notDash c = true.
Proof.
  unfold notDash. destruct (Ascii.eqb_spec c "-") as [->|]; [discriminate|easy].
Qed.

Lemma uint_digits d : allChars isDigit (NilEmpty.string_of_uint d) = true.
Proof. induction d; simpl; auto. Qed.

(** The string of a natural number is the string of a decimal numeral. *)
Lemma ofZ_nonneg y :
  0 <= y ->
  exists d, d <> Decimal.Nil
            /\ JSString.ofZ y = NilEmpty.string_of_uint d
            /\ Z.of_uint d = y.
Proof.
  intros Hy. unfold JSString.ofZ. destruct y as [|p|p]; [| |lia].
  - exists Decimal.zero. repeat split. discriminate.
  - exists (Pos.to_uint p). split; [apply DecimalPos.Unsigned.to_uint_nonnil|].
    split.
    + simpl. unfold NilZero.string_of_uint.
      destruct (Pos.to_uint p) eqn:E; try reflexivity.
      now apply DecimalPos.Unsigned.to_uint_nonnil in E.
    + unfold Z.of_uint. now rewrite DecimalPos.Unsigned.of_to.
Qed.

Lemma ofZ_digits y : 0 <= y -> allChars isDigit (JSString.ofZ y) = true.
Proof.
  intros H. destruct (ofZ_nonneg y H) as (d & _ & -> & _). apply uint_digits.
Qed.

Lemma toNumber_digits s u :
  allChars isDigit s = true -> NilZero.uint_of_string s = Some u ->
  JSString.toNumber s = Some (Z.of_uint u).
Proof.
  destruct s as [|a s]; [discriminate 2|].
  intros D U. unfold JSString.toNumber.
  simpl in D. apply andb_true_iff in D as [Da _].
  destruct (Ascii.eqb_spec a "-") as [->|_]; [discriminate Da|].
  destruct (Ascii.eqb_spec a "+") as [->|_]; [discriminate Da|].
  now rewrite U.
Qed.

(** [Number(String(y)) = y] *)
Lemma toNumber_ofZ y : 0 <= y -> JSString.toNumber (JSString.ofZ y) = Some y.
Proof.
  intros H. pose proof (ofZ_digits y H) as D.
  destruct (ofZ_nonneg y H) as (d & Hd & E & V). rewrite E in *.
  rewrite (toNumber_digits _ d D); [now rewrite V|].
  replace (NilEmpty.string_of_uint d) with (NilZero.string_of_uint d)
    by (now destruct d).
  now apply NilZero.usu.
Qed.

Lemma splitAux_piece a rest cur :
  allChars notDash a = true ->
  JSString.splitAux "-" (a +++ rest) cur
  = JSString.splitAux "-" rest (cur +++ a).
Proof.
  revert cur. induction a as [|c a IH]; intros cur H; simpl in *.
  - now rewrite append_empty.
  - apply andb_true_iff in H as [Hc Ha]. unfold notDash in Hc.
    destruct (Ascii.eqb c "-"); [discriminate|].
    rewrite IH by assumption. now rewrite append_assoc.
Qed.

(** Splitting three dash-free pieces joined by dashes gives them back. *)
Lemma split_three a b c :
  allChars notDash a = true -> allChars notDash b = true ->
  allChars notDash c = true ->
  JSString.split "-" (a +++ "-" +++ b +++ "-" +++ c) = [a; b; c].
Proof.
  intros Ha Hb Hc. unfold JSString.split.
  rewrite splitAux_piece by assumption. simpl.
  rewrite splitAux_piece by assumption. simpl.
  rewrite <- (append_empty c) at 1.
  rewrite splitAux_piece by assumption. reflexivity.
Qed.

Lemma checkUpTo_spec n p :
  checkUpTo n p = true -> forall z, 0 <= z < Z.of_nat n -> p z = true.
Proof.
  induction n; simpl; intros H z Hz; [lia|].
  apply andb_true_iff in H as [H1 H2].
  destruct (Z.eq_dec z (Z.of_nat n)) as [->|]; [assumption|].
  apply IHn; [assumption|lia].
Qed.

(** [pad] writes a number below 100 with two digits. *)
Lemma pad_twoDigits n : 0 <= n < 100 -> pad (Some n) = twoDigits n.
Proof.
  intros H. apply String.eqb_eq.
  apply (checkUpTo_spec 100
           (fun z => String.eqb (pad (Some z)) (twoDigits z)));
    [vm_compute; reflexivity|lia].
Qed.

Lemma twoDigits_number n :
  0 <= n < 100 ->
  JSString.toNumber (twoDigits n) = Some n
  /\ allChars isDigit (twoDigits n) = true.
Proof.
  intros H.
  pose (ok := fun z =>
          match JSString.toNumber (twoDigits z) with
          | Some v => v =? z
          | None => false
          end && allChars isDigit (twoDigits z)).
  assert (E : ok n = true).
  { apply (checkUpTo_spec 100 ok); [vm_compute; reflexivity|lia]. }
  unfold ok in E. apply andb_true_iff in E as [E1 E2]. split; [|assumption].
  destruct (JSString.toNumber (twoDigits n)); [|discriminate].
  apply Z.eqb_eq in E1. congruence.
Qed.

(** The [split('-').map(Number)] of a day key reads the day back. *)
Lemma splitDate_dayKey y mo d :
  0 <= y -> 0 <= mo < 100 -> 0 <= d < 100 ->
  Calendar.splitDate (dayKey y mo d) = (Some y, Some mo, Some d).
Proof.
  intros Hy Hm Hd. unfold Calendar.splitDate, dayKey, monthPrefix.
  destruct (twoDigits_number mo Hm) as [Nm Dm].
  destruct (twoDigits_number d Hd) as [Nd Dd].
  rewrite !append_assoc.
  rewrite split_three;
    try (apply (allChars_weaken isDigit); [apply digit_notDash|]);
    auto using ofZ_digits.
  cbn [map JSArray.at_ nth]. now rewrite toNumber_ofZ, Nm, Nd.
Qed.

(** [startsWith] is the prefix test of the standard library. *)
Lemma startsWith_prefix p s : JSString.startsWith p s = String.prefix p s.
Proof.
  revert s. induction p as [|a p IH]; intros [|b s]; simpl; try reflexivity.
  rewrite IH. destruct (ascii_dec a b) as [E|E].
  - subst. now rewrite Ascii.eqb_refl.
  - apply Ascii.eqb_neq in E. now rewrite E.
Qed.

Lemma startsWith_spec p s :
  JSString.startsWith p s = true <-> exists post, s = p +++ post.
Proof.
  revert s. induction p as [|a p IH]; intros s; simpl.
  - split; [intros _; now exists s|reflexivity].
  - destruct s as [|b s]; [split; [discriminate|intros [? [=]]]|].
    rewrite andb_true_iff, IH. split.
    + intros [E [post ->]]. apply Ascii.eqb_eq in E as ->. now exists post.
    + intros [post [= -> ->]]. split; [apply Ascii.eqb_refl|now exists post].
Qed.

(** [includes] finds exactly the strings that occur. *)
Lemma includes_spec p s : JSString.includes p s = true <-> occursIn p s.
Proof.
  unfold occursIn. induction s as [|b s IH].
  - simpl. rewrite orb_false_r, startsWith_spec. split.
    + intros [post E]. now exists "", post.
    + intros ([|? ?] & post & E); [now exists post|discriminate].
  - cbn [JSString.includes]. rewrite orb_true_iff, IH, startsWith_spec. split.
    + intros [[post E] | (pre & post & E)].
      * now exists "", post.
      * exists (String b pre), post. simpl. now rewrite E.
    + intros ([|c pre] & post & E).
      * left. now exists post.
      * right. injection E as -> E. now exists pre, post.
Qed.

(** The string of an integer starts with a digit or a minus sign. *)
Lemma uint_nonempty d :
  d <> Decimal.Nil -> exists c r, NilEmpty.string_of_uint d = String c r /\ isDigit c = true.
Proof. destruct d; intros H; try congruence; simpl; eauto. Qed.

Lemma ofZ_head z :
  exists c r, JSString.ofZ z = String c r /\ c <> "N"%char.
Proof.
  unfold JSString.ofZ. destruct z as [|p|p]; simpl.
  - exists "0"%char, "". split; [reflexivity|discriminate].
  - unfold NilZero.string_of_uint.
    destruct (uint_nonempty (Pos.to_uint p)) as (c & r & E & D);
      [apply DecimalPos.Unsigned.to_uint_nonnil|].
    exists c, r. split.
    + destruct (Pos.to_uint p); try exact E. discriminate E.
    + intros ->. discriminate.
  - exists "-"%char. eexists. split; [reflexivity|discriminate].
Qed.

End StringFacts.

(** ** [Date] objects in the local zone *)

Module DateFacts.
Import JSDate GregorianFacts StringFacts.

Lemma local_utc tz x : LocalTime tz (UTC tz x) = x.
Proof. unfold LocalTime, UTC. lia. Qed.

Lemma MakeTime_range h mi :
  0 <= h < 24 -> 0 <= mi < 60 -> 0 <= MakeTime h mi 0 0 < msPerDay.
Proof. unfold MakeTime, msPerHour, msPerMinute, msPerSecond, msPerDay. lia. Qed.

(** A date built from the local fields of a calendar day and a time of
    day is valid and has these fields. *)
Lemma ofFields_fields tz y mo d h mi :
  zoneOffset tz -> keyYear y -> validDay y mo d ->
  0 <= h < 24 -> 0 <= mi < 60 ->
  exists tv,
    ofFields tz (Some y) (Some (mo - 1)) (Some d) (Some h) (Some mi)
      (Some 0) (Some 0) = Some tv
    /\ LocalTime tz tv = MakeDate (MakeDay y (mo - 1) d) (MakeTime h mi 0 0)
    /\ YearFromTime (LocalTime tz tv) = y
    /\ MonthFromTime (LocalTime tz tv) = mo - 1
    /\ DateFromTime (LocalTime tz tv) = d
    /\ HourFromTime (LocalTime tz tv) = h
    /\ MinFromTime (LocalTime tz tv) = mi.
Proof.
  intros Hz Hy [Hm Hd] Hh Hmi.
  set (x := MakeDate (MakeDay y (mo - 1) d) (MakeTime h mi 0 0)).
  exists (UTC tz x).
  destruct (time_fields (MakeDay y (mo - 1) d) h mi Hh Hmi) as (TD & TH & TM).
  fold x in TD, TH, TM.
  destruct (date_fields y (mo - 1) d x ltac:(lia) Hd TD) as (FY & FM & FD).
  rewrite local_utc. repeat split; try assumption.
  unfold ofFields.
  replace ((0 <=? y) && (y <=? 99)) with false
    by (destruct Hy; symmetry; apply andb_false_iff; right; apply Z.leb_gt; lia).
  unfold UTC, x.
  apply key_year_in_range; auto using MakeTime_range. lia.
Qed.

(** The key the pages compute from the fields of a date. *)
Lemma monthKey_fields tz dt y mo :
  getFullYear tz dt = Some y -> getMonth tz dt = Some (mo - 1) ->
  1 <= mo <= 12 ->
  Calendar.monthKey tz dt = monthPrefix y mo.
Proof.
  intros HY HM Hm. unfold Calendar.monthKey, monthPrefix.
  rewrite HY, HM. cbn [num_add JSString.ofNum].
  replace (mo - 1 + 1) with mo by lia.
  now rewrite pad_twoDigits by lia.
Qed.

Lemma dateKey_fields tz dt y mo d :
  getFullYear tz dt = Some y -> getMonth tz dt = Some (mo - 1) ->
  getDate tz dt = Some d -> 1 <= mo <= 12 -> 1 <= d <= 31 ->
  Calendar.dateKey tz dt = dayKey y mo d.
Proof.
  intros HY HM HD Hm Hd. unfold Calendar.dateKey, dayKey.
  rewrite (monthKey_fields tz dt y mo) by assumption.
  rewrite HD. now rewrite pad_twoDigits by lia.
Qed.

Lemma daysOfMonth_le_31 y m : daysOfMonth y m <= 31.
Proof.
  unfold daysOfMonth, leapDay.
  destruct (isLeap y);
    repeat match goal with
           | |- context [match ?x with _ => _ end] => destruct x
           end; lia.
Qed.

(** The key of a valid date is the key of its local calendar day. *)
Lemma dateKey_valid tz tv :
  Calendar.dateKey tz (Some tv)
  = dayKey (YearFromTime (LocalTime tz tv))
      (MonthFromTime (LocalTime tz tv) + 1) (DateFromTime (LocalTime tz tv)).
Proof.
  destruct (fields_civil (LocalTime tz tv)) as [[Hm Hd] _].
  pose proof (daysOfMonth_le_31 (YearFromTime (LocalTime tz tv))
                (MonthFromTime (LocalTime tz tv) + 1 - 1)).
  apply dateKey_fields; try lia; cbn; try reflexivity.
  do 2 f_equal. lia.
Qed.

(** No cell has the key of an invalid date. *)
Lemma cellKey_not_NaN tz t day :
  Calendar.cellKey tz (Some t) day <> Calendar.dateKey tz NaN.
Proof.
  unfold Calendar.cellKey, Calendar.monthKey.
  cbn [getFullYear localField option_map JSString.ofNum].
  destruct (ofZ_head (YearFromTime (LocalTime tz t))) as (c & r & -> & N).
  cbn. intros [= E]. congruence.
Qed.

End DateFacts.

(** ** Sorting *)

Module SortFacts.
Section Sorting.
Context {A : Type}.
Variable cmp : A -> A -> Num.

Lemma insert_perm x l : Permutation (JSArray.insert cmp x l) (x :: l).
Proof.
  induction l as [|y l IH]; simpl; [reflexivity|].
  destruct (num_pos (cmp x y)); [|reflexivity].
  rewrite IH. apply perm_swap.
Qed.

(** Sorting rearranges the array and nothing else. *)
Lemma sort_perm l : Permutation (JSArray.sort cmp l) l.
Proof.
  induction l as [|x l IH]; simpl; [reflexivity|].
  rewrite insert_perm. now constructor.
Qed.

Lemma sort_In x l : In x (JSArray.sort cmp l) <-> In x l.
Proof.
  split; apply Permutation_in; [|symmetry]; apply sort_perm.
Qed.

Lemma sort_length l : List.length (JSArray.sort cmp l) = List.length l.
Proof. apply Permutation_length, sort_perm. Qed.

Variable R : A -> A -> Prop.

Lemma insert_sorted x l :
  decides cmp R (x :: l) -> Sorted R l -> Sorted R (JSArray.insert cmp x l).
Proof.
  intros D. induction l as [|y l IH]; simpl; intros S.
  - repeat constructor.
  - pose proof (D x y (or_introl eq_refl) (or_intror (or_introl eq_refl))) as C.
    destruct (num_pos (cmp x y)) eqn:E.
    + inversion S as [|? ? S' H']; subst.
      assert (D' : decides cmp R (x :: l)).
      { intros a b Ha Hb. apply D; simpl in *; tauto. }
      constructor; [now apply IH|].
      destruct l as [|z l]; simpl.
      * now constructor.
      * destruct (num_pos (cmp x z)); constructor; [|assumption].
        now inversion H'.
    + constructor; [assumption|now constructor].
Qed.

Lemma sort_sorted l : decides cmp R l -> Sorted R (JSArray.sort cmp l).
Proof.
  induction l as [|x l IH]; simpl; intros D; [constructor|].
  apply insert_sorted.
  - intros a b Ha Hb. apply D; simpl in *; rewrite ?sort_In in *; tauto.
  - apply IH. intros a b Ha Hb. apply D; simpl; tauto.
Qed.

End Sorting.

(** Comparators that subtract numeric keys. *)
Section ByKey.
Context {A : Type}.
Variable key : A -> Num.

Lemma keyLe_trans : Relations_1.Transitive (keyLe key).
Proof.
  intros a b c. unfold keyLe.
  destruct (key a), (key b), (key c); try tauto. lia.
Qed.


Lemma ascending_decides l :
  numericKeys key l ->
  decides (fun a b => num_sub (key a) (key b)) (keyLe key) l.
Proof.
  intros N a b Ha Hb. unfold keyLe.
  pose proof (N a Ha). pose proof (N b Hb).
  destruct (key a), (key b); try easy. simpl.
  destruct (Z.ltb_spec 0 (z - z0)); lia.
Qed.


(** With numeric keys, [sort((a, b) => key(a) - key(b))] is ascending. *)
Lemma sort_ascending l :
  numericKeys key l ->
  StronglySorted (keyLe key)
    (JSArray.sort (fun a b => num_sub (key a) (key b)) l).
Proof.
  intros N. apply Sorted_StronglySorted; [apply keyLe_trans|].
  now apply sort_sorted, ascending_decides.
Qed.


End ByKey.
End SortFacts.

(** Unfolds the run of a handler into its result, state and effects. *)
Ltac run_handler :=
  cbv [Handler.run Handler.effectsOf Handler.stateOf Handler.bind Handler.emit
       Handler.set Handler.ret Handler.raise Handler.await
       Handler.tryCatch Handler.tryCatchFinally].

(** ** The item normalizer *)

Module NormalizerFacts.

Lemma forEach_tasks acc ts :
  JSArray.forEach ts Calendar.processTask acc
  = acc ++ map Calendar.taskItem (filter openTask ts).
Proof.
  revert acc. unfold JSArray.forEach.
  induction ts as [|t ts IH]; intros acc; simpl.
  - now rewrite app_nil_r.
  - rewrite IH. unfold Calendar.processTask, JSArray.push. fold (openTask t).
    destruct (openTask t); simpl; [now rewrite <- app_assoc|reflexivity].
Qed.

Lemma forEach_meetings tz acc ms :
  JSArray.forEach ms (Calendar.processMeeting tz) acc
  = acc ++ map (Calendar.meetingItem tz) ms.
Proof.
  revert acc. unfold JSArray.forEach.
  induction ms as [|m ms IH]; intros acc; simpl.
  - now rewrite app_nil_r.
  - rewrite IH. unfold Calendar.processMeeting, JSArray.push.
    now rewrite <- app_assoc.
Qed.

(** The two loops of [fetchData] as one expression. *)
Lemma buildItems_eq tz ts ms :
  Calendar.buildItems tz ts ms
  = map Calendar.taskItem (filter openTask ts)
      ++ map (Calendar.meetingItem tz) ms.
Proof.
  unfold Calendar.buildItems. now rewrite forEach_tasks, forEach_meetings.
Qed.

Lemma filter_all {A} (p : A -> bool) l :
  (forall x, In x l -> p x = true) -> filter p l = l.
Proof.
  induction l as [|x l IH]; simpl; intros H; [reflexivity|].
  rewrite (H x (or_introl eq_refl)). f_equal. apply IH. auto.
Qed.

Lemma filter_none {A} (p : A -> bool) l :
  (forall x, In x l -> p x = false) -> filter p l = [].
Proof.
  induction l as [|x l IH]; simpl; intros H; [reflexivity|].
  rewrite (H x (or_introl eq_refl)). apply IH. auto.
Qed.

(** The items of a fetch that fall in a cell have numeric sort keys: a
    meeting with an unreadable date-time has the key of no cell. *)
Lemma fetched_cell_numeric tz ts ms t day p :
  numericKeys Calendar.sortTime
    (filter (fun i => String.eqb (Calendar.dateStr i)
                        (Calendar.cellKey tz (Some t) day) && p i)
       (Calendar.buildItems tz ts ms)).
Proof.
  intros i Hi. apply filter_In in Hi as [Hin Hk].
  apply andb_true_iff in Hk as [Hk _]. apply String.eqb_eq in Hk.
  rewrite buildItems_eq in Hin.
  apply in_app_iff in Hin as [Hin|Hin]; apply in_map_iff in Hin as (x & <- & _).
  - discriminate.
  - unfold Calendar.meetingItem in *. cbn [Calendar.sortTime Calendar.dateStr] in *.
    destruct (JSDate.parse tz (Meeting.dateTime x)); [discriminate|].
    symmetry in Hk. now apply DateFacts.cellKey_not_NaN in Hk.
Qed.

(** A fetch whose three reads succeed replaces the items by the
    normalized ones; a failed one keeps them and shows an error toast. *)
Lemma fetchData_items env st :
  let r := Handler.run (Calendar.fetchData env) st in
  if accepts env TasksGetAll && accepts env MeetingsGetAll && accepts env CrmGetAll
  then Calendar.items (Handler.stateOf r)
       = Calendar.buildItems (tza env) (tasksData env) (meetingsData env)
  else Calendar.items (Handler.stateOf r) = Calendar.items st
       /\ toasts "error" (Handler.effectsOf r) = true.
Proof.
  unfold Calendar.fetchData, Calendar.readAll. run_handler.
  destruct (accepts env TasksGetAll && accepts env MeetingsGetAll
            && accepts env CrmGetAll); cbn; auto.
Qed.

End NormalizerFacts.

(** C1. For every fetch result (the tasks and the meetings read), the
    items the normalizer builds are, in order, one item per task whose
    status is neither "Completed" nor "Done", then one item per meeting:
    the task items carry exactly the open tasks, each with its due date
    as grouping key and 0 as sort key; the meeting items carry exactly the
    meetings; and there is no other item, so a task that is "Completed"
    or "Done" has none. *)
Theorem normalizer_one_item_per_source tz ts ms :
  let items := Calendar.buildItems tz ts ms in
  map (fun i => (Calendar.data i, Calendar.dateStr i, Calendar.sortTime i))
      (filter isTaskItem items)
  = map (fun t => (Calendar.OfTask t, Task.dueDate t, Some 0))
      (filter openTask ts)
  /\ map Calendar.data (filter isMeetingItem items)
     = map Calendar.OfMeeting ms
  /\ List.length items
     = (List.length (filter openTask ts) + List.length ms)%nat
  /\ (forall i t, In i items -> Calendar.data i = Calendar.OfTask t ->
        Task.status t <> "Completed" /\ Task.status t <> "Done").
Proof.
  cbv zeta. rewrite NormalizerFacts.buildItems_eq.
  rewrite !filter_app.
  rewrite (NormalizerFacts.filter_all isTaskItem (map Calendar.taskItem _))
    by (intros x Hx; apply in_map_iff in Hx as (t & <- & _); reflexivity).
  rewrite (NormalizerFacts.filter_none isTaskItem (map (Calendar.meetingItem tz) _))
    by (intros x Hx; apply in_map_iff in Hx as (m & <- & _); reflexivity).
  rewrite (NormalizerFacts.filter_none isMeetingItem (map Calendar.taskItem _))
    by (intros x Hx; apply in_map_iff in Hx as (t & <- & _); reflexivity).
  rewrite (NormalizerFacts.filter_all isMeetingItem (map (Calendar.meetingItem tz) _))
    by (intros x Hx; apply in_map_iff in Hx as (m & <- & _); reflexivity).
  rewrite app_nil_r, app_nil_l, !map_map, length_app, !length_map.
  split; [reflexivity|]. split; [reflexivity|]. split; [reflexivity|].
  intros i t Hin D.
  apply in_app_iff in Hin as [Hin|Hin].
  - apply in_map_iff in Hin as (t' & <- & Ht'). simpl in D.
    injection D as ->. apply filter_In in Ht' as [_ O].
    unfold openTask in O. apply andb_true_iff in O as [O1 O2].
    apply negb_true_iff in O1, O2. now apply String.eqb_neq in O1, O2.
  - apply in_map_iff in Hin as (m & <- & _). discriminate.
Qed.

(** C2. For every meeting whose date-time is a valid instant [t], the
    item built from it has the instant's epoch value as sort key, and its
    grouping key is the key of the local calendar date of the instant: the
    civil date [y]-[mo]-[d] of the day of [t] shifted to local time,
    written as the year, the two-digit month and the two-digit day. *)
Theorem meeting_item_local_date tz m t :
  JSDate.parse tz (Meeting.dateTime m) = Some t ->
  Calendar.sortTime (Calendar.meetingItem tz m) = Some t
  /\ exists y mo d,
       civilDateOf (JSDate.Day (JSDate.LocalTime tz t)) y mo d
       /\ Calendar.dateStr (Calendar.meetingItem tz m) = dayKey y mo d.
Proof.
  intros P. unfold Calendar.meetingItem. cbn [Calendar.sortTime Calendar.dateStr].
  rewrite P. split; [reflexivity|].
  exists (JSDate.YearFromTime (JSDate.LocalTime tz t)),
         (JSDate.MonthFromTime (JSDate.LocalTime tz t) + 1),
         (JSDate.DateFromTime (JSDate.LocalTime tz t)).
  split; [apply GregorianFacts.fields_civil|apply DateFacts.dateKey_valid].
Qed.

(** ** Drag and drop *)

Module DropFacts.
Import JSDate GregorianFacts StringFacts DateFacts.





End DropFacts.


(** C4. Dropping on the date key that the dragged item already has, or
    dropping when no item is being dragged, changes nothing: the state of
    the page, and so its item collection, is what it was, and no API call
    is issued. *)
Theorem drop_on_same_day_is_noop env st dateStr :
  (Calendar.draggedItem st = None
   \/ exists item, Calendar.draggedItem st = Some item
                   /\ Calendar.dateStr item = dateStr) ->
  let r := Handler.run (Calendar.handleDrop env st dateStr) st in
  Handler.stateOf r = st
  /\ Calendar.items (Handler.stateOf r) = Calendar.items st
  /\ apiCalls (Handler.effectsOf r) = [].
Proof.
  intros H. unfold Calendar.handleDrop.
  destruct H as [-> | (item & -> & <-)].
  - run_handler. cbn. auto.
  - rewrite String.eqb_refl. run_handler. cbn. auto.
Qed.

(** ** Failed writes *)

Module FailureFacts.
Lemma rejected_single env c tr :
  apiCalls tr = [c] -> accepts env c = true -> ~ writeRejected env tr.
Proof.
  intros E A (c' & Hin & R). rewrite E in Hin.
  destruct Hin as [<-|[]]. congruence.
Qed.

Lemma rejected_none env tr : apiCalls tr = [] -> ~ writeRejected env tr.
Proof. intros E (c' & Hin & _). now rewrite E in Hin. Qed.

(* Decides the outcome of the one API call of a run: either it was accepted,
   against the hypothesis, or the run is computed. *)
Ltac by_outcome env R :=
  run_handler;
  match goal with
  | |- context [accepts env ?c] =>
      destruct (accepts env c) eqn:?;
      [ exfalso; revert R; run_handler;
        match goal with
        | A : accepts env c = true |- _ => rewrite A
        end;
        apply (rejected_single env c); [reflexivity|assumption]
      | cbn; auto ]
  end.

End FailureFacts.
Import FailureFacts.

(** C5, as amended. When the API write of a mutation is rejected: the
    save and the status change of the meeting tracker start a full
    refetch; the drop of the calendar shows a failure notification and
    starts a full refetch; the task save and the meeting save of the
    calendar show a failure notification and start no refetch (they
    refetch after a write that succeeded). *)
Theorem write_failure_handling env mu :
  writeRejected env (mutationEffects env mu) ->
  match mu with
  | CalendarTaskSave _ _ | CalendarMeetingSave _ _ =>
      toasts "error" (mutationEffects env mu) = true
      /\ refetches (mutationEffects env mu) = false
  | CalendarDrop _ _ =>
      toasts "error" (mutationEffects env mu) = true
      /\ refetches (mutationEffects env mu) = true
  | TrackerSave _ _ | TrackerStatusChange _ _ _ =>
      refetches (mutationEffects env mu) = true
  end.
Proof.
  destruct mu as [st data|st data|st dateStr|st data|st m newStatus];
    cbn [mutationEffects]; intros R.
  - unfold Calendar.handleTaskSave in *.
    destruct (Calendar.editedId Task.id (Calendar.editingTask st)); by_outcome env R.
  - unfold Calendar.handleMeetingSave in *.
    destruct (Calendar.editedId Meeting.id (Calendar.editingMeeting st)); by_outcome env R.
  - unfold Calendar.handleDrop in *.
    destruct (Calendar.draggedItem st) as [dragged|];
      [|exfalso; revert R; apply rejected_none; reflexivity].
    destruct (String.eqb (Calendar.dateStr dragged) dateStr);
      [exfalso; revert R; apply rejected_none; reflexivity|].
    cbn [Calendar.withDateStr Calendar.type] in *.
    destruct (Calendar.type dragged); by_outcome env R.
  - unfold Tracker.handleSave in *.
    destruct (Tracker.editingMeeting st); by_outcome env R.
  - unfold Tracker.handleStatusChange in *. by_outcome env R.
Qed.

(** C5, as stated, fails on the calendar: the server rejects the create
    of a new task, and no refetch is started. *)
Lemma calendar_save_failure_starts_no_refetch :
  writeRejected (Sample.env Sample.at0900 false)
    (mutationEffects (Sample.env Sample.at0900 false)
       (CalendarTaskSave Sample.calendar TaskPatch.empty))
  /\ refetches
       (mutationEffects (Sample.env Sample.at0900 false)
          (CalendarTaskSave Sample.calendar TaskPatch.empty))
     = false.
Proof.
  split; [|reflexivity].
  eexists. split; [left; reflexivity|reflexivity].
Qed.

Lemma write_failure_handling_witness :
  toasts "error"
    (mutationEffects (Sample.env Sample.at0900 false)
       (CalendarDrop Sample.dragging "2024-05-12")) = true
  /\ refetches
       (mutationEffects (Sample.env Sample.at0900 false)
          (CalendarDrop Sample.dragging "2024-05-12")) = true.
Proof.
  apply (write_failure_handling (Sample.env Sample.at0900 false)
           (CalendarDrop Sample.dragging "2024-05-12")).
  eexists. split; [left; reflexivity|reflexivity].
Defined.

(** ** Saving a form *)


(** ** Quick-create *)

Module QuickCreateFacts.
Import JSDate GregorianFacts StringFacts DateFacts DropFacts.



End QuickCreateFacts.



(** At 23:15 the next hour is on the next day, and so is the draft. *)
Example quick_create_late_evening :
  Meeting.dateTime
    (Calendar.meetingDraft (Sample.env 1717263900000 true) "2024-06-01")
  = "2024-06-02T00:00".
Proof. vm_compute. reflexivity. Qed.


(** ** Witnesses at the sample data *)

Lemma meeting_item_local_date_witness :
  Calendar.sortTime (Calendar.meetingItem Sample.ist Sample.sync)
  = Some 1715331600000
  /\ exists y mo d,
       civilDateOf
         (JSDate.Day (JSDate.LocalTime Sample.ist 1715331600000)) y mo d
       /\ Calendar.dateStr (Calendar.meetingItem Sample.ist Sample.sync)
          = dayKey y mo d.
Proof.
  apply (meeting_item_local_date Sample.ist Sample.sync 1715331600000).
  vm_compute. reflexivity.
Defined.


Lemma drop_on_same_day_is_noop_witness :
  Handler.stateOf
    (Handler.run
       (Calendar.handleDrop (Sample.env Sample.at0900 true) Sample.dragging
          "2024-05-10")
       Sample.dragging)
  = Sample.dragging
  /\ Calendar.items
       (Handler.stateOf
          (Handler.run
             (Calendar.handleDrop (Sample.env Sample.at0900 true)
                Sample.dragging "2024-05-10")
             Sample.dragging))
     = Calendar.items Sample.dragging
  /\ apiCalls
       (Handler.effectsOf
          (Handler.run
             (Calendar.handleDrop (Sample.env Sample.at0900 true)
                Sample.dragging "2024-05-10")
             Sample.dragging))
     = [].
Proof.
  apply (drop_on_same_day_is_noop (Sample.env Sample.at0900 true)
           Sample.dragging "2024-05-10").
  right. exists (Calendar.meetingItem Sample.ist Sample.sync).
  split; [reflexivity|vm_compute; reflexivity].
Defined.


(** ** Monthly statistics *)

Module ListFacts.

Lemma filter_filter {A} (p q : A -> bool) l :
  filter q (filter p l) = filter (fun x => p x && q x) l.
Proof.
  induction l as [|x l IH]; simpl; [reflexivity|].
  destruct (p x); simpl; [destruct (q x)|]; now rewrite IH.
Qed.

Lemma filter_split_length {A} (p q r : A -> bool) l :
  (forall x, p x = true -> q x = negb (r x)) ->
  List.length (filter p l)
  = (List.length (filter (fun x => p x && q x) l)
     + List.length (filter (fun x => p x && r x) l))%nat.
Proof.
  intros H. induction l as [|x l IH]; simpl; [reflexivity|].
  destruct (p x) eqn:P; simpl; [|exact IH].
  rewrite (H x P). destruct (r x); simpl; lia.
Qed.

Lemma filter_partition {A} (p : A -> bool) l :
  Permutation (filter (fun x => negb (p x)) l ++ filter p l) l.
Proof.
  induction l as [|x l IH]; simpl; [reflexivity|].
  destruct (p x); simpl.
  - rewrite <- Permutation_middle. now constructor.
  - now constructor.
Qed.

End ListFacts.

(** C7. For every item collection and every displayed month (the month
    of the valid date [currentDate], in local time), the statistics count
    the items whose grouping key starts with the year, a dash and the
    two-digit month: [total] is their number, [tasks] the number of tasks
    and [meetings] the number of meetings among them, and these two add
    up to the total. *)
Theorem monthly_stats_count tz items t :
  let y := JSDate.YearFromTime (JSDate.LocalTime tz t) in
  let mo := JSDate.MonthFromTime (JSDate.LocalTime tz t) + 1 in
  let inMonth i := String.prefix (monthPrefix y mo) (Calendar.dateStr i) in
  let s := Calendar.monthlyStats tz items (Some t) in
  1 <= mo <= 12
  /\ Calendar.total s = List.length (filter inMonth items)
  /\ Calendar.tasks s
     = List.length (filter (fun i => inMonth i && isTaskItem i) items)
  /\ Calendar.meetings s
     = List.length (filter (fun i => inMonth i && isMeetingItem i) items)
  /\ Calendar.total s = (Calendar.tasks s + Calendar.meetings s)%nat.
Proof.
  cbv zeta.
  destruct (GregorianFacts.fields_civil (JSDate.LocalTime tz t)) as [[Hm _] _].
  split; [exact Hm|].
  unfold Calendar.monthlyStats.
  cbn [Calendar.total Calendar.tasks Calendar.meetings].
  assert (K : Calendar.monthKey tz (Some t)
              = monthPrefix (JSDate.YearFromTime (JSDate.LocalTime tz t))
                  (JSDate.MonthFromTime (JSDate.LocalTime tz t) + 1)).
  { apply DateFacts.monthKey_fields; [reflexivity| |exact Hm].
    cbn. f_equal. lia. }
  rewrite K.
  set (k := monthPrefix _ _).
  assert (P : forall i, JSString.startsWith k (Calendar.dateStr i)
                        = String.prefix k (Calendar.dateStr i))
    by (intros i; apply StringFacts.startsWith_prefix).
  assert (T : forall q : Calendar.CalendarItem -> bool,
             filter q
               (filter (fun i => JSString.startsWith k (Calendar.dateStr i)) items)
             = filter (fun i => String.prefix k (Calendar.dateStr i) && q i) items).
  { intros q. rewrite ListFacts.filter_filter. apply filter_ext.
    intros i. now rewrite P. }
  split; [f_equal; apply filter_ext; exact P|].
  split; [f_equal; apply T|]. split; [f_equal; apply T|].
  rewrite !T, (filter_ext _ _ P).
  apply (ListFacts.filter_split_length
           (fun i => String.prefix k (Calendar.dateStr i))).
  intros i _. now destruct (Calendar.type i).
Qed.

(** ** The month grid *)

Module GridFacts.

Lemma matchesType_toggles st i :
  Calendar.matchesType st i
  = passesToggles (Calendar.showTasks st) (Calendar.showMeetings st)
      (Calendar.type i).
Proof.
  unfold Calendar.matchesType, passesToggles.
  destruct (Calendar.type i); cbn; [now rewrite orb_false_r|reflexivity].
Qed.



End GridFacts.




(** The scenario of the specification: the task due on 2024-05-10 and the
    meetings of that day are under the cell of May 10, the task first and
    the meetings by time; without the tasks toggle only the task goes. *)
Example may_10_cell :
  map Calendar.id (Calendar.dayItems Sample.may "2024-05-10")
  = ["task-3"; "meeting-8"; "meeting-7"]
  /\ map Calendar.id
       (Calendar.dayItems
          (Calendar.mkState (Calendar.items Sample.may) false
             (Calendar.currentDate Sample.may) (fun _ => None) false true
             None None None None false None false)
          "2024-05-10")
     = ["meeting-8"; "meeting-7"].
Proof. split; vm_compute; reflexivity. Qed.

(** ** The sections of the meeting tracker *)

Module TrackerFacts.

Lemma isClosed_spec m :
  Tracker.isClosed m = true
  <-> Meeting.status m = "Completed" \/ Meeting.status m = "Cancelled".
Proof.
  unfold Tracker.isClosed, JSArray.includes. cbn [existsb].
  rewrite orb_false_r, orb_true_iff, !String.eqb_eq. tauto.
Qed.

Lemma baseFiltered_spec ms search filter_ m :
  In m (Tracker.baseFiltered ms search filter_)
  <-> In m ms
      /\ occursIn (JSString.toLowerCase search)
           (JSString.toLowerCase (Meeting.title m))
      /\ (filter_ = "All" \/ Meeting.status m = filter_).
Proof.
  unfold Tracker.baseFiltered, Tracker.matchesSearch, Tracker.matchesStatus.
  rewrite filter_In, andb_true_iff, orb_true_iff, StringFacts.includes_spec,
    !String.eqb_eq.
  tauto.
Qed.


End TrackerFacts.



(* ================================================================== *)
(** * Part V: further properties of the pages *)
(* ================================================================== *)

(** ** Month navigation and the shape of the grid *)

Module NavFacts.
Import JSDate GregorianFacts StringFacts DateFacts.

Lemma not_two_digit y : keyYear y -> (0 <=? y) && (y <=? 99) = false.
Proof. intros [H _]. apply andb_false_iff. right. apply Z.leb_gt. lia. Qed.

(** [new Date(...)] depends on its date fields through their day number. *)
Lemma ofFields_same_day tz y mi dt y' mi' dt' h mn :
  keyYear y -> keyYear y' -> MakeDay y mi dt = MakeDay y' mi' dt' ->
  ofFields tz (Some y) (Some mi) (Some dt) (Some h) (Some mn) (Some 0) (Some 0)
  = ofFields tz (Some y') (Some mi') (Some dt') (Some h) (Some mn) (Some 0) (Some 0).
Proof.
  intros Hy Hy' E. unfold ofFields.
  now rewrite (not_two_digit y Hy), (not_two_digit y' Hy'), E.
Qed.

Lemma MakeDay_last y m :
  0 <= m <= 11 -> MakeDay y (m + 1) 0 = MakeDay y m (daysOfMonth y m).
Proof.
  intros Hm. destruct (Z.eq_dec m 11) as [->|N].
  - unfold MakeDay. change ((11 + 1) / 12) with 1. change ((11 + 1) mod 12) with 0.
    change (11 / 12) with 0. change (11 mod 12) with 11.
    replace (y + 0) with y by lia. rewrite DayFromYear_succ.
    cbn [daysBeforeMonth daysOfMonth]. unfold DaysInYear.
    destruct (isLeap y); lia.
  - rewrite !MakeDay_in_range by lia.
    each_month m Hm; try lia;
      match goal with
      | |- context [daysBeforeMonth _ (?a + 1)] =>
          let v := eval compute in (a + 1) in change (a + 1) with v
      end;
      cbn [daysBeforeMonth]; unfold leapDay; destruct (isLeap y); lia.
Qed.

Lemma MakeDay_next y m :
  0 <= m <= 11 ->
  MakeDay y (m + 1) 1
  = MakeDay (fst (nextMonth (y, m + 1))) (snd (nextMonth (y, m + 1)) - 1) 1.
Proof.
  intros Hm. unfold nextMonth. destruct (Z.eqb_spec (m + 1) 12) as [E|N]; cbn [fst snd].
  - replace m with 11 by lia. unfold MakeDay.
    change ((11 + 1) / 12) with 1. change ((11 + 1) mod 12) with 0.
    change ((1 - 1) / 12) with 0. change ((1 - 1) mod 12) with 0.
    now replace (y + 1 + 0) with (y + 1) by lia.
  - f_equal; lia.
Qed.

Lemma MakeDay_prev y m :
  0 <= m <= 11 ->
  MakeDay y (m - 1) 1
  = MakeDay (fst (prevMonth (y, m + 1))) (snd (prevMonth (y, m + 1)) - 1) 1.
Proof.
  intros Hm. unfold prevMonth. destruct (Z.eqb_spec (m + 1) 1) as [E|N]; cbn [fst snd].
  - replace m with 0 by lia. unfold MakeDay.
    change ((0 - 1) / 12) with (-1). change ((0 - 1) mod 12) with 11.
    change ((12 - 1) / 12) with 0. change ((12 - 1) mod 12) with 11.
    now replace (y - 1 + 0) with (y + -1) by lia.
  - f_equal; lia.
Qed.

Lemma daysOfMonth_pos y m : 28 <= daysOfMonth y m.
Proof.
  unfold daysOfMonth, leapDay.
  destruct (isLeap y);
    repeat match goal with
           | |- context [match ?x with _ => _ end] => destruct x
           end; lia.
Qed.

End NavFacts.

Module GridShape.
Import JSDate GregorianFacts StringFacts DateFacts NavFacts.

Lemma valid_fields tz t :
  let y := YearFromTime (LocalTime tz t) in
  let m := MonthFromTime (LocalTime tz t) in
  0 <= m <= 11
  /\ getFullYear tz (Some t) = Some y /\ getMonth tz (Some t) = Some m.
Proof.
  destruct (fields_civil (LocalTime tz t)) as [[Hm _] _].
  cbn. repeat split; lia.
Qed.

Lemma daysInMonth_valid tz t :
  zoneOffset tz -> keyYear (YearFromTime (LocalTime tz t)) ->
  Calendar.daysInMonth tz (Some t)
  = Some (daysOfMonth (YearFromTime (LocalTime tz t))
            (MonthFromTime (LocalTime tz t))).
Proof.
  intros Hz Hy. set (y := YearFromTime (LocalTime tz t)) in *.
  set (m := MonthFromTime (LocalTime tz t)).
  destruct (valid_fields tz t) as (Hm & FY & FM). fold y m in Hm, FY, FM.
  unfold Calendar.daysInMonth. rewrite FY, FM. cbn [num_add].
  rewrite (ofFields_same_day tz y (m + 1) 0 y m (daysOfMonth y m))
    by (auto using MakeDay_last).
  pose proof (daysOfMonth_pos y m).
  destruct (ofFields_fields tz y (m + 1) (daysOfMonth y m) 0 0 Hz Hy)
    as (tv & E & _ & _ & _ & FD & _); try lia.
  { split; [lia|]. replace (m + 1 - 1) with m by lia. lia. }
  replace (m + 1 - 1) with m in E by lia.
  rewrite E. cbn. now rewrite FD.
Qed.

Lemma firstDayOfMonth_valid tz t :
  zoneOffset tz -> keyYear (YearFromTime (LocalTime tz t)) ->
  Calendar.firstDayOfMonth tz (Some t)
  = Some (WeekDay
            (MakeDate (MakeDay (YearFromTime (LocalTime tz t))
                         (MonthFromTime (LocalTime tz t)) 1) 0)).
Proof.
  intros Hz Hy. set (y := YearFromTime (LocalTime tz t)) in *.
  set (m := MonthFromTime (LocalTime tz t)).
  destruct (valid_fields tz t) as (Hm & FY & FM). fold y m in Hm, FY, FM.
  unfold Calendar.firstDayOfMonth. rewrite FY, FM.
  pose proof (daysOfMonth_pos y m).
  destruct (ofFields_fields tz y (m + 1) 1 0 0 Hz Hy)
    as (tv & E & L & _); try lia.
  { split; [lia|]. replace (m + 1 - 1) with m by lia. lia. }
  replace (m + 1 - 1) with m in E, L by lia.
  rewrite E. cbn [getDay localField option_map]. now rewrite L.
Qed.

Lemma loopRange_days n :
  0 <= n -> Calendar.loopRange 1 (Some (n + 1)) = daysUpTo n.
Proof.
  intros Hn. unfold Calendar.loopRange, daysUpTo.
  replace (n + 1 - 1) with n by lia.
  rewrite <- seq_shift, map_map. apply map_ext. intros i. lia.
Qed.

End GridShape.

Module NavLemmas.
Import JSDate GregorianFacts StringFacts DateFacts NavFacts GridShape.

Lemma getMonth_range tz d m : getMonth tz d = Some m -> 0 <= m <= 11.
Proof.
  destruct d as [t|]; [|discriminate]. cbn. intros [= <-].
  destruct (fields_civil (LocalTime tz t)) as [[Hm _] _]. lia.
Qed.

Lemma nextMonth_valid y mo :
  1 <= mo <= 12 -> 1 <= snd (nextMonth (y, mo)) <= 12
  /\ (fst (nextMonth (y, mo)) = y \/ fst (nextMonth (y, mo)) = y + 1).
Proof. intros H. unfold nextMonth. destruct (Z.eqb_spec mo 12); cbn; lia. Qed.

Lemma prevMonth_valid y mo :
  1 <= mo <= 12 -> 1 <= snd (prevMonth (y, mo)) <= 12
  /\ (fst (prevMonth (y, mo)) = y \/ fst (prevMonth (y, mo)) = y - 1).
Proof. intros H. unfold prevMonth. destruct (Z.eqb_spec mo 1); cbn; lia. Qed.

Lemma prev_next y mo : 1 <= mo <= 12 -> prevMonth (nextMonth (y, mo)) = (y, mo).
Proof.
  intros H. unfold nextMonth. destruct (Z.eqb_spec mo 12); unfold prevMonth.
  - cbn. f_equal; lia.
  - destruct (Z.eqb_spec (mo + 1) 1); [lia|]. f_equal. lia.
Qed.

Lemma next_prev y mo : 1 <= mo <= 12 -> nextMonth (prevMonth (y, mo)) = (y, mo).
Proof.
  intros H. unfold prevMonth. destruct (Z.eqb_spec mo 1); unfold nextMonth.
  - cbn. f_equal; lia.
  - destruct (Z.eqb_spec (mo - 1) 12); [lia|]. f_equal. lia.
Qed.

(** The date [new Date(y, mo - 1, 1)] with its fields. *)
Lemma first_fields tz y mo :
  zoneOffset tz -> keyYear y -> 1 <= mo <= 12 ->
  exists tv,
    ofFields tz (Some y) (Some (mo - 1)) (Some 1) (Some 0) (Some 0) (Some 0) (Some 0)
    = Some tv
    /\ getFullYear tz (Some tv) = Some y
    /\ getMonth tz (Some tv) = Some (mo - 1)
    /\ getDate tz (Some tv) = Some 1
    /\ getHours tz (Some tv) = Some 0
    /\ getMinutes tz (Some tv) = Some 0.
Proof.
  intros Hz Hy Hm. pose proof (daysOfMonth_pos y (mo - 1)).
  destruct (ofFields_fields tz y mo 1 0 0 Hz Hy) as (tv & E & _ & FY & FM & FD & FH & FMi);
    try lia.
  { split; lia. }
  exists tv.
  unfold getFullYear, getMonth, getDate, getHours, getMinutes, localField,
    option_map.
  rewrite FY, FM, FD, FH, FMi. repeat split; assumption || reflexivity.
Qed.

Lemma next_date tz d y mo :
  zoneOffset tz -> keyYear y -> keyYear (y + 1) ->
  getFullYear tz d = Some y -> getMonth tz d = Some (mo - 1) ->
  ofFields tz (getFullYear tz d) (num_add (getMonth tz d) (Some 1)) (Some 1)
    (Some 0) (Some 0) (Some 0) (Some 0)
  = ofFields tz (Some (fst (nextMonth (y, mo))))
      (Some (snd (nextMonth (y, mo)) - 1)) (Some 1)
      (Some 0) (Some 0) (Some 0) (Some 0).
Proof.
  intros Hz Hy Hy1 FY FM. pose proof (getMonth_range _ _ _ FM) as R.
  rewrite FY, FM. cbn [num_add].
  destruct (nextMonth_valid y mo ltac:(lia)) as [_ Y].
  apply ofFields_same_day; [assumption|destruct Y as [->| ->]; assumption|].
  replace mo with (mo - 1 + 1) at 2 3 by lia.
  apply MakeDay_next. lia.
Qed.

Lemma prev_date tz d y mo :
  zoneOffset tz -> keyYear y -> keyYear (y - 1) ->
  getFullYear tz d = Some y -> getMonth tz d = Some (mo - 1) ->
  ofFields tz (getFullYear tz d) (num_sub (getMonth tz d) (Some 1)) (Some 1)
    (Some 0) (Some 0) (Some 0) (Some 0)
  = ofFields tz (Some (fst (prevMonth (y, mo))))
      (Some (snd (prevMonth (y, mo)) - 1)) (Some 1)
      (Some 0) (Some 0) (Some 0) (Some 0).
Proof.
  intros Hz Hy Hy1 FY FM. pose proof (getMonth_range _ _ _ FM) as R.
  rewrite FY, FM. cbn [num_sub].
  destruct (prevMonth_valid y mo ltac:(lia)) as [_ Y].
  apply ofFields_same_day; [assumption|destruct Y as [->| ->]; assumption|].
  replace mo with (mo - 1 + 1) at 2 3 by lia.
  apply MakeDay_prev. lia.
Qed.

End NavLemmas.

(** X1. On a calendar that shows the month [mo] of the year [y], the
    next-month button sets the current date to the first day, 00:00 local
    time, of the following month (January of [y + 1] after December), the
    previous-month button to that of the preceding month (December of
    [y - 1] before January); going forth and back, or back and forth,
    lands on the first day of the month shown; and the buttons change
    nothing but the current date. *)
Theorem month_navigation env st y mo :
  zoneOffset (tza env) -> keyYear (y - 1) -> keyYear (y + 1) ->
  showsMonth (tza env) (Calendar.currentDate st) y mo ->
  let next := Handler.stateOf (Handler.run (Calendar.handleNextMonth env st) st) in
  let prev := Handler.stateOf (Handler.run (Calendar.handlePrevMonth env st) st) in
  let back := Handler.stateOf (Handler.run (Calendar.handlePrevMonth env next) next) in
  let forth := Handler.stateOf (Handler.run (Calendar.handleNextMonth env prev) prev) in
  firstOfMonthAt (tza env) (Calendar.currentDate next)
    (fst (nextMonth (y, mo))) (snd (nextMonth (y, mo)))
  /\ firstOfMonthAt (tza env) (Calendar.currentDate prev)
       (fst (prevMonth (y, mo))) (snd (prevMonth (y, mo)))
  /\ firstOfMonthAt (tza env) (Calendar.currentDate back) y mo
  /\ Calendar.currentDate back = Calendar.currentDate forth
  /\ next = Calendar.setCurrentDate (Calendar.currentDate next) st
  /\ prev = Calendar.setCurrentDate (Calendar.currentDate prev) st.
Proof.
  intros Hz Hy0 Hy1 [FY FM]. cbv zeta.
  assert (Hy : keyYear y) by (unfold keyYear in *; lia).
  pose proof (NavLemmas.getMonth_range _ _ _ FM) as R.
  assert (Hmo : 1 <= mo <= 12) by lia.
  destruct (NavLemmas.nextMonth_valid y mo Hmo) as [Nm Ny].
  destruct (NavLemmas.prevMonth_valid y mo Hmo) as [Pm Py].
  assert (Kn : keyYear (fst (nextMonth (y, mo))))
    by (destruct Ny as [->| ->]; assumption).
  assert (Kp : keyYear (fst (prevMonth (y, mo))))
    by (destruct Py as [->| ->]; assumption).
  unfold Calendar.handleNextMonth, Calendar.handlePrevMonth. run_handler.
  cbn [fst snd Calendar.setCurrentDate Calendar.currentDate].
  rewrite (NavLemmas.next_date (tza env) _ y mo), (NavLemmas.prev_date (tza env) _ y mo) by assumption.
  destruct (NavLemmas.first_fields (tza env) _ _ Hz Kn Nm) as (tn & En & Fn).
  destruct (NavLemmas.first_fields (tza env) _ _ Hz Kp Pm) as (tp & Ep & Fp).
  rewrite En, Ep.
  destruct Fn as (FnY & FnM & FnR). destruct Fp as (FpY & FpM & FpR).
  assert (K1 : keyYear (fst (nextMonth (y, mo)) - 1) /\ keyYear (fst (prevMonth (y, mo)) + 1)).
  { unfold keyYear in *. destruct Ny as [->| ->], Py as [->| ->]; lia. }
  destruct K1 as [K1 K2].
  rewrite (NavLemmas.prev_date (tza env) (Some tn) _ _ Hz Kn K1 FnY FnM).
  rewrite (NavLemmas.next_date (tza env) (Some tp) _ _ Hz Kp K2 FpY FpM).
  rewrite <- !surjective_pairing, NavLemmas.prev_next, NavLemmas.next_prev by assumption.
  cbn [fst snd].
  destruct (NavLemmas.first_fields (tza env) y mo Hz Hy Hmo) as (t0 & E0 & F0Y & F0M & F0R).
  rewrite E0.
  unfold firstOfMonthAt, showsMonth. repeat split; auto; tauto.
Qed.


Lemma month_navigation_witness :
  firstOfMonthAt Sample.ist
    (Calendar.currentDate
       (Handler.stateOf
          (Handler.run
             (Calendar.handleNextMonth (Sample.env Sample.at0900 true)
                Sample.calendar)
             Sample.calendar)))
    2024 7.
Proof.
  refine (proj1 (month_navigation (Sample.env Sample.at0900 true)
                   Sample.calendar 2024 6 _ _ _ _)).
  - vm_compute. split; discriminate.
  - unfold keyYear. lia.
  - unfold keyYear. lia.
  - split; vm_compute; reflexivity.
Defined.

(** X2. The grid of a calendar that shows the month [mo] of the year [y]
    (from 100 on) is: as many blank cells as the weekday of the first of
    the month (0 = Sunday), then one day cell for each day 1, 2, ... of
    the month, as many as the month has days in that year; the key of the
    cell of a day is the key of that calendar day. *)
Theorem grid_has_the_days_of_the_month env st y mo :
  zoneOffset (tza env) -> keyYear y ->
  showsMonth (tza env) (Calendar.currentDate st) y mo ->
  exists w,
    0 <= w < 7
    /\ Calendar.firstDayOfMonth (tza env) (Calendar.currentDate st) = Some w
    /\ w = JSDate.WeekDay (JSDate.MakeDate (JSDate.MakeDay y (mo - 1) 1) 0)
    /\ Calendar.renderCells env st
       = map Calendar.Blank (map Z.of_nat (seq 0 (Z.to_nat w)))
           ++ map (Calendar.dayCell env st) (daysUpTo (daysOfMonth y (mo - 1)))
    /\ forall day, In day (daysUpTo (daysOfMonth y (mo - 1))) ->
         validDay y mo day
         /\ Calendar.cellKey (tza env) (Calendar.currentDate st) day
            = dayKey y mo day.
Proof.
  intros Hz Hy [FY FM].
  pose proof (NavLemmas.getMonth_range _ _ _ FM) as R.
  destruct (Calendar.currentDate st) as [t|] eqn:C; [|discriminate].
  assert (EY : JSDate.YearFromTime (JSDate.LocalTime (tza env) t) = y) by (cbn in FY; congruence).
  assert (EM : JSDate.MonthFromTime (JSDate.LocalTime (tza env) t) = mo - 1) by (cbn in FM; congruence).
  exists (JSDate.WeekDay (JSDate.MakeDate (JSDate.MakeDay y (mo - 1) 1) 0)).
  split; [unfold JSDate.WeekDay; apply Z.mod_pos_bound; lia|].
  assert (W : Calendar.firstDayOfMonth (tza env) (Some t)
              = Some (JSDate.WeekDay (JSDate.MakeDate (JSDate.MakeDay y (mo - 1) 1) 0))).
  { rewrite GridShape.firstDayOfMonth_valid by (rewrite ?EY; assumption). now rewrite EY, EM. }
  split; [exact W|]. split; [reflexivity|].
  pose proof (NavFacts.daysOfMonth_pos y (mo - 1)) as P.
  pose proof (DateFacts.daysOfMonth_le_31 y (mo - 1)) as L.
  split.
  - unfold Calendar.renderCells. rewrite C, W.
    rewrite GridShape.daysInMonth_valid by (rewrite ?EY; assumption).
    rewrite EY, EM. cbn [num_add]. rewrite GridShape.loopRange_days by lia.
    f_equal. unfold Calendar.loopRange. now rewrite Z.sub_0_r.
  - intros day Hd. unfold daysUpTo in Hd. apply in_map_iff in Hd as (i & <- & Hi).
    apply in_seq in Hi.
    assert (B : 1 <= Z.of_nat i <= daysOfMonth y (mo - 1)) by lia.
    split; [split; lia|].
    unfold Calendar.cellKey, dayKey.
    rewrite (DateFacts.monthKey_fields (tza env) (Some t) y mo) by (assumption || lia).
    now rewrite StringFacts.pad_twoDigits by lia.
Qed.

Lemma grid_has_the_days_of_the_month_witness :
  exists w,
    0 <= w < 7
    /\ Calendar.firstDayOfMonth Sample.ist (Calendar.currentDate Sample.may)
       = Some w
    /\ w = JSDate.WeekDay (JSDate.MakeDate (JSDate.MakeDay 2024 (5 - 1) 1) 0)
    /\ Calendar.renderCells (Sample.env Sample.at0900 true) Sample.may
       = map Calendar.Blank (map Z.of_nat (seq 0 (Z.to_nat w)))
           ++ map (Calendar.dayCell (Sample.env Sample.at0900 true) Sample.may)
                (daysUpTo (daysOfMonth 2024 (5 - 1)))
    /\ forall day, In day (daysUpTo (daysOfMonth 2024 (5 - 1))) ->
         validDay 2024 5 day
         /\ Calendar.cellKey Sample.ist (Calendar.currentDate Sample.may) day
            = dayKey 2024 5 day.
Proof.
  apply (grid_has_the_days_of_the_month (Sample.env Sample.at0900 true)
           Sample.may 2024 5).
  - vm_compute. split; discriminate.
  - unfold keyYear. lia.
  - split; vm_compute; reflexivity.
Defined.

(** ** Reading back the date-times the pages write *)

Module ParseFacts.
Import JSDate GregorianFacts StringFacts DateFacts.

Lemma digitVal_digit k : 0 <= k <= 9 -> digitVal (digit k) = Some k.
Proof.
  intros H.
  assert (E : match digitVal (digit k) with Some v => v =? k | None => false end = true).
  { apply (checkUpTo_spec 10 (fun z => match digitVal (digit z) with Some v => v =? z | None => false end));
      [vm_compute; reflexivity|lia]. }
  destruct (digitVal (digit k)); [|discriminate]. apply Z.eqb_eq in E. congruence.
Qed.

Lemma readDigits_digit k n s acc :
  0 <= k <= 9 ->
  readDigits (S n) (String (digit k) s) acc = readDigits n s (10 * acc + k).
Proof. intros H. cbn [readDigits]. now rewrite digitVal_digit. Qed.

Lemma readDigits_two n rest acc :
  0 <= n < 100 ->
  readDigits 2 (twoDigits n +++ rest) acc = Some (100 * acc + n, rest).
Proof.
  intros H. unfold twoDigits. cbn [String.append].
  rewrite !readDigits_digit by (Z.div_mod_to_equations; lia).
  cbn [readDigits]. do 2 f_equal. Z.div_mod_to_equations; lia.
Qed.

Lemma readDigits_three n rest acc :
  0 <= n < 1000 ->
  readDigits 3 (threeDigits n +++ rest) acc = Some (1000 * acc + n, rest).
Proof.
  intros H. unfold threeDigits. cbn [String.append].
  rewrite readDigits_digit by (Z.div_mod_to_equations; lia).
  rewrite readDigits_two by (Z.div_mod_to_equations; lia).
  do 2 f_equal. Z.div_mod_to_equations; lia.
Qed.

Lemma readDigits_four n rest acc :
  0 <= n < 10000 ->
  readDigits 4 (fourDigits n +++ rest) acc = Some (10000 * acc + n, rest).
Proof.
  intros H. unfold fourDigits. cbn [String.append].
  rewrite readDigits_digit by (Z.div_mod_to_equations; lia).
  rewrite readDigits_three by (Z.div_mod_to_equations; lia).
  do 2 f_equal. Z.div_mod_to_equations; lia.
Qed.

Lemma digit_isDigit k : 0 <= k <= 9 -> isDigit (digit k) = true.
Proof.
  intros H. apply (checkUpTo_spec 10 (fun z => isDigit (digit z)));
    [vm_compute; reflexivity|lia].
Qed.

Lemma readYear_digit c s :
  isDigit c = true -> readYear (String c s) = readDigits 4 (String c s) 0.
Proof.
  destruct c as [[] [] [] [] [] [] [] []]; intros H; try discriminate H;
    reflexivity.
Qed.

Lemma readYear_four y rest :
  0 <= y < 10000 -> readYear (fourDigits y +++ rest) = Some (y, rest).
Proof.
  intros H. unfold fourDigits at 1. cbn [String.append].
  rewrite readYear_digit by (apply digit_isDigit; Z.div_mod_to_equations; lia).
  change (String (digit (y / 1000)) (threeDigits (y mod 1000) +++ rest))
    with (fourDigits y +++ rest).
  rewrite readDigits_four by assumption. do 2 f_equal.
Qed.


Lemma padZ_four y : 0 <= y <= 9999 -> padZ 4 y = fourDigits y.
Proof.
  intros H. apply String.eqb_eq.
  apply (checkUpTo_spec (Z.to_nat 10000)
           (fun z => String.eqb (padZ 4 z) (fourDigits z)));
    [vm_compute; reflexivity|rewrite Z2Nat.id by lia; lia].
Qed.

Lemma padZ_three n : 0 <= n < 1000 -> padZ 3 n = threeDigits n.
Proof.
  intros H. apply String.eqb_eq.
  apply (checkUpTo_spec (Z.to_nat 1000)
           (fun z => String.eqb (padZ 3 z) (threeDigits z)));
    [vm_compute; reflexivity|rewrite Z2Nat.id by lia; lia].
Qed.

Lemma padZ_two n : 0 <= n < 100 -> padZ 2 n = twoDigits n.
Proof. intros H. now apply pad_twoDigits. Qed.

End ParseFacts.

Module ParseDates.
Import JSDate GregorianFacts StringFacts DateFacts.
Import ParseFacts.

Lemma readDate_key y mo d rest :
  0 <= y < 10000 -> 0 <= mo < 100 -> 0 <= d < 100 ->
  readDate (fourDigits y +++ "-" +++ twoDigits mo +++ "-" +++ twoDigits d +++ rest)
  = Some (y, mo, d, rest).
Proof.
  intros Hy Hm Hd. unfold readDate. rewrite readYear_four by assumption.
  cbn [String.append]. rewrite readDigits_two by assumption.
  cbn [String.append]. rewrite readDigits_two by assumption.
  do 4 f_equal; lia.
Qed.



Lemma readTime_iso H M S ms :
  0 <= H < 24 -> 0 <= M < 60 -> 0 <= S < 60 -> 0 <= ms < 1000 ->
  readTime (twoDigits H +++ ":" +++ twoDigits M +++ ":" +++ twoDigits S
              +++ "." +++ threeDigits ms +++ "Z")
  = Some (MakeTime H M S ms, Some 0).
Proof.
  intros HH HM HS Hms. unfold readTime. rewrite readDigits_two by lia.
  cbn [String.append]. rewrite readDigits_two by lia.
  cbn [String.append]. rewrite readDigits_two by lia.
  cbn [String.append]. rewrite readDigits_three by lia.
  replace (100 * 0 + H) with H by lia. replace (100 * 0 + M) with M by lia.
  replace (100 * 0 + S) with S by lia. replace (1000 * 0 + ms) with ms by lia.
  cbn [readOffset].
  destruct (Z.ltb_spec M 60); [|lia]. destruct (Z.ltb_spec H 24); [|lia].
  destruct (Z.ltb_spec S 60); [|lia].
  reflexivity.
Qed.

End ParseDates.

Module ParseRoundTrip.
Import JSDate GregorianFacts StringFacts DateFacts.
Import ParseFacts ParseDates.






Lemma time_decompose t :
  MakeDate (Day t)
    (MakeTime (HourFromTime t) (MinFromTime t) (SecFromTime t) (msFromTime t))
  = t.
Proof.
  unfold MakeDate, MakeTime, Day, HourFromTime, MinFromTime, SecFromTime,
    msFromTime, msPerDay, msPerHour, msPerMinute, msPerSecond.
  Z.div_mod_to_equations. lia.
Qed.

Lemma time_ranges t :
  0 <= SecFromTime t < 60 /\ 0 <= msFromTime t < 1000.
Proof.
  unfold SecFromTime, msFromTime, msPerSecond.
  split; apply Z.mod_pos_bound; lia.
Qed.

Lemma four_digit_year_in_range t :
  0 <= YearFromTime t <= 9999 -> TimeClip t = Some t.
Proof.
  intros [L U]. pose proof (YearFromDay_spec (Day t)) as S.
  fold (YearFromTime t) in S.
  pose proof (DayFromYear_mono 0 (YearFromTime t) L).
  pose proof (DayFromYear_mono (YearFromTime t + 1) 10000 ltac:(lia)).
  assert (E0 : DayFromYear 0 = -719528) by reflexivity.
  assert (E1 : DayFromYear 10000 = 2932897) by reflexivity.
  unfold TimeClip. destruct (Z.ltb_spec 8640000000000000 (Z.abs t)); [|reflexivity].
  exfalso. unfold Day, msPerDay in *. Z.div_mod_to_equations. lia.
Qed.

(** [Date.parse(d.toISOString())] is [d.getTime()], in every zone. *)
Lemma parse_toISOString tz t :
  0 <= YearFromTime t <= 9999 -> parse tz (toISOString t) = Some t.
Proof.
  intros Hy. unfold toISOString, isoYear.
  destruct (Z.leb_spec 0 (YearFromTime t)); [|lia].
  destruct (Z.leb_spec (YearFromTime t) 9999); [|lia]. cbn [andb].
  destruct (fields_civil t) as [[Hm Hd] E].
  pose proof (daysOfMonth_le_31 (YearFromTime t) (MonthFromTime t + 1 - 1)).
  destruct (hour_minute_range t) as [HH HM].
  destruct (time_ranges t) as [HS Hms].
  rewrite padZ_four, padZ_three, !padZ_two by lia.
  unfold parse. rewrite readDate_key by lia.
  destruct (Z.leb_spec 1 (MonthFromTime t + 1)); [|lia].
  destruct (Z.leb_spec (MonthFromTime t + 1) 12); [|lia].
  destruct (Z.leb_spec 1 (DateFromTime t)); [|lia].
  destruct (Z.leb_spec (DateFromTime t) 31); [|lia].
  match goal with
  | |- context [String.append "T" ?r] =>
      change (String.append "T" r) with (String "T" r)
  end.
  cbn [andb]. rewrite readTime_iso by assumption.
  rewrite E, time_decompose, Z.sub_0_r.
  now apply four_digit_year_in_range.
Qed.

End ParseRoundTrip.





(** X5. Every write that a save, a status change or a drop issues is
    stamped: its [lastUpdatedAt] is a string that reads back, in any
    zone, as the instant of the clock (for a clock in the years 0 to
    9999), whatever the form data said; its [lastUpdatedBy] is the name of
    the user or "Unknown" -- for a drop, the name of the user or nothing. *)
Theorem writes_are_stamped env mu c tz' :
  0 <= JSDate.YearFromTime (now env) <= 9999 ->
  In c (apiCalls (mutationEffects env mu)) ->
  (exists s, stampOf c = Some s /\ JSDate.parse tz' s = Some (now env))
  /\ editorOf c
     = match mu with
       | CalendarDrop _ _ => userName env
       | _ => Some (orElse (userName env) "Unknown")
       end.
Proof.
  intros Hy.
  assert (P : JSDate.parse tz' (nowISO env) = Some (now env))
    by (now apply ParseRoundTrip.parse_toISOString).
  destruct mu as [st data|st data|st dateStr|st data|st m newStatus];
    cbn [mutationEffects].
  - unfold Calendar.handleTaskSave.
    destruct (Calendar.editedId Task.id (Calendar.editingTask st));
      run_handler; destruct (accepts env _); cbn;
      intros [<-|[]]; cbn; eauto.
  - unfold Calendar.handleMeetingSave.
    destruct (Calendar.editedId Meeting.id (Calendar.editingMeeting st));
      run_handler; destruct (accepts env _); cbn;
      intros [<-|[]]; cbn; eauto.
  - unfold Calendar.handleDrop.
    destruct (Calendar.draggedItem st) as [dragged|]; [|intros []].
    destruct (String.eqb (Calendar.dateStr dragged) dateStr); [intros []|].
    cbn [Calendar.withDateStr Calendar.type].
    destruct (Calendar.type dragged); run_handler; destruct (accepts env _);
      cbn; intros [<-|[]]; cbn; eauto.
  - unfold Tracker.handleSave.
    destruct (Tracker.editingMeeting st); run_handler;
      destruct (accepts env _); cbn; intros [<-|[]]; cbn; eauto.
  - unfold Tracker.handleStatusChange. run_handler.
    destruct (accepts env _); cbn; intros [<-|[]]; cbn; eauto.
Qed.

Lemma writes_are_stamped_witness :
  (exists s,
     stampOf
       (TasksCreate
          (Calendar.auditedTask (Sample.env Sample.at0900 false)
             TaskPatch.empty))
     = Some s
     /\ JSDate.parse 0 s = Some Sample.at0900)
  /\ editorOf
       (TasksCreate
          (Calendar.auditedTask (Sample.env Sample.at0900 false)
             TaskPatch.empty))
     = Some "Asha".
Proof.
  apply (writes_are_stamped (Sample.env Sample.at0900 false)
           (CalendarTaskSave Sample.calendar TaskPatch.empty)).
  - vm_compute. split; discriminate.
  - vm_compute. left. reflexivity.
Defined.

(** ** The optimistic update of a drop *)

Module DropMoveFacts.

Lemma map_replace_In {A} (hit : A -> bool) (new : A) (l : list A) (x : A) :
  In x (map (fun i => if hit i then new else i) l)
  <-> (In x l /\ hit x = false) \/ (x = new /\ exists j, In j l /\ hit j = true).
Proof.
  rewrite in_map_iff. split.
  - intros (j & E & Hj). destruct (hit j) eqn:Hh.
    + right. split; [now symmetry|]. now exists j.
    + left. subst x. now split.
  - intros [[Hx Hh]|[-> (j & Hj & Hh)]].
    + exists x. now rewrite Hh.
    + exists j. now rewrite Hh.
Qed.


Lemma dayItems_In st key i :
  In i (Calendar.dayItems st key)
  <-> In i (Calendar.items st) /\ Calendar.dateStr i = key
      /\ Calendar.matchesType st i = true.
Proof.
  unfold Calendar.dayItems.
  rewrite SortFacts.sort_In, filter_In, andb_true_iff, String.eqb_eq. tauto.
Qed.

End DropMoveFacts.
Import DropMoveFacts.

(** X6. After a drop on another day, whatever the server answers: the
    page differs from before in its items and in the drag state, which is
    cleared; the items are as many as before; an item with another id is
    kept, and each item with the id of the dragged one is replaced by the
    dragged item with the target as grouping key, its sort key and its
    embedded record being the old ones; so the item is in no cell but the
    target's, and it is in the target's cell when it was among the items
    and its type passes the toggles. *)
Theorem drop_moves_the_item env st dragged target :
  Calendar.draggedItem st = Some dragged ->
  Calendar.dateStr dragged <> target ->
  let st' := Handler.stateOf (Handler.run (Calendar.handleDrop env st target) st) in
  let moved := Calendar.withDateStr dragged target in
  st' = Calendar.setDraggedItem None
          (Calendar.setItems (fun _ => Calendar.items st') st)
  /\ List.length (Calendar.items st') = List.length (Calendar.items st)
  /\ (forall i, In i (Calendar.items st')
                <-> (In i (Calendar.items st)
                     /\ Calendar.id i <> Calendar.id dragged)
                    \/ (i = moved
                        /\ exists j, In j (Calendar.items st)
                                     /\ Calendar.id j = Calendar.id dragged))
  /\ (forall key i, In i (Calendar.dayItems st' key) ->
        Calendar.id i = Calendar.id dragged -> key = target)
  /\ (In dragged (Calendar.items st) ->
      Calendar.matchesType st dragged = true ->
      In moved (Calendar.dayItems st' target))
  /\ Calendar.sortTime moved = Calendar.sortTime dragged
  /\ Calendar.data moved = Calendar.data dragged.
Proof.
  intros Hd Hne. cbv zeta.
  assert (E : Calendar.items
                (Handler.stateOf
                   (Handler.run (Calendar.handleDrop env st target) st))
              = map (fun i =>
                       if String.eqb (Calendar.id i) (Calendar.id dragged)
                       then Calendar.withDateStr dragged target else i)
                  (Calendar.items st)
              /\ Handler.stateOf
                   (Handler.run (Calendar.handleDrop env st target) st)
                 = Calendar.setDraggedItem None
                     (Calendar.setItems
                        (fun _ =>
                           map (fun i =>
                                  if String.eqb (Calendar.id i) (Calendar.id dragged)
                                  then Calendar.withDateStr dragged target else i)
                             (Calendar.items st)) st)).
  { unfold Calendar.handleDrop. rewrite Hd.
    apply String.eqb_neq in Hne. rewrite Hne.
    cbn [Calendar.withDateStr Calendar.type Calendar.id].
    destruct (Calendar.type dragged); run_handler;
      destruct (accepts env _); cbn; auto. }
  destruct E as [E1 E2].
  assert (In' : forall i,
             In i (Calendar.items
                     (Handler.stateOf
                        (Handler.run (Calendar.handleDrop env st target) st)))
             <-> (In i (Calendar.items st)
                  /\ Calendar.id i <> Calendar.id dragged)
                 \/ (i = Calendar.withDateStr dragged target
                     /\ exists j, In j (Calendar.items st)
                                  /\ Calendar.id j = Calendar.id dragged)).
  { intros i. rewrite E1, map_replace_In.
    rewrite String.eqb_neq.
    split; intros [H|[H (j & Hj & Hh)]]; auto; right; split; auto; exists j;
      split; auto; now apply String.eqb_eq. }
  split; [rewrite E2 at 1; now rewrite E1|].
  split; [now rewrite E1, length_map|].
  split; [exact In'|].
  split; [|split; [|split; reflexivity]].
  - intros key i Hi Hid. apply dayItems_In in Hi as (Hi & Hk & _).
    apply In' in Hi as [[_ N]|[-> _]]; [contradiction|]. now subst key.
  - intros Hin Ht. apply dayItems_In. split; [|split; [reflexivity|]].
    + apply In'. right. split; [reflexivity|]. now exists dragged.
    + rewrite E2. exact Ht.
Qed.

Lemma drop_moves_the_item_witness :
  let st' :=
    Handler.stateOf
      (Handler.run
         (Calendar.handleDrop (Sample.env Sample.at0900 true) Sample.dragging
            "2024-05-12")
         Sample.dragging) in
  List.length (Calendar.items st') = List.length (Calendar.items Sample.dragging).
Proof.
  refine (proj1 (proj2 (drop_moves_the_item (Sample.env Sample.at0900 true)
                          Sample.dragging
                          (Calendar.meetingItem Sample.ist Sample.sync)
                          "2024-05-12" _ _))).
  - reflexivity.
  - vm_compute. discriminate.
Defined.

(** X7. Dropping a task on another day issues one call, the update of
    that task, and the update carries the target as due date and no other
    field of the task (besides the audit fields); when the server accepts
    it, a success toast names the day and nothing is refetched. The target
    is taken as it is: no date is read from it. *)
Theorem task_drop_changes_the_due_date_only env st dragged target :
  Calendar.draggedItem st = Some dragged ->
  Calendar.dateStr dragged <> target ->
  Calendar.type dragged = Calendar.task ->
  let tr := Handler.effectsOf (Handler.run (Calendar.handleDrop env st target) st) in
  exists p,
    apiCalls tr = [TasksUpdate (Calendar.dataId (Calendar.data dragged)) p]
    /\ TaskPatch.dueDate p = Some target
    /\ TaskPatch.id p = None /\ TaskPatch.title p = None
    /\ TaskPatch.status p = None /\ TaskPatch.priority p = None
    /\ TaskPatch.assignedTo p = None /\ TaskPatch.companyId p = None
    /\ (accepts env (TasksUpdate (Calendar.dataId (Calendar.data dragged)) p) = true ->
        tr = [PreventDefault;
              Api (TasksUpdate (Calendar.dataId (Calendar.data dragged)) p);
              ShowToast ("Task moved to " +++ target) "success"]).
Proof.
  intros Hd Hne Ht. cbv zeta. exists (Calendar.taskMove env target).
  unfold Calendar.handleDrop. rewrite Hd.
  apply String.eqb_neq in Hne. rewrite Hne.
  cbn [Calendar.withDateStr Calendar.type Calendar.data Calendar.id].
  rewrite Ht. run_handler.
  destruct (accepts env _); cbn; repeat split; auto; discriminate.
Qed.

Lemma task_drop_changes_the_due_date_only_witness :
  let st :=
    Calendar.setDraggedItem (Some (Calendar.taskItem Sample.report))
      Sample.calendar in
  let tr :=
    Handler.effectsOf
      (Handler.run
         (Calendar.handleDrop (Sample.env Sample.at0900 true) st "2024-05-12")
         st) in
  exists p,
    apiCalls tr
    = [TasksUpdate
         (Calendar.dataId (Calendar.data (Calendar.taskItem Sample.report))) p]
    /\ TaskPatch.dueDate p = Some "2024-05-12"
    /\ TaskPatch.id p = None /\ TaskPatch.title p = None
    /\ TaskPatch.status p = None /\ TaskPatch.priority p = None
    /\ TaskPatch.assignedTo p = None /\ TaskPatch.companyId p = None
    /\ (accepts (Sample.env Sample.at0900 true)
          (TasksUpdate
             (Calendar.dataId
                (Calendar.data (Calendar.taskItem Sample.report))) p)
        = true ->
        tr = [PreventDefault;
              Api (TasksUpdate
                     (Calendar.dataId
                        (Calendar.data (Calendar.taskItem Sample.report))) p);
              ShowToast ("Task moved to " +++ "2024-05-12") "success"]).
Proof.
  apply (task_drop_changes_the_due_date_only (Sample.env Sample.at0900 true)
           (Calendar.setDraggedItem (Some (Calendar.taskItem Sample.report))
              Sample.calendar)
           (Calendar.taskItem Sample.report) "2024-05-12").
  - reflexivity.
  - vm_compute. discriminate.
  - reflexivity.
Defined.

(** ** The handlers of the meeting tracker *)

Module TrackerHandlerFacts.

Lemma optZ_eqb_eq a b : optZ_eqb a b = true <-> a = b.
Proof.
  destruct a, b; cbn; try (split; congruence).
  rewrite Z.eqb_eq. split; congruence.
Qed.

Lemma optZ_eqb_neq a b : optZ_eqb a b = false <-> a <> b.
Proof. rewrite <- optZ_eqb_eq. destruct (optZ_eqb a b); split; congruence. Qed.

Lemma active_open tz ms search filter_ x :
  In x (Tracker.activeMeetings tz ms search filter_) ->
  In x ms /\ Tracker.isClosed x = false.
Proof.
  unfold Tracker.activeMeetings. rewrite SortFacts.sort_In, filter_In.
  intros [Hb Hc]. apply filter_In in Hb as [Hb _].
  now apply negb_true_iff in Hc.
Qed.

Lemma history_closed tz ms search filter_ x :
  In x (Tracker.historyMeetings tz ms search filter_) ->
  In x ms /\ Tracker.isClosed x = true.
Proof.
  unfold Tracker.historyMeetings. rewrite SortFacts.sort_In, filter_In.
  intros [Hb Hc]. now apply filter_In in Hb as [Hb _].
Qed.

End TrackerHandlerFacts.
Import TrackerHandlerFacts.
Import TrackerHandlerFacts.

(** X8. A status change updates the list at once, whatever the server
    answers: the list keeps its length; a meeting with another id is kept,
    and each meeting with the id of the changed one is replaced by that
    meeting with the new status (same id, title and date-time). So, for
    every search text and filter, no meeting with that id is in the active
    section when the new status is "Completed" or "Cancelled", and none is
    in the history section otherwise. *)
Theorem status_change_updates_the_list env st m newStatus tz search filter_ :
  let st' :=
    Handler.stateOf (Handler.run (Tracker.handleStatusChange env m newStatus) st) in
  let updated := MeetingPatch.apply m (Tracker.statusPatch env newStatus) in
  List.length (Tracker.meetings st') = List.length (Tracker.meetings st)
  /\ (forall x, In x (Tracker.meetings st')
                <-> (In x (Tracker.meetings st) /\ Meeting.id x <> Meeting.id m)
                    \/ (x = updated
                        /\ exists j, In j (Tracker.meetings st)
                                     /\ Meeting.id j = Meeting.id m))
  /\ (Meeting.id updated = Meeting.id m
      /\ Meeting.status updated = newStatus
      /\ Meeting.title updated = Meeting.title m
      /\ Meeting.dateTime updated = Meeting.dateTime m)
  /\ (forall x, In x (Tracker.activeMeetings tz (Tracker.meetings st') search filter_) ->
        Meeting.id x = Meeting.id m ->
        newStatus <> "Completed" /\ newStatus <> "Cancelled")
  /\ (forall x, In x (Tracker.historyMeetings tz (Tracker.meetings st') search filter_) ->
        Meeting.id x = Meeting.id m ->
        newStatus = "Completed" \/ newStatus = "Cancelled").
Proof.
  cbv zeta.
  assert (E : Tracker.meetings
                (Handler.stateOf
                   (Handler.run (Tracker.handleStatusChange env m newStatus) st))
              = map (fun x =>
                       if optZ_eqb (Meeting.id x) (Meeting.id m)
                       then MeetingPatch.apply m (Tracker.statusPatch env newStatus)
                       else x)
                  (Tracker.meetings st)).
  { unfold Tracker.handleStatusChange. run_handler.
    destruct (accepts env _); reflexivity. }
  assert (In' : forall x,
             In x (Tracker.meetings
                     (Handler.stateOf
                        (Handler.run (Tracker.handleStatusChange env m newStatus) st)))
             <-> (In x (Tracker.meetings st) /\ Meeting.id x <> Meeting.id m)
                 \/ (x = MeetingPatch.apply m (Tracker.statusPatch env newStatus)
                     /\ exists j, In j (Tracker.meetings st)
                                  /\ Meeting.id j = Meeting.id m)).
  { intros x. rewrite E, map_replace_In, optZ_eqb_neq.
    split; intros [H|[H (j & Hj & Hh)]]; auto; right; split; auto; exists j;
      split; auto; now apply optZ_eqb_eq. }
  split; [now rewrite E, length_map|].
  split; [exact In'|].
  split; [repeat split|].
  split.
  - intros x Hx Hid. apply active_open in Hx as [Hx Hc].
    apply In' in Hx as [[_ N]|[-> _]]; [contradiction|].
    unfold Tracker.isClosed, JSArray.includes in Hc. cbn in Hc.
    rewrite orb_false_r in Hc. apply orb_false_iff in Hc as [C1 C2].
    now apply String.eqb_neq in C1, C2.
  - intros x Hx Hid. apply history_closed in Hx as [Hx Hc].
    apply In' in Hx as [[_ N]|[-> _]]; [contradiction|].
    now apply TrackerFacts.isClosed_spec in Hc.
Qed.

(** X9. Confirming a delete with no id pending (none, or the id 0) does
    nothing at all. Otherwise the meetings with the pending id are removed
    from the list and all others kept, the pending id is cleared, one
    delete call is issued for that id, and a refetch is started exactly
    when the server rejects it. *)
Theorem delete_removes_the_meeting env st :
  let r := Handler.run (Tracker.handleDelete env st) st in
  let st' := Handler.stateOf r in
  match Tracker.deleteId st with
  | None | Some 0 => st' = st /\ Handler.effectsOf r = []
  | Some id_ =>
      (forall x, In x (Tracker.meetings st')
                 <-> In x (Tracker.meetings st) /\ Meeting.id x <> Some id_)
      /\ Tracker.deleteId st' = None
      /\ apiCalls (Handler.effectsOf r) = [MeetingsDelete id_]
      /\ refetches (Handler.effectsOf r)
         = negb (accepts env (MeetingsDelete id_))
      /\ st' = Tracker.setDeleteId None
                 (Tracker.setMeetings (fun _ => Tracker.meetings st') st)
  end.
Proof.
  cbv zeta. unfold Tracker.handleDelete.
  destruct (Tracker.deleteId st) as [[|p|p]|] eqn:D;
    try (cbn; split; reflexivity);
    cbn [Z.eqb]; run_handler;
    (destruct (accepts env _); cbn;
     (split; [intros x; rewrite filter_In, negb_true_iff, optZ_eqb_neq; tauto|]);
     repeat split; reflexivity).
Qed.

(** X10. Saving the form of the tracker. With no meeting being edited: a
    create the server accepts puts the meeting the server returns at the
    head of the list, and a rejected create leaves the page as it was and
    starts a refetch. With a meeting being edited: the list keeps its
    length, the meetings with the id of the edited one are replaced by the
    edited meeting overridden by the form data (its title is the form's,
    if the form has one) and stamped with the current time, the others are
    kept, and a refetch is started exactly when the update is rejected. *)
Theorem tracker_save_updates_the_list env st data :
  let r := Handler.run (Tracker.handleSave env st data) st in
  let st' := Handler.stateOf r in
  let finalData := Tracker.audited env data in
  match Tracker.editingMeeting st with
  | None =>
      if accepts env (MeetingsCreate finalData)
      then Tracker.meetings st' = created env finalData :: Tracker.meetings st
           /\ refetches (Handler.effectsOf r) = false
      else st' = st /\ refetches (Handler.effectsOf r) = true
  | Some editing =>
      let updated := MeetingPatch.apply editing finalData in
      List.length (Tracker.meetings st') = List.length (Tracker.meetings st)
      /\ (forall x, In x (Tracker.meetings st')
                    <-> (In x (Tracker.meetings st)
                         /\ Meeting.id x <> Meeting.id updated)
                        \/ (x = updated
                            /\ exists j, In j (Tracker.meetings st)
                                         /\ Meeting.id j = Meeting.id updated))
      /\ Meeting.lastUpdatedAt updated = Some (nowISO env)
      /\ Meeting.title updated
         = match MeetingPatch.title data with
           | Some t => t
           | None => Meeting.title editing
           end
      /\ refetches (Handler.effectsOf r)
         = negb (accepts env (MeetingsUpdate (Meeting.id updated) finalData))
  end.
Proof.
  cbv zeta. unfold Tracker.handleSave.
  destruct (Tracker.editingMeeting st) as [editing|].
  - run_handler.
    assert (In' : forall x,
               In x (Tracker.replaceById
                       (MeetingPatch.apply editing (Tracker.audited env data))
                       (Tracker.meetings st))
               <-> (In x (Tracker.meetings st)
                    /\ Meeting.id x
                       <> Meeting.id (MeetingPatch.apply editing (Tracker.audited env data)))
                   \/ (x = MeetingPatch.apply editing (Tracker.audited env data)
                       /\ exists j, In j (Tracker.meetings st)
                                    /\ Meeting.id j
                                       = Meeting.id (MeetingPatch.apply editing (Tracker.audited env data)))).
    { intros x. unfold Tracker.replaceById. rewrite map_replace_In, optZ_eqb_neq.
      split; intros [H|[H (j & Hj & Hh)]]; auto; right; split; auto; exists j;
        split; auto; now apply optZ_eqb_eq. }
    destruct (accepts env _); cbn [fst snd Tracker.setMeetings Tracker.meetings];
      (split; [unfold Tracker.replaceById; now rewrite length_map|]);
      (split; [exact In'|]); repeat split; reflexivity.
  - run_handler. destruct (accepts env _); cbn; split; reflexivity.
Qed.

(** X11. A fetch of the tracker issues the one read; when it succeeds the
    list is the server's, when it fails the list is kept and no toast is
    shown; either way the page is no longer loading and nothing else of it
    changed. *)
Theorem tracker_fetch env st :
  let r := Handler.run (Tracker.fetchData env) st in
  let st' := Handler.stateOf r in
  Tracker.isLoading st' = false
  /\ apiCalls (Handler.effectsOf r) = [MeetingsGetAll]
  /\ toasts "error" (Handler.effectsOf r) = false
  /\ Tracker.meetings st'
     = (if accepts env MeetingsGetAll then meetingsData env
        else Tracker.meetings st)
  /\ st' = Tracker.setIsLoading false
             (Tracker.setMeetings (fun _ => Tracker.meetings st') st).
Proof.
  cbv zeta. unfold Tracker.fetchData. run_handler.
  destruct (accepts env MeetingsGetAll); cbn; repeat split; reflexivity.
Qed.

(** X12. A fetch of the calendar issues its three reads. When all three
    succeed, the items are the normalized ones and the company map is
    rebuilt; when one fails, the items and the company map are both kept
    and an error toast is shown. Either way the page is no longer loading,
    and the displayed month, the drag state and the selected day are
    untouched. *)
Theorem calendar_fetch env st :
  let r := Handler.run (Calendar.fetchData env) st in
  let st' := Handler.stateOf r in
  let ok := accepts env TasksGetAll && accepts env MeetingsGetAll
            && accepts env CrmGetAll in
  Calendar.isLoading st' = false
  /\ apiCalls (Handler.effectsOf r) = [TasksGetAll; MeetingsGetAll; CrmGetAll]
  /\ toasts "error" (Handler.effectsOf r) = negb ok
  /\ Calendar.items st'
     = (if ok then Calendar.buildItems (tza env) (tasksData env) (meetingsData env)
        else Calendar.items st)
  /\ (forall k, Calendar.companyMap st' k
                = if ok then Calendar.buildCompanyMap (crmList env) k
                  else Calendar.companyMap st k)
  /\ Calendar.currentDate st' = Calendar.currentDate st
  /\ Calendar.draggedItem st' = Calendar.draggedItem st
  /\ Calendar.selectedDateStr st' = Calendar.selectedDateStr st.
Proof.
  cbv zeta. unfold Calendar.fetchData, Calendar.readAll. run_handler.
  destruct (accepts env TasksGetAll && accepts env MeetingsGetAll
            && accepts env CrmGetAll); cbn; repeat split; reflexivity.
Qed.

(** ** Company map, agenda, filters and order *)

Module MiscFacts.

Lemma find_app {A} (p : A -> bool) l1 l2 :
  find p (l1 ++ l2)
  = match find p l1 with Some x => Some x | None => find p l2 end.
Proof.
  induction l1 as [|x l1 IH]; simpl; [reflexivity|].
  destruct (p x); [reflexivity|exact IH].
Qed.

Lemma forEach_company crm acc k :
  JSArray.forEach crm
    (fun map c k => if k =? crm_id c then Some (crm_company c) else map k)
    acc k
  = match find (fun c => crm_id c =? k) (rev crm) with
    | Some c => Some (crm_company c)
    | None => acc k
    end.
Proof.
  revert acc. unfold JSArray.forEach.
  induction crm as [|c crm IH]; intros acc; simpl; [reflexivity|].
  rewrite IH, find_app. simpl.
  destruct (find (fun c0 => crm_id c0 =? k) (rev crm)); [reflexivity|].
  rewrite (Z.eqb_sym (crm_id c) k). now destruct (k =? crm_id c).
Qed.

(** The insertion of [x] does not reorder the elements of one key. *)
Lemma insert_stable {A} (key : A -> Num) (k : Num) x l :
  filter (fun i => num_eqb (key i) k)
    (JSArray.insert (fun a b => num_sub (key a) (key b)) x l)
  = filter (fun i => num_eqb (key i) k) (x :: l).
Proof.
  induction l as [|y l IH]; [reflexivity|].
  cbn [JSArray.insert].
  destruct (num_pos (num_sub (key x) (key y))) eqn:P; [|reflexivity].
  cbn [filter] in *. rewrite IH.
  destruct (num_eqb (key x) k) eqn:Ex, (num_eqb (key y) k) eqn:Ey; try reflexivity.
  exfalso. destruct (key x), (key y), k; cbn in *; try discriminate.
  apply Z.eqb_eq in Ex, Ey. apply Z.ltb_lt in P. lia.
Qed.

Lemma sort_stable {A} (key : A -> Num) (k : Num) l :
  filter (fun i => num_eqb (key i) k)
    (JSArray.sort (fun a b => num_sub (key a) (key b)) l)
  = filter (fun i => num_eqb (key i) k) l.
Proof.
  induction l as [|x l IH]; [reflexivity|].
  cbn [JSArray.sort fold_right]. fold (JSArray.sort (fun a b => num_sub (key a) (key b)) l).
  rewrite insert_stable. cbn [filter]. now rewrite IH.
Qed.

Lemma includes_empty s : JSString.includes "" s = true.
Proof. destruct s; reflexivity. Qed.

End MiscFacts.
Import MiscFacts.
Import MiscFacts.

(** X13. The company map built from the CRM list gives, for an id, the
    company of the last entry with that id, and nothing exactly when no
    entry has the id. *)
Theorem company_map_lookup crm k :
  Calendar.buildCompanyMap crm k
  = option_map crm_company (find (fun c => crm_id c =? k) (rev crm))
  /\ (Calendar.buildCompanyMap crm k = None
      <-> forall c, In c crm -> crm_id c <> k).
Proof.
  unfold Calendar.buildCompanyMap. rewrite forEach_company.
  split; [now destruct (find _ _)|].
  destruct (find (fun c => crm_id c =? k) (rev crm)) as [c|] eqn:F.
  - apply find_some in F as [Hin E]. apply in_rev in Hin. apply Z.eqb_eq in E.
    split; [discriminate|]. intros H. now apply H in Hin.
  - split; [|reflexivity]. intros _ c Hc E.
    apply in_rev in Hc. pose proof (find_none _ _ F c Hc) as N.
    apply Z.eqb_neq in N. contradiction.
Qed.

(** X14. Clicking a day opens its agenda: a rearrangement of exactly the
    items with that grouping key, whatever the toggles say -- so it holds
    every item of the day's cell, and it is the very list of the cell when
    both toggles are on; it ascends by sort key when these are numbers.
    With no day selected the agenda is empty. *)
Theorem agenda_of_the_clicked_day st key :
  let st' := Handler.stateOf (Handler.run (Calendar.selectDay key) st) in
  Permutation (Calendar.getAgendaItems st')
    (filter (fun i => String.eqb (Calendar.dateStr i) key) (Calendar.items st))
  /\ (forall i, In i (Calendar.dayItems st key) ->
                In i (Calendar.getAgendaItems st'))
  /\ (Calendar.showTasks st = true -> Calendar.showMeetings st = true ->
      Calendar.getAgendaItems st' = Calendar.dayItems st key)
  /\ (numericKeys Calendar.sortTime
        (filter (fun i => String.eqb (Calendar.dateStr i) key) (Calendar.items st)) ->
      StronglySorted (keyLe Calendar.sortTime) (Calendar.getAgendaItems st'))
  /\ Calendar.getAgendaItems (Calendar.setSelectedDateStr None st) = [].
Proof.
  cbv zeta. unfold Calendar.selectDay. run_handler.
  unfold Calendar.getAgendaItems.
  cbn [fst snd Calendar.setSelectedDateStr Calendar.selectedDateStr Calendar.items].
  split; [apply SortFacts.sort_perm|].
  split.
  { intros i Hi. unfold Calendar.dayItems in Hi.
    rewrite SortFacts.sort_In, filter_In in *.
    destruct Hi as [Hi Hk]. apply andb_true_iff in Hk as [Hk _]. now split. }
  split.
  { intros HT HM. unfold Calendar.dayItems. f_equal. apply filter_ext.
    intros i. rewrite GridFacts.matchesType_toggles, HT, HM.
    unfold passesToggles. destruct (Calendar.type i); now rewrite andb_true_r. }
  split; [intros N; now apply (SortFacts.sort_ascending Calendar.sortTime)|].
  reflexivity.
Qed.

(** X15. With a status filter other than "All": when the filter is
    "Cancelled" (or "Completed") the active section is empty, and when it
    is any other status the history section is empty. *)
Theorem status_filter_empties_a_section tz ms search filter_ :
  filter_ <> "All" ->
  (filter_ = "Completed" \/ filter_ = "Cancelled" ->
   Tracker.activeMeetings tz ms search filter_ = [])
  /\ (filter_ <> "Completed" -> filter_ <> "Cancelled" ->
      Tracker.historyMeetings tz ms search filter_ = []).
Proof.
  intros NA.
  assert (S : forall m, In m (Tracker.baseFiltered ms search filter_) ->
                        Meeting.status m = filter_).
  { intros m Hm. apply TrackerFacts.baseFiltered_spec in Hm as (_ & _ & [E|E]);
      [contradiction|exact E]. }
  split.
  - intros C. unfold Tracker.activeMeetings.
    rewrite NormalizerFacts.filter_none; [reflexivity|].
    intros m Hm. apply negb_false_iff, TrackerFacts.isClosed_spec.
    now rewrite (S m Hm).
  - intros N1 N2. unfold Tracker.historyMeetings.
    rewrite NormalizerFacts.filter_none; [reflexivity|].
    intros m Hm. apply not_true_iff_false. rewrite TrackerFacts.isClosed_spec.
    rewrite (S m Hm). tauto.
Qed.

Lemma status_filter_empties_a_section_witness :
  Tracker.activeMeetings Sample.ist [Sample.sync; Sample.review] ""
    "Cancelled"
  = [].
Proof.
  refine (proj1 (status_filter_empties_a_section Sample.ist
                   [Sample.sync; Sample.review] "" "Cancelled" _)
            (or_intror eq_refl)).
  discriminate.
Defined.

(** X16. With an empty search text and the filter "All" every meeting
    passes the base filter, and the two sections together are a
    rearrangement of all the meetings. *)
Theorem empty_search_lists_every_meeting tz ms :
  Tracker.baseFiltered ms "" "All" = ms
  /\ Permutation
       (Tracker.activeMeetings tz ms "" "All"
          ++ Tracker.historyMeetings tz ms "" "All")
       ms.
Proof.
  assert (B : Tracker.baseFiltered ms "" "All" = ms).
  { unfold Tracker.baseFiltered. apply NormalizerFacts.filter_all.
    intros m _. unfold Tracker.matchesSearch, Tracker.matchesStatus.
    cbn [JSString.toLowerCase]. now rewrite includes_empty. }
  split; [exact B|].
  unfold Tracker.activeMeetings, Tracker.historyMeetings.
  rewrite !SortFacts.sort_perm, B. apply ListFacts.filter_partition.
Qed.

(** X17. Sorting a cell is stable: the items of a cell that have one and
    the same sort key -- all its tasks have the key 0 -- are in the order
    they have in the item collection. *)
Theorem cell_sort_is_stable st key k :
  filter (fun i => num_eqb (Calendar.sortTime i) k) (Calendar.dayItems st key)
  = filter (fun i => num_eqb (Calendar.sortTime i) k)
      (filter (fun i => String.eqb (Calendar.dateStr i) key
                        && passesToggles (Calendar.showTasks st)
                             (Calendar.showMeetings st) (Calendar.type i))
         (Calendar.items st)).
Proof.
  unfold Calendar.dayItems, Calendar.bySortTime.
  rewrite (sort_stable Calendar.sortTime). f_equal. apply filter_ext.
  intros i. now rewrite GridFacts.matchesType_toggles.
Qed.

(** ** From opening a form to saving it *)

(** X18. A form opened by quick-create (task or meeting, on any day
    string) or by the tracker's new-meeting button, then saved, issues a
    create: the drafts have no record id. Each of these handlers opens its
    form. *)
Theorem new_form_then_save_creates env cal trk dateStr tdata mdata :
  let calT := Handler.stateOf
                (Handler.run (Calendar.handleCreateTaskForDate env dateStr) cal) in
  let calM := Handler.stateOf
                (Handler.run (Calendar.handleCreateMeetingForDate env dateStr) cal) in
  let trkN := Handler.stateOf (Handler.run Tracker.handleCreate trk) in
  apiCalls (Handler.effectsOf (Handler.run (Calendar.handleTaskSave env calT tdata) calT))
  = [TasksCreate (Calendar.auditedTask env tdata)]
  /\ apiCalls (Handler.effectsOf
                 (Handler.run (Calendar.handleMeetingSave env calM mdata) calM))
     = [MeetingsCreate (Calendar.auditedMeeting env mdata)]
  /\ apiCalls (Handler.effectsOf (Handler.run (Tracker.handleSave env trkN mdata) trkN))
     = [MeetingsCreate (Tracker.audited env mdata)]
  /\ Calendar.isTaskModalOpen calT = true
  /\ Calendar.isMeetingModalOpen calM = true
  /\ Tracker.isModalOpen trkN = true.
Proof.
  cbv zeta.
  unfold Calendar.handleCreateTaskForDate, Calendar.handleCreateMeetingForDate,
    Tracker.handleCreate, Calendar.handleTaskSave, Calendar.handleMeetingSave,
    Tracker.handleSave.
  run_handler.
  cbn [fst snd Calendar.setIsTaskModalOpen Calendar.setEditingTask
       Calendar.setIsMeetingModalOpen Calendar.setEditingMeeting
       Calendar.editingTask Calendar.editingMeeting
       Tracker.setIsModalOpen Tracker.setEditingMeeting Tracker.editingMeeting
       Calendar.isTaskModalOpen Calendar.isMeetingModalOpen Tracker.isModalOpen].
  assert (T : Calendar.editedId Task.id
                (Some (Calendar.taskDraft env dateStr)) = None)
    by reflexivity.
  assert (M : Calendar.editedId Meeting.id
                (Some (Calendar.meetingDraft env dateStr)) = None).
  { unfold Calendar.meetingDraft. destruct (Calendar.splitDate dateStr) as [[? ?] ?].
    reflexivity. }
  rewrite T, M.
  destruct (accepts env (TasksCreate _)), (accepts env (MeetingsCreate (Calendar.auditedMeeting env mdata))),
    (accepts env (MeetingsCreate (Tracker.audited env mdata)));
    repeat split; reflexivity.
Qed.

(** X19. A form opened on an existing task or meeting (with a non-zero
    id), then saved with form data that carries no id of its own, issues
    the update of that very record, on the calendar and in the tracker;
    opening the form from the calendar closes the popover. *)
Theorem opened_form_then_save_updates env cal trk t m n k tdata mdata :
  Task.id t = Some n -> n <> 0 -> Meeting.id m = Some k -> k <> 0 ->
  MeetingPatch.id mdata = None ->
  let calT := Handler.stateOf (Handler.run (Calendar.handleTaskClick t) cal) in
  let calM := Handler.stateOf (Handler.run (Calendar.handleMeetingClick m) cal) in
  let trkE := Handler.stateOf (Handler.run (Tracker.handleEdit m) trk) in
  apiCalls (Handler.effectsOf (Handler.run (Calendar.handleTaskSave env calT tdata) calT))
  = [TasksUpdate (Some n) (Calendar.auditedTask env tdata)]
  /\ apiCalls (Handler.effectsOf
                 (Handler.run (Calendar.handleMeetingSave env calM mdata) calM))
     = [MeetingsUpdate (Some k) (Calendar.auditedMeeting env mdata)]
  /\ apiCalls (Handler.effectsOf (Handler.run (Tracker.handleSave env trkE mdata) trkE))
     = [MeetingsUpdate (Some k) (Tracker.audited env mdata)]
  /\ Calendar.popover calT = None /\ Calendar.popover calM = None.
Proof.
  intros Ht Hn Hm Hk Hd. cbv zeta.
  unfold Calendar.handleTaskClick, Calendar.handleMeetingClick,
    Tracker.handleEdit, Calendar.handleTaskSave, Calendar.handleMeetingSave,
    Tracker.handleSave.
  run_handler.
  cbn [fst snd Calendar.setIsTaskModalOpen Calendar.setEditingTask
       Calendar.setIsMeetingModalOpen Calendar.setEditingMeeting
       Calendar.setPopover Calendar.popover
       Calendar.editingTask Calendar.editingMeeting Calendar.editedId
       Tracker.setIsModalOpen Tracker.setEditingMeeting Tracker.editingMeeting
       MeetingPatch.apply Meeting.id].
  rewrite Ht, Hm. cbn [truthyId].
  destruct (Z.eqb_spec n 0); [contradiction|].
  destruct (Z.eqb_spec k 0); [contradiction|]. cbn [negb].
  assert (E : MeetingPatch.overOpt (MeetingPatch.id (Tracker.audited env mdata)) (Some k)
              = Some k).
  { unfold Tracker.audited, MeetingPatch.withAudit. cbn [MeetingPatch.id].
    now rewrite Hd. }
  rewrite E.
  destruct (accepts env (TasksUpdate _ _)),
    (accepts env (MeetingsUpdate (Some k) (Calendar.auditedMeeting env mdata))),
    (accepts env (MeetingsUpdate (Some k) (Tracker.audited env mdata)));
    repeat split; reflexivity.
Qed.

Lemma opened_form_then_save_updates_witness :
  let calT :=
    Handler.stateOf
      (Handler.run (Calendar.handleTaskClick Sample.report) Sample.calendar) in
  apiCalls
    (Handler.effectsOf
       (Handler.run
          (Calendar.handleTaskSave (Sample.env Sample.at0900 true) calT
             TaskPatch.empty)
          calT))
  = [TasksUpdate (Some 3)
       (Calendar.auditedTask (Sample.env Sample.at0900 true) TaskPatch.empty)].
Proof.
  refine (proj1 (opened_form_then_save_updates (Sample.env Sample.at0900 true)
                   Sample.calendar Sample.tracker Sample.report Sample.sync
                   3 7 TaskPatch.empty MeetingPatch.empty _ _ _ _ _)).
  - reflexivity.
  - discriminate.
  - reflexivity.
  - discriminate.
  - reflexivity.
Defined.

(** X20. The save handlers of the calendar never change the page
    themselves; when the write is not rejected they show a success toast,
    no error toast, and start the refetch that brings the change in. *)
Theorem calendar_save_leaves_the_page env st tdata mdata :
  let rt := Handler.run (Calendar.handleTaskSave env st tdata) st in
  let rm := Handler.run (Calendar.handleMeetingSave env st mdata) st in
  Handler.stateOf rt = st /\ Handler.stateOf rm = st
  /\ (~ writeRejected env (Handler.effectsOf rt) ->
      refetches (Handler.effectsOf rt) = true
      /\ toasts "success" (Handler.effectsOf rt) = true
      /\ toasts "error" (Handler.effectsOf rt) = false)
  /\ (~ writeRejected env (Handler.effectsOf rm) ->
      refetches (Handler.effectsOf rm) = true
      /\ toasts "success" (Handler.effectsOf rm) = true
      /\ toasts "error" (Handler.effectsOf rm) = false).
Proof.
  cbv zeta. unfold Calendar.handleTaskSave, Calendar.handleMeetingSave.
  destruct (Calendar.editedId Task.id (Calendar.editingTask st)),
    (Calendar.editedId Meeting.id (Calendar.editingMeeting st));
    run_handler;
    match goal with
    | |- context [accepts env ?c] =>
        destruct (accepts env c) eqn:A1
    end;
    match goal with
    | |- context [accepts env ?c] =>
        destruct (accepts env c) eqn:A2
    end;
    cbn [fst snd]; (split; [reflexivity|]); (split; [reflexivity|]);
    split; intros NR; try (cbn; repeat split; reflexivity);
    exfalso; apply NR; eexists; (split; [left; reflexivity|assumption]).
Qed.

(** X21. On a calendar with both toggles on, switching the tasks off
    leaves in every cell exactly its meetings, switching the meetings off
    exactly its tasks; switching the tasks off and on again gives the page
    back; the toggles touch neither the items nor the agenda. *)
Theorem toggles_filter_the_cells st key i :
  let noTasks := Handler.stateOf (Handler.run (Calendar.toggleTasks st) st) in
  let noCalls := Handler.stateOf (Handler.run (Calendar.toggleMeetings st) st) in
  Calendar.showTasks st = true -> Calendar.showMeetings st = true ->
  (In i (Calendar.dayItems noTasks key)
   <-> In i (Calendar.dayItems st key) /\ Calendar.type i = Calendar.meeting)
  /\ (In i (Calendar.dayItems noCalls key)
      <-> In i (Calendar.dayItems st key) /\ Calendar.type i = Calendar.task)
  /\ Handler.stateOf (Handler.run (Calendar.toggleTasks noTasks) noTasks) = st
  /\ Calendar.items noTasks = Calendar.items st
  /\ Calendar.getAgendaItems noTasks = Calendar.getAgendaItems st.
Proof.
  cbv zeta. intros HT HM. unfold Calendar.toggleTasks, Calendar.toggleMeetings.
  run_handler. cbn [fst snd].
  unfold Calendar.dayItems.
  rewrite !SortFacts.sort_In, !filter_In, !GridFacts.matchesType_toggles.
  cbn [Calendar.setShowTasks Calendar.setShowMeetings Calendar.showTasks
       Calendar.showMeetings Calendar.items].
  rewrite HT, HM. cbn [negb]. unfold passesToggles.
  split; [|split; [|split; [|split]]].
  - destruct (Calendar.type i); rewrite ?andb_true_r, ?andb_false_r;
      intuition (discriminate || congruence).
  - destruct (Calendar.type i); rewrite ?andb_true_r, ?andb_false_r;
      intuition (discriminate || congruence).
  - destruct st; cbn in *; subst; reflexivity.
  - reflexivity.
  - reflexivity.
Qed.

Lemma toggles_filter_the_cells_witness :
  Handler.stateOf
    (Handler.run
       (Calendar.toggleTasks
          (Handler.stateOf
             (Handler.run (Calendar.toggleTasks Sample.may) Sample.may)))
       (Handler.stateOf
          (Handler.run (Calendar.toggleTasks Sample.may) Sample.may)))
  = Sample.may.
Proof.
  refine (proj1 (proj2 (proj2 (toggles_filter_the_cells Sample.may
                                 "2024-05-10"
                                 (Calendar.meetingItem Sample.ist Sample.sync)
                                 _ _)))).
  - reflexivity.
  - reflexivity.
Defined.

(** ** Cells, keys and counts *)

Module KeyFacts.
Import JSDate GregorianFacts StringFacts DateFacts NavFacts GridShape NavLemmas.

Lemma ofZ_neg_head y : y < 0 -> exists r, JSString.ofZ y = String "-" r.
Proof.
  intros H. destruct y as [|p|p]; try lia. unfold JSString.ofZ. cbn. eauto.
Qed.

Lemma ofZ_nonneg_head y :
  0 <= y -> exists c r, JSString.ofZ y = String c r /\ isDigit c = true.
Proof.
  intros H. destruct (ofZ_nonneg y H) as (d & Hd & -> & _).
  now apply uint_nonempty.
Qed.

(** The key of a day of a year from 0 on is the key of no other day. *)
Lemma dayKey_inj y mo d y' mo' d' :
  0 <= y -> 0 <= mo < 100 -> 0 <= d < 100 ->
  0 <= mo' < 100 -> 0 <= d' < 100 ->
  dayKey y mo d = dayKey y' mo' d' -> y = y' /\ mo = mo' /\ d = d'.
Proof.
  intros Hy Hm Hd Hm' Hd' E.
  destruct (Z.lt_ge_cases y' 0) as [N|P].
  - exfalso. destruct (ofZ_neg_head y' N) as (r & E').
    destruct (ofZ_nonneg_head y Hy) as (c & r' & E'' & D).
    unfold dayKey, monthPrefix in E. rewrite E', E'' in E. cbn in E.
    injection E as -> _. discriminate D.
  - apply (f_equal Calendar.splitDate) in E.
    rewrite !splitDate_dayKey in E by assumption.
    injection E as -> -> ->. auto.
Qed.

Lemma daysUpTo_In n day : In day (daysUpTo n) <-> 1 <= day <= n.
Proof.
  unfold daysUpTo. rewrite in_map_iff. split.
  - intros (i & <- & Hi). apply in_seq in Hi. lia.
  - intros H. exists (Z.to_nat day). split; [lia|]. apply in_seq. lia.
Qed.

Lemma daysUpTo_NoDup n : NoDup (daysUpTo n).
Proof.
  unfold daysUpTo. apply Finite.Injective_map_NoDup; [|apply seq_NoDup].
  intros a b. apply Nat2Z.inj.
Qed.

(** The key of the cell of a day of the month shown. *)
Lemma cellKey_day tz cur y mo day :
  showsMonth tz cur y mo -> 1 <= day <= daysOfMonth y (mo - 1) ->
  Calendar.cellKey tz cur day = dayKey y mo day /\ validDay y mo day.
Proof.
  intros [FY FM] Hd. pose proof (getMonth_range _ _ _ FM) as R.
  pose proof (daysOfMonth_le_31 y (mo - 1)).
  split; [|split; lia].
  unfold Calendar.cellKey, dayKey.
  rewrite (monthKey_fields tz cur y mo) by (assumption || lia).
  now rewrite pad_twoDigits by lia.
Qed.

Lemma cellKey_prefix tz cur day :
  JSString.startsWith (Calendar.monthKey tz cur) (Calendar.cellKey tz cur day)
  = true.
Proof. unfold Calendar.cellKey. apply startsWith_spec. eauto. Qed.

End KeyFacts.

Module CountFacts.

Lemma filter_length_le {A} (p q : A -> bool) l :
  (forall x, p x = true -> q x = true) ->
  (List.length (filter p l) <= List.length (filter q l))%nat.
Proof.
  intros H. induction l as [|x l IH]; simpl; [lia|].
  destruct (p x) eqn:P.
  - rewrite (H x P). simpl. lia.
  - destruct (q x); simpl; lia.
Qed.

Lemma list_sum_cons a l : list_sum (a :: l) = (a + list_sum l)%nat.
Proof. reflexivity. Qed.

(** Counting the items key by key, for keys that are all different. *)
Lemma count_by_key {A} (f : A -> string) keys items :
  NoDup keys ->
  list_sum
    (map (fun k => List.length (filter (fun i => String.eqb (f i) k) items)) keys)
  = List.length (filter (fun i => existsb (String.eqb (f i)) keys) items).
Proof.
  induction 1 as [|k keys Hk ND IH]; cbn [map existsb].
  - induction items; simpl; auto.
  - rewrite list_sum_cons, IH. clear IH. induction items as [|i items IHi]; [reflexivity|].
    cbn [filter]. destruct (String.eqb_spec (f i) k) as [E|N]; cbn [orb].
    + assert (X : existsb (String.eqb (f i)) keys = false).
      { apply not_true_iff_false. intros T. apply existsb_exists in T as (k' & Hin & E').
        apply String.eqb_eq in E'. congruence. }
      rewrite X. cbn [List.length]. lia.
    + destruct (existsb (String.eqb (f i)) keys); cbn [List.length]; lia.
Qed.

End CountFacts.
Import KeyFacts CountFacts.
Import KeyFacts CountFacts.

(** X22. On a calendar that shows the month [mo] of the year [y], an
    item is in the cell of at most one day of the month: the cells of two
    different days have different keys. *)
Theorem item_is_in_one_cell env st y mo d1 d2 i :
  0 <= y -> showsMonth (tza env) (Calendar.currentDate st) y mo ->
  1 <= d1 <= daysOfMonth y (mo - 1) -> 1 <= d2 <= daysOfMonth y (mo - 1) ->
  In i (Calendar.dayItems st
          (Calendar.cellKey (tza env) (Calendar.currentDate st) d1)) ->
  In i (Calendar.dayItems st
          (Calendar.cellKey (tza env) (Calendar.currentDate st) d2)) ->
  d1 = d2.
Proof.
  intros Hy Sh H1 H2 I1 I2.
  destruct (cellKey_day _ _ y mo d1 Sh H1) as [K1 [Vm V1]].
  destruct (cellKey_day _ _ y mo d2 Sh H2) as [K2 [_ V2]].
  unfold Calendar.dayItems in I1, I2.
  rewrite SortFacts.sort_In, filter_In, andb_true_iff, String.eqb_eq in I1, I2.
  destruct I1 as (_ & E1 & _), I2 as (_ & E2 & _).
  rewrite K1 in E1. rewrite K2 in E2.
  pose proof (DateFacts.daysOfMonth_le_31 y (mo - 1)).
  apply (dayKey_inj y mo d1 y mo d2); try lia. congruence.
Qed.

Lemma item_is_in_one_cell_witness :
  In (Calendar.taskItem Sample.report)
    (Calendar.dayItems Sample.may
       (Calendar.cellKey Sample.ist (Calendar.currentDate Sample.may) 10))
  /\ 10 = 10.
Proof.
  assert (H : In (Calendar.taskItem Sample.report)
                (Calendar.dayItems Sample.may
                   (Calendar.cellKey Sample.ist
                      (Calendar.currentDate Sample.may) 10))).
  { vm_compute. left. reflexivity. }
  split; [exact H|].
  refine (item_is_in_one_cell (Sample.env Sample.at0900 true) Sample.may
            2024 5 10 10 (Calendar.taskItem Sample.report) _ _ _ _ H H).
  - lia.
  - split; vm_compute; reflexivity.
  - vm_compute. split; discriminate.
  - vm_compute. split; discriminate.
Defined.

(** X23. On a calendar that shows the month [mo] of the year [y], the
    cell of a day is highlighted as today exactly when the local calendar
    date of the clock is that day of that month of that year. *)
Theorem today_is_flagged env st y mo day :
  0 <= y -> showsMonth (tza env) (Calendar.currentDate st) y mo ->
  1 <= day <= daysOfMonth y (mo - 1) ->
  cellIsToday (Calendar.dayCell env st day) = true
  <-> JSDate.YearFromTime (JSDate.LocalTime (tza env) (now env)) = y
      /\ JSDate.MonthFromTime (JSDate.LocalTime (tza env) (now env)) + 1 = mo
      /\ JSDate.DateFromTime (JSDate.LocalTime (tza env) (now env)) = day.
Proof.
  intros Hy Sh Hd.
  destruct (cellKey_day _ _ y mo day Sh Hd) as [K [Vm V]].
  unfold Calendar.dayCell, cellIsToday. rewrite K, String.eqb_eq.
  rewrite DateFacts.dateKey_valid.
  destruct (GregorianFacts.fields_civil (JSDate.LocalTime (tza env) (now env)))
    as [[Tm Td] _].
  pose proof (DateFacts.daysOfMonth_le_31 y (mo - 1)).
  pose proof (DateFacts.daysOfMonth_le_31
                (JSDate.YearFromTime (JSDate.LocalTime (tza env) (now env)))
                (JSDate.MonthFromTime (JSDate.LocalTime (tza env) (now env)) + 1 - 1)).
  split.
  - intros E. symmetry in E. apply dayKey_inj in E; lia.
  - intros (-> & -> & ->). reflexivity.
Qed.

Lemma today_is_flagged_witness :
  cellIsToday
    (Calendar.dayCell (Sample.env 1715331600000 true) Sample.may 10)
  = true
  <-> JSDate.YearFromTime (JSDate.LocalTime Sample.ist 1715331600000) = 2024
      /\ JSDate.MonthFromTime (JSDate.LocalTime Sample.ist 1715331600000) + 1
         = 5
      /\ JSDate.DateFromTime (JSDate.LocalTime Sample.ist 1715331600000) = 10.
Proof.
  apply (today_is_flagged (Sample.env 1715331600000 true) Sample.may 2024 5 10).
  - lia.
  - split; vm_compute; reflexivity.
  - vm_compute. split; discriminate.
Defined.

(** X24. On a calendar that shows the month [mo] of the year [y], the
    cells of the days of the month hold, all together, at most as many
    items as the header counts for the month: the header counts every item
    whose key starts with the month's prefix, shown or hidden. *)
Theorem grid_shows_at_most_the_month_total env st y mo :
  0 <= y -> showsMonth (tza env) (Calendar.currentDate st) y mo ->
  (list_sum
     (map (fun day =>
             List.length
               (Calendar.dayItems st
                  (Calendar.cellKey (tza env) (Calendar.currentDate st) day)))
        (daysUpTo (daysOfMonth y (mo - 1))))
   <= Calendar.total
        (Calendar.monthlyStats (tza env) (Calendar.items st)
           (Calendar.currentDate st)))%nat.
Proof.
  intros Hy Sh.
  set (cur := Calendar.currentDate st) in *. set (tz := tza env) in *.
  set (days := daysUpTo (daysOfMonth y (mo - 1))).
  set (keys := map (Calendar.cellKey tz cur) days).
  assert (ND : NoDup keys).
  { unfold keys. apply Finite.Injective_map_NoDup_in; [|apply daysUpTo_NoDup].
    intros a b Ha Hb E. apply daysUpTo_In in Ha, Hb.
    destruct (cellKey_day tz cur y mo a Sh Ha) as [Ka [Vm _]].
    destruct (cellKey_day tz cur y mo b Sh Hb) as [Kb _].
    rewrite Ka, Kb in E.
    pose proof (DateFacts.daysOfMonth_le_31 y (mo - 1)).
    apply dayKey_inj in E; lia. }
  transitivity
    (list_sum
       (map (fun k =>
               List.length
                 (filter (fun i => String.eqb (Calendar.dateStr i) k)
                    (Calendar.items st)))
          keys)).
  { unfold keys. rewrite map_map. clear ND.
    induction days as [|d ds IH]; cbn [map]; [reflexivity|].
    rewrite !list_sum_cons. apply Nat.add_le_mono; [|exact IH].
    unfold Calendar.dayItems. rewrite SortFacts.sort_length.
    apply filter_length_le. intros x Hx. now apply andb_true_iff in Hx as [Hx _]. }
  rewrite (count_by_key Calendar.dateStr keys (Calendar.items st) ND).
  unfold Calendar.monthlyStats. cbn [Calendar.total].
  apply filter_length_le. intros i Hi.
  apply existsb_exists in Hi as (k & Hk & E). apply String.eqb_eq in E.
  unfold keys in Hk. apply in_map_iff in Hk as (d & <- & _).
  rewrite E. apply cellKey_prefix.
Qed.

Lemma grid_shows_at_most_the_month_total_witness :
  (list_sum
     (map (fun day =>
             List.length
               (Calendar.dayItems Sample.may
                  (Calendar.cellKey Sample.ist
                     (Calendar.currentDate Sample.may) day)))
        (daysUpTo (daysOfMonth 2024 (5 - 1))))
   <= Calendar.total
        (Calendar.monthlyStats Sample.ist (Calendar.items Sample.may)
           (Calendar.currentDate Sample.may)))%nat.
Proof.
  apply (grid_shows_at_most_the_month_total (Sample.env Sample.at0900 true)
           Sample.may 2024 5).
  - lia.
  - split; vm_compute; reflexivity.
Defined.

Module StatsFacts.

Lemma filter_map_comm {A B} (f : A -> B) (p : B -> bool) l :
  filter p (map f l) = map f (filter (fun x => p (f x)) l).
Proof.
  induction l as [|x l IH]; simpl; [reflexivity|].
  destruct (p (f x)); simpl; now rewrite IH.
Qed.

End StatsFacts.

(** X25. After a fetch, the header of a displayed month counts as tasks
    the tasks that are neither "Completed" nor "Done" and whose due date
    starts with the month's prefix, and as meetings the meetings whose
    local date key starts with it; the total is their sum. *)
Theorem stats_count_open_tasks_and_meetings tz ts ms t :
  let y := JSDate.YearFromTime (JSDate.LocalTime tz t) in
  let mo := JSDate.MonthFromTime (JSDate.LocalTime tz t) + 1 in
  let s := Calendar.monthlyStats tz (Calendar.buildItems tz ts ms) (Some t) in
  Calendar.tasks s
  = List.length
      (filter (fun x => openTask x
                        && String.prefix (monthPrefix y mo) (Task.dueDate x)) ts)
  /\ Calendar.meetings s
     = List.length
         (filter (fun m =>
                    String.prefix (monthPrefix y mo)
                      (Calendar.dateKey tz (JSDate.parse tz (Meeting.dateTime m))))
            ms)
  /\ Calendar.total s = (Calendar.tasks s + Calendar.meetings s)%nat.
Proof.
  cbv zeta.
  destruct (GregorianFacts.fields_civil (JSDate.LocalTime tz t)) as [[Hm _] _].
  assert (K : Calendar.monthKey tz (Some t)
              = monthPrefix (JSDate.YearFromTime (JSDate.LocalTime tz t))
                  (JSDate.MonthFromTime (JSDate.LocalTime tz t) + 1)).
  { apply DateFacts.monthKey_fields; [reflexivity| |exact Hm].
    cbn. f_equal. lia. }
  unfold Calendar.monthlyStats.
  cbn [Calendar.total Calendar.tasks Calendar.meetings].
  rewrite K. set (k := monthPrefix _ _).
  rewrite NormalizerFacts.buildItems_eq, filter_app,
    !StatsFacts.filter_map_comm, ListFacts.filter_filter.
  cbn [Calendar.taskItem Calendar.meetingItem Calendar.dateStr].
  rewrite (filter_ext _ (fun x => openTask x && String.prefix k (Task.dueDate x)))
    by (intros x; now rewrite StringFacts.startsWith_prefix).
  rewrite (filter_ext (fun x => JSString.startsWith k _)
             (fun m => String.prefix k
                         (Calendar.dateKey tz (JSDate.parse tz (Meeting.dateTime m)))))
    by (intros x; now rewrite StringFacts.startsWith_prefix).
  set (T := filter (fun x => openTask x && String.prefix k (Task.dueDate x)) ts).
  set (M := filter _ ms).
  rewrite !filter_app.
  rewrite (NormalizerFacts.filter_all _ (map _ T))
    by (intros x Hx; apply in_map_iff in Hx as (? & <- & _); reflexivity).
  rewrite (NormalizerFacts.filter_none _ (map _ M))
    by (intros x Hx; apply in_map_iff in Hx as (? & <- & _); reflexivity).
  rewrite (NormalizerFacts.filter_none _ (map _ T))
    by (intros x Hx; apply in_map_iff in Hx as (? & <- & _); reflexivity).
  rewrite (NormalizerFacts.filter_all _ (map _ M))
    by (intros x Hx; apply in_map_iff in Hx as (? & <- & _); reflexivity).
  rewrite app_nil_r, app_nil_l, length_app, !length_map.
  repeat split; reflexivity.
Qed.

(** ** Jumping to today *)

Module TodayFacts.
Import JSDate GregorianFacts StringFacts DateFacts NavFacts GridShape KeyFacts.

(** In a list without repetition, one element is equal to a given member. *)
Lemma filter_only (x : Z) l :
  NoDup l -> In x l -> filter (fun d => d =? x) l = [x].
Proof.
  induction 1 as [|a l Ha Hl IH]; [intros []|].
  intros [->|Hx]; cbn [filter].
  - rewrite Z.eqb_refl. f_equal.
    apply NormalizerFacts.filter_none. intros d Hd.
    apply Z.eqb_neq. intros ->. contradiction.
  - destruct (Z.eqb_spec a x) as [->|_]; [contradiction|]. now apply IH.
Qed.

(** The day cells of the month of the clock: the one of the clock's day
    is flagged. *)
Lemma today_cell env st day :
  Calendar.currentDate st = Some (now env) ->
  1 <= day <= daysOfMonth (YearFromTime (LocalTime (tza env) (now env)))
                (MonthFromTime (LocalTime (tza env) (now env))) ->
  100 <= YearFromTime (LocalTime (tza env) (now env)) ->
  cellIsToday (Calendar.dayCell env st day)
  = (day =? DateFromTime (LocalTime (tza env) (now env))).
Proof.
  intros C Hd Hy.
  set (y := YearFromTime (LocalTime (tza env) (now env))) in *.
  set (m := MonthFromTime (LocalTime (tza env) (now env))) in *.
  destruct (valid_fields (tza env) (now env)) as (Hm & FY & FM).
  fold y in FY. fold m in Hm, FM.
  assert (Sh : showsMonth (tza env) (Calendar.currentDate st) y (m + 1)).
  { rewrite C. split; [exact FY|]. now replace (m + 1 - 1) with m by lia. }
  assert (Hd' : 1 <= day <= daysOfMonth y (m + 1 - 1))
    by now replace (m + 1 - 1) with m by lia.
  destruct (cellKey_day _ _ y (m + 1) day Sh Hd') as [K _].
  unfold Calendar.dayCell, cellIsToday. rewrite K, dateKey_valid.
  fold y m.
  destruct (fields_civil (LocalTime (tza env) (now env))) as [[_ Td] _].
  fold y m in Td.
  pose proof (daysOfMonth_le_31 y (m + 1 - 1)).
  destruct (Z.eqb_spec day (DateFromTime (LocalTime (tza env) (now env))))
    as [->|N].
  - apply String.eqb_refl.
  - apply String.eqb_neq. intros E. apply dayKey_inj in E; lia.
Qed.

End TodayFacts.

(** X26. The today button sets the current date to the clock and changes
    nothing else. The grid then shows the month of the clock, and exactly
    one of its cells is highlighted as today: the cell of the local day of
    the clock (for a clock in a year from 100 on). *)
Theorem jump_to_today_flags_one_cell env st :
  zoneOffset (tza env) ->
  keyYear (JSDate.YearFromTime (JSDate.LocalTime (tza env) (now env))) ->
  let st' := Handler.stateOf (Handler.run (Calendar.jumpToToday env) st) in
  st' = Calendar.setCurrentDate (Some (now env)) st
  /\ showsMonth (tza env) (Calendar.currentDate st')
       (JSDate.YearFromTime (JSDate.LocalTime (tza env) (now env)))
       (JSDate.MonthFromTime (JSDate.LocalTime (tza env) (now env)) + 1)
  /\ filter cellIsToday (Calendar.renderCells env st')
     = [Calendar.dayCell env st'
          (JSDate.DateFromTime (JSDate.LocalTime (tza env) (now env)))].
Proof.
  intros Hz Hy st'.
  assert (E : st' = Calendar.setCurrentDate (Some (now env)) st) by reflexivity.
  assert (C : Calendar.currentDate st' = Some (now env)) by (rewrite E; reflexivity).
  clearbody st'.
  set (y := JSDate.YearFromTime (JSDate.LocalTime (tza env) (now env))) in *.
  set (m := JSDate.MonthFromTime (JSDate.LocalTime (tza env) (now env))) in *.
  destruct (GridShape.valid_fields (tza env) (now env)) as (Hm & FY & FM).
  fold y in FY. fold m in Hm, FM.
  split; [exact E|]. split.
  { rewrite C. split; [exact FY|]. now replace (m + 1 - 1) with m by lia. }
  destruct (GregorianFacts.fields_civil (JSDate.LocalTime (tza env) (now env)))
    as [[_ Td] _].
  fold y m in Td. replace (m + 1 - 1) with m in Td by lia.
  pose proof (NavFacts.daysOfMonth_pos y m) as P.
  unfold Calendar.renderCells. rewrite C.
  rewrite GridShape.firstDayOfMonth_valid, GridShape.daysInMonth_valid
    by assumption.
  fold y m. cbn [num_add]. rewrite GridShape.loopRange_days by lia.
  rewrite filter_app.
  rewrite (NormalizerFacts.filter_none cellIsToday (map Calendar.Blank _)).
  2:{ intros c Hc. apply in_map_iff in Hc as (i & <- & _). reflexivity. }
  cbn [app]. rewrite StatsFacts.filter_map_comm.
  rewrite (filter_ext_in _
             (fun d => d =? JSDate.DateFromTime
                              (JSDate.LocalTime (tza env) (now env)))).
  2:{ intros d Hd. apply KeyFacts.daysUpTo_In in Hd.
      apply TodayFacts.today_cell; unfold keyYear in Hy; fold y m; try lia.
      exact C. }
  rewrite TodayFacts.filter_only; [reflexivity|apply KeyFacts.daysUpTo_NoDup|].
  apply KeyFacts.daysUpTo_In. lia.
Qed.

Lemma jump_to_today_flags_one_cell_witness :
  let env := Sample.env 1715331600000 true in
  let st' :=
    Handler.stateOf (Handler.run (Calendar.jumpToToday env) Sample.calendar) in
  filter cellIsToday (Calendar.renderCells env st')
  = [Calendar.dayCell env st'
       (JSDate.DateFromTime (JSDate.LocalTime (tza env) (now env)))].
Proof.
  refine (proj2 (proj2 (jump_to_today_flags_one_cell
                          (Sample.env 1715331600000 true) Sample.calendar
                          _ _))).
  - vm_compute. split; discriminate.
  - vm_compute. split; discriminate.
Defined.
